(** * NetAttacksA: trace parsers and metric derivation

    A shallow embedding of the metric extraction code of the repository:

    - [Main.parse_pcap_metrics] and [Main.parse_log_metrics]
      (src/main.py, the packet-capture and the log parser), and
    - [Omerw.parse_log] (src/omerw.py, the log-only variant that pairs
      "sent" and "received" events by time).

    Modelling conventions.

    - A Python [float] is an exact rational ([Q]); rounding of binary
      floating point is not modelled.  Python [int] is [Z] or [nat]
      (counters).  Where the code converts or divides integers that it
      read from its input (omerw.py), the exceptions of the conversion
      are modelled: [int] refuses a digit string beyond the
      interpreter's limit, and the true division of two ints raises an
      OverflowError when the quotient is beyond the floats.
    - A text line is a [string] whose characters are 8-bit code points
      (the Latin-1 range of Unicode); the character classes of Python's
      [re] module are given for that range.
    - The regular expressions of the source are terms of a small regex
      syntax, run by a backtracking matcher that returns the candidate
      matches in the priority order of Python's engine.
    - Exceptions are explicit: a computation yields an [outcome]
      ([Return] or [Raise]); an [except] clause is a case analysis on
      it, and a loop body that raises keeps the state it had reached.
    - What the functions print is not modelled. *)

From Stdlib Require Import ZArith QArith Qabs Qround Lqa Ascii String.
From stdpp Require Import gmap strings list sorting.

Set Default Proof Using "Type".

Open Scope bool_scope.
Open Scope string_scope.
Open Scope list_scope.

(** ** Characters *)

Module Chars.

Definition code (c : ascii) : N := N_of_ascii c.

Definition in_range (lo hi : N) (c : ascii) : bool :=
  ((lo <=? code c) && (code c <=? hi))%N.

Definition one_of (l : list N) (c : ascii) : bool :=
  existsb (N.eqb (code c)) l.

(** [\d]: a decimal digit. *)
Definition is_digit (c : ascii) : bool := in_range 48 57 c.

(** [\s] and [str.isspace]: tab to carriage return, the four separators
    0x1c-0x1f, space, NEL and the no-break space. *)
Definition is_space (c : ascii) : bool :=
  in_range 9 13 c || in_range 28 32 c || one_of [133; 160]%N c.

(** Alphabetic characters of the Latin-1 range. *)
Definition is_alpha (c : ascii) : bool :=
  in_range 65 90 c || in_range 97 122 c || one_of [170; 181; 186]%N c
  || in_range 192 214 c || in_range 216 246 c || in_range 248 255 c.

(** [\w]: alphanumeric characters and the underscore. *)
Definition is_word (c : ascii) : bool :=
  is_alpha c || is_digit c || one_of [95; 178; 179; 185; 188; 189; 190]%N c.

(** [.] without DOTALL: anything but a newline. *)
Definition is_dot (c : ascii) : bool := negb (code c =? 10)%N.

(** [str.lower] on one character. *)
Definition lower (c : ascii) : ascii :=
  if in_range 65 90 c || in_range 192 214 c || in_range 216 222 c
  then ascii_of_N (code c + 32) else c.

Definition chars (s : string) : list ascii := list_ascii_of_string s.

Definition lower_str (l : list ascii) : list ascii := map lower l.

(** Value of a run of decimal digits, as [int(...)] reads it. *)
Definition digit_val (c : ascii) : Z := Z.of_N (code c) - 48.

Definition int_of_digits (l : list ascii) : Z :=
  fold_left (fun acc c => 10 * acc + digit_val c)%Z l 0%Z.

(** The longest prefix of characters in a class, and what follows it. *)
Fixpoint take_while (p : ascii -> bool) (l : list ascii) : list ascii :=
  match l with
  | a :: l' => if p a then a :: take_while p l' else []
  | [] => []
  end.

Fixpoint drop_while (p : ascii -> bool) (l : list ascii) : list ascii :=
  match l with
  | a :: l' => if p a then drop_while p l' else l
  | [] => []
  end.

(** [needle in haystack] for strings. *)
Fixpoint is_prefix (p s : list ascii) : bool :=
  match p, s with
  | [], _ => true
  | a :: p', b :: s' => if Ascii.eqb a b then is_prefix p' s' else false
  | _ :: _, [] => false
  end.

Fixpoint contains (needle hay : list ascii) : bool :=
  is_prefix needle hay ||
  match hay with
  | [] => false
  | _ :: hay' => contains needle hay'
  end.

End Chars.

(** ** Regular expressions (the fragment of Python's [re] the sources use) *)

Module Re.
Import Chars.

Inductive regex : Type :=
| Eps
| Chr (c : ascii)                 (* a literal character *)
| Cls (p : ascii -> bool)         (* a character class *)
| Seq (r1 r2 : regex)
| Alt (r1 r2 : regex)             (* r1|r2, r1 tried first *)
| Star (p : ascii -> bool)        (* greedy repetition of a class *)
| Bnd                             (* \b *)
| Grp (i : nat) (r : regex).      (* capturing group number i *)

(** A position in the subject: the character before it, and what is left. *)
Record pos : Type := Pos { before : option ascii; rest : list ascii }.

Definition caps : Type := list (nat * list ascii).

Fixpoint Lit (s : string) : regex :=
  match s with
  | EmptyString => Eps
  | String c s' => Seq (Chr c) (Lit s')
  end.

Definition Plus (p : ascii -> bool) : regex := Seq (Cls p) (Star p).
Definition Opt (r : regex) : regex := Alt r Eps.

(** Literal comparison, under re.IGNORECASE when [ic] is set. *)
Definition same (ic : bool) (c a : ascii) : bool :=
  if ic then Ascii.eqb (lower c) (lower a) else Ascii.eqb c a.

(** Greedy star over a class: the longest run first, then shorter ones. *)
Fixpoint star (p : ascii -> bool) (prev : option ascii) (s : list ascii) : list pos :=
  match s with
  | a :: s' => if p a then star p (Some a) s' ++ [Pos prev s] else [Pos prev s]
  | [] => [Pos prev s]
  end.

Definition word_opt (o : option ascii) : bool :=
  match o with Some c => is_word c | None => false end.

Definition at_boundary (x : pos) : bool :=
  xorb (word_opt (before x)) (word_opt (head (rest x))).

Definition step1 (ok : ascii -> bool) (g : caps) (x : pos) : list (caps * pos) :=
  match rest x with
  | a :: s => if ok a then [(g, Pos (Some a) s)] else []
  | [] => []
  end.

Definition consumed (x x' : pos) : list ascii :=
  firstn (length (rest x) - length (rest x')) (rest x).

(** All matches of [r] at [x], in the order a backtracking engine finds them. *)
Fixpoint rmatch (ic : bool) (r : regex) (g : caps) (x : pos) : list (caps * pos) :=
  match r with
  | Eps => [(g, x)]
  | Chr c => step1 (same ic c) g x
  | Cls p => step1 p g x
  | Seq r1 r2 => flat_map (fun gx => rmatch ic r2 (fst gx) (snd gx)) (rmatch ic r1 g x)
  | Alt r1 r2 => rmatch ic r1 g x ++ rmatch ic r2 g x
  | Star p => map (pair g) (star p (before x) (rest x))
  | Bnd => if at_boundary x then [(g, x)] else []
  | Grp i r => map (fun gx => ((i, consumed x (snd gx)) :: fst gx, snd gx)) (rmatch ic r g x)
  end.

(** [pattern.match]: anchored at the start of the subject. *)
Definition re_match (ic : bool) (r : regex) (s : list ascii) : option caps :=
  fst <$> head (rmatch ic r [] (Pos None s)).

(** [pattern.search]: the leftmost start that matches. *)
Fixpoint search_at (ic : bool) (r : regex) (prev : option ascii) (s : list ascii) : option caps :=
  match head (rmatch ic r [] (Pos prev s)) with
  | Some gx => Some (fst gx)
  | None =>
      match s with
      | [] => None
      | a :: s' => search_at ic r (Some a) s'
      end
  end.

Definition re_search (ic : bool) (r : regex) (s : list ascii) : option caps :=
  search_at ic r None s.

(** [m.group(i)] for a group that took part in the match. *)
Fixpoint group (g : caps) (i : nat) : list ascii :=
  match g with
  | [] => []
  | (j, t) :: g' => if Nat.eqb i j then t else group g' i
  end.

(** The character before the position reached after reading [a]. *)
Definition prev_after (prev : option ascii) (a : list ascii) : option ascii :=
  match last a with
  | Some c => Some c
  | None => prev
  end.

(** [r] has a match that leads from [x] to [x'], whatever the captures. *)
Definition reaches (ic : bool) (r : regex) (x x' : pos) : Prop :=
  forall g, exists g', In (g', x') (rmatch ic r g x).

End Re.

(** ** Python values and exceptions *)

Module Py.
Import Chars.

Inductive exn : Type := OSError | ValueError | ZeroDivisionError | OverflowError.

Inductive outcome (A : Type) : Type :=
| Return (a : A)
| Raise (e : exn).
Arguments Return {A} a.
Arguments Raise {A} e.

#[global] Instance outcome_ret : MRet outcome := fun A => @Return A.
#[global] Instance outcome_bind : MBind outcome := fun A B k m =>
  match m with
  | Return a => k a
  | Raise e => Raise e
  end.

(** A loop body that mutates a state and may raise: the state reached
    when the exception is raised is kept. *)
Definition body (S A : Type) : Type := S -> S * outcome A.

Definition ret {S A} (a : A) : body S A := fun s => (s, Return a).
Definition lift {S A} (o : outcome A) : body S A := fun s => (s, o).
Definition update {S} (f : S -> S) : body S unit := fun s => (f s, Return tt).
Definition bind {S A B} (m : body S A) (k : A -> body S B) : body S B :=
  fun s => match m s with
           | (s', Return a) => k a s'
           | (s', Raise e) => (s', Raise e)
           end.

#[global] Instance body_ret {S} : MRet (body S) := fun A => @ret S A.
#[global] Instance body_bind {S} : MBind (body S) := fun A B k m => bind m k.

(** [try: m  except Exception: continue] inside a [for] loop. *)
Definition try_continue {S} (m : body S unit) : S -> S := fun s => fst (m s).

Definition of_option {A} (e : exn) (o : option A) : outcome A :=
  match o with Some a => Return a | None => Raise e end.

(** What [open(path)] and the iteration over its lines meet.  A file
    with bytes that are no text in the encoding of [open] depends on how
    it is opened: read strictly, the UnicodeDecodeError (a ValueError) is
    raised after the lines [ls]; opened with [errors='ignore'] the bytes
    are dropped and the file reads, to its end, as the lines [lenient]. *)
Inductive text_file : Type :=
| Unreadable                        (* open() raises an OSError *)
| Interrupted (ls : list string)    (* a read raises an OSError after these lines *)
| Undecodable (ls lenient : list string)
| Lines (ls : list string).         (* read to the end *)

(** Numbers. *)
Definition float_of_nat (n : nat) : Q := inject_Z (Z.of_nat n).
Definition float_of_int (z : Z) : Q := inject_Z z.

(** [x / y] on floats, and on the counters of the parsers, which stay
    far below the range of a float. *)
Definition div (x y : Q) : outcome Q :=
  if Qeq_bool y 0 then Raise ZeroDivisionError else Return (x / y)%Q.

(** [a / b] on ints of any size.  The quotient is rounded to the nearest
    float; when that is beyond the largest float, which is so from
    [2^1024 - 2^970] on in absolute value, an OverflowError is raised. *)
Definition float_limit : Z := 2 ^ 1024 - 2 ^ 970.

Definition overflows (q : Q) : bool := Qle_bool (inject_Z float_limit) (Qabs q).

Definition int_true_div (a b : Z) : outcome Q :=
  if (b =? 0)%Z then Raise ZeroDivisionError
  else
    let q := (inject_Z a / inject_Z b)%Q in
    if overflows q then Raise OverflowError else Return q.

(** [int(s)] on a string of decimal digits.  CPython refuses a string of
    more than [sys.get_int_max_str_digits()] digits, 4300 unless the
    interpreter is told otherwise, with a ValueError; leading zeros
    count. *)
Definition int_max_str_digits : nat := 4300.

Definition int_refuses (ds : list ascii) : bool :=
  (int_max_str_digits <? length ds)%nat.

(** Truth value of a list: non-empty. *)
Definition truthy {A} (l : list A) : bool :=
  match l with [] => false | _ :: _ => true end.

(** [sum(l)] *)
Definition sum (l : list Q) : Q := fold_left Qplus l 0%Q.
Definition sum_int (l : list Z) : Z := fold_left Z.add l 0%Z.

Definition Qltb (x y : Q) : bool := negb (Qle_bool y x).

(** [max(l)] and [min(l)] of a non-empty list (ValueError on []): the
    first extremal element is kept. *)
Definition max (l : list Q) : outcome Q :=
  match l with
  | [] => Raise ValueError
  | x :: l' => Return (fold_left (fun m y => if Qltb m y then y else m) l' x)
  end.

Definition min (l : list Q) : outcome Q :=
  match l with
  | [] => Raise ValueError
  | x :: l' => Return (fold_left (fun m y => if Qltb y m then y else m) l' x)
  end.

(** [float(s)] on a literal of the shape [\d+\.?\d*]. *)
Definition float_of_literal (l : list ascii) : Q :=
  let ip := take_while is_digit l in
  let fp := drop 1 (drop_while is_digit l) in
  (inject_Z (int_of_digits ip)
   + Qmake (int_of_digits fp) (Z.to_pos (10 ^ Z.of_nat (length fp))))%Q.

(** [round(x, 2)]: to the nearest hundredth, ties to the even one. *)
Definition round2 (x : Q) : Q :=
  let y := (x * 100)%Q in
  let f := Qfloor y in
  let d := (y - inject_Z f)%Q in
  let r := if Qltb d (1 # 2) then f
           else if Qltb (1 # 2) d then (f + 1)%Z
           else if Z.even f then f else (f + 1)%Z in
  Qmake r 100.

End Py.

(** ** src/main.py *)

Module Main.
Import Chars Re Py.

(** *** PCAP parsing *)

(** What [int(getattr(pkt.icmpv6, 'type', 0))] meets: no such field, a
    field that reads as an integer, or one on which [int] raises. *)
Inductive type_field : Type :=
| TypeMissing
| TypeInt (n : Z)
| TypeMalformed.

(** A decoded capture record, as far as the parser looks at it:
    [float(pkt.sniff_timestamp)] ([None] when it raises), whether the
    packet has an [ipv6] layer, and its [icmpv6] layer if any. *)
Record packet : Type := Packet {
  sniff_timestamp : option Q;
  ipv6 : bool;
  icmpv6 : option type_field
}.

(** What the parser is given, once the check of line 41 has answered: a
    path that is no file, a capture whose decoding raises after some
    packets, or a capture read to its end. *)
Inductive capture : Type :=
| NotAFile
| Broken (ps : list packet)
| Packets (ps : list packet).

Record pcap_state : Type := PcapState {
  send_times : list Q;
  recv_times : list Q;
  sent : nat;
  received : nat
}.

Record pcap_metrics : Type := PcapMetrics {
  PDR : Q;
  Average_End_to_End_Delay : Q;
  Throughput : Q
}.

Definition pcap_init : pcap_state := PcapState [] [] 0 0.

Definition pcap_fallback : pcap_metrics := PcapMetrics 0 0 0.

Definition count_sent (t : Q) (st : pcap_state) : pcap_state :=
  PcapState (send_times st ++ [t]) (recv_times st) (S (sent st)) (received st).

Definition count_received (t : Q) (st : pcap_state) : pcap_state :=
  PcapState (send_times st) (recv_times st ++ [t]) (sent st) (S (received st)).

Definition int_of_type (f : type_field) : outcome Z :=
  match f with
  | TypeMissing => Return 0%Z
  | TypeInt n => Return n
  | TypeMalformed => Raise ValueError
  end.

Definition reply_types : list Z := [129; 2; 155]%Z.

(** The body of [for pkt in cap], inside its [try]. *)
Definition packet_body (pkt : packet) : body pcap_state unit :=
  t ← lift (of_option ValueError (sniff_timestamp pkt));
  if ipv6 pkt || bool_decide (is_Some (icmpv6 pkt)) then
    update (count_sent t);;
    match icmpv6 pkt with
    | Some f =>
        ty ← lift (int_of_type f);
        if existsb (Z.eqb ty) reply_types
        then update (count_received t)
        else mret tt
    | None => mret tt
    end
  else mret tt.

Definition on_packet (st : pcap_state) (pkt : packet) : pcap_state :=
  try_continue (packet_body pkt) st.

Definition scan_packets (ps : list packet) : pcap_state :=
  fold_left on_packet ps pcap_init.

(** The capture loop; an exception of the decoder leaves it. *)
Definition read_capture (c : capture) : outcome pcap_state :=
  match c with
  | NotAFile => Raise OSError
  | Broken ps => let _ := scan_packets ps in Raise OSError
  | Packets ps => Return (scan_packets ps)
  end.

Definition pdr_of (st : pcap_state) : outcome Q :=
  if (0 <? sent st)%nat
  then q ← div (float_of_nat (received st)) (float_of_nat (sent st)); mret (q * 100)%Q
  else mret 0%Q.

Definition ae2ed_of (st : pcap_state) : outcome Q :=
  if truthy (recv_times st)
  then q ← div (sum (recv_times st) - sum (take (length (recv_times st)) (send_times st)))%Q
               (float_of_nat (length (recv_times st)));
       mret (q * 1000)%Q
  else mret 0%Q.

Definition duration_of (st : pcap_state) : outcome Q :=
  if truthy (recv_times st) && truthy (send_times st)
  then hi ← max (recv_times st ++ send_times st);
       lo ← min (recv_times st ++ send_times st);
       mret (hi - lo)%Q
  else mret 1%Q.

Definition throughput_of (st : pcap_state) (duration : Q) : outcome Q :=
  if Qltb 0 duration
  then div (float_of_nat (received st)) duration
  else mret 0%Q.

Definition pcap_derive (st : pcap_state) : outcome pcap_metrics :=
  pdr ← pdr_of st;
  ae2ed ← ae2ed_of st;
  duration ← duration_of st;
  throughput ← throughput_of st duration;
  mret (PcapMetrics pdr ae2ed throughput).

(** The answer of [Path(pcap_path).is_file()]. *)
Definition is_file (c : capture) : bool :=
  match c with NotAFile => false | _ => true end.

(** [parse_pcap_metrics], from the answer of the check on. *)
Definition parse_pcap_metrics (c : capture) : outcome pcap_metrics :=
  if negb (is_file c) then Return pcap_fallback
  else
    match read_capture c with
    | Raise _ => Return pcap_fallback          (* except Exception *)
    | Return st => pcap_derive st
    end.

(** [parse_pcap_metrics(pcap_path)], the check of line 41 included.
    The check stands before the [try].  [is_file] answers [False] for a
    path that does not exist; a path that [stat] refuses for another
    reason (a name that is too long, a directory that may not be
    searched) can make it raise an OSError, which then leaves
    [parse_pcap_metrics]. *)
Inductive pcap_path : Type :=
| StatFails
| Examined (c : capture).

Definition parse_pcap_metrics_at (p : pcap_path) : outcome pcap_metrics :=
  match p with
  | StatFails => Raise OSError
  | Examined c => parse_pcap_metrics c
  end.

(** *** Log parsing *)

Definition colon_or_equals : ascii -> bool := one_of [58; 61]%N.

(** [\d+\.?\d*] *)
Definition number : regex := Seq (Plus is_digit) (Seq (Opt (Lit ".")) (Star is_digit)).

(** [Node id is set to (\d+)] *)
Definition NODE_ID_PATTERN : regex :=
  Seq (Lit "Node id is set to ") (Grp 1 (Plus is_digit)).

(** [ETX\s*[:=]\s*] and then group 1, a [number]; compiled with re.I *)
Definition ETX_PATTERN : regex :=
  Seq (Lit "ETX") (Seq (Star is_space) (Seq (Cls colon_or_equals)
    (Seq (Star is_space) (Grp 1 number)))).

Definition DIO_DAO_DIS : regex := Alt (Lit "DIO") (Alt (Lit "DAO") (Lit "DIS")).

(** [(\bRPL\s*(DIO|DAO|DIS)\b|\b(DIO|DAO|DIS)\b|icmpv6.*(rpl|155))],
    compiled with re.I *)
Definition RPL_CTRL_PATTERN : regex :=
  Grp 1 (Alt (Seq Bnd (Seq (Lit "RPL") (Seq (Star is_space) (Seq (Grp 2 DIO_DAO_DIS) Bnd))))
        (Alt (Seq Bnd (Seq (Grp 3 DIO_DAO_DIS) Bnd))
             (Seq (Lit "icmpv6") (Seq (Star is_dot) (Grp 4 (Alt (Lit "rpl") (Lit "155"))))))).

(** [Total\s*energy:\s*] and then group 1, a [number]; compiled with re.I *)
Definition ENERGY_PATTERN : regex :=
  Seq (Lit "Total") (Seq (Star is_space) (Seq (Lit "energy:")
    (Seq (Star is_space) (Grp 1 number)))).

Record log_state : Type := LogState {
  energy_score : Q;
  etx_values : list Q;
  ctrl_count : nat;
  node_ids : gset string
}.

Record log_metrics : Type := LogMetrics {
  Overhead_Packets : Q;
  Energy_Consumption : Q;
  Average_ETX : Q
}.

Definition log_init : log_state := LogState 0 [] 0 empty.

Definition log_fallback : log_metrics := LogMetrics 0 0 1.

Definition node_step (l : list ascii) (st : log_state) : log_state :=
  if contains (chars "Node id is set to") l then
    match re_search false NODE_ID_PATTERN l with
    | Some m => LogState (energy_score st) (etx_values st) (ctrl_count st)
                         ({[ string_of_list_ascii (group m 1) ]} ∪ node_ids st)
    | None => st
    end
  else st.

Definition etx_step (l : list ascii) (st : log_state) : log_state :=
  match re_search true ETX_PATTERN l with
  | Some m => LogState (energy_score st) (etx_values st ++ [float_of_literal (group m 1)])
                       (ctrl_count st) (node_ids st)
  | None => st
  end.

Definition ctrl_step (l : list ascii) (st : log_state) : log_state :=
  match re_search true RPL_CTRL_PATTERN l with
  | Some _ => LogState (energy_score st) (etx_values st) (S (ctrl_count st)) (node_ids st)
  | None => st
  end.

Definition energy_step (l : list ascii) (st : log_state) : log_state :=
  match re_search true ENERGY_PATTERN l with
  | Some m => LogState (float_of_literal (group m 1)) (etx_values st)
                       (ctrl_count st) (node_ids st)
  | None =>
      if contains (chars "TX") l && contains (chars "RX") l
      then LogState (energy_score st + 1)%Q (etx_values st) (ctrl_count st) (node_ids st)
      else st
  end.

(** The body of [for line in f]. *)
Definition on_line (st : log_state) (line : string) : log_state :=
  let l := chars line in
  energy_step l (ctrl_step l (etx_step l (node_step l st))).

Definition scan_lines (ls : list string) : log_state :=
  fold_left on_line ls log_init.

(** [open(log_path, 'r', errors='ignore')] and the loop. *)
Definition read_log (f : text_file) : outcome log_state :=
  match f with
  | Unreadable => Raise OSError
  | Interrupted ls => let _ := scan_lines ls in Raise OSError
  | Undecodable _ lenient => Return (scan_lines lenient)
  | Lines ls => Return (scan_lines ls)
  end.

Definition avg_etx_of (st : log_state) : outcome Q :=
  if truthy (etx_values st)
  then div (sum (etx_values st)) (float_of_nat (length (etx_values st)))
  else mret 1%Q.

Definition node_count_of (st : log_state) : nat := Nat.max 1 (size (node_ids st)).

Definition log_derive (st : log_state) : outcome log_metrics :=
  avg_etx ← avg_etx_of st;
  normalized_ctrl ← div (float_of_nat (ctrl_count st)) (float_of_nat (node_count_of st));
  mret (LogMetrics normalized_ctrl (energy_score st) avg_etx).

Definition parse_log_metrics (f : text_file) : outcome log_metrics :=
  match read_log f with
  | Raise _ => Return log_fallback             (* except Exception *)
  | Return st => log_derive st
  end.

End Main.

(** ** src/omerw.py *)

Module Omerw.
Import Chars Re Py.

(** [(\d+):(\d+)\.(\d+)], used with [re.match] *)
Definition TIMESTAMP_PATTERN : regex :=
  Seq (Grp 1 (Plus is_digit)) (Seq (Lit ":") (Seq (Grp 2 (Plus is_digit))
    (Seq (Lit ".") (Grp 3 (Plus is_digit))))).

(** [\sP\s] *)
Definition POWERTRACE_PATTERN : regex :=
  Seq (Cls is_space) (Seq (Lit "P") (Cls is_space)).

(** [re.findall(r"\d+", line)]: the maximal runs of digits. *)
Fixpoint findall_digits (cur l : list ascii) : list (list ascii) :=
  match l with
  | [] => match cur with [] => [] | _ :: _ => [cur] end
  | a :: l' =>
      if is_digit a then findall_digits (cur ++ [a]) l'
      else match cur with
           | [] => findall_digits [] l'
           | _ :: _ => cur :: findall_digits [] l'
           end
  end.

(** [line.strip().split()[-1]]; [None] stands for the IndexError. *)
Definition last_token (l : list ascii) : option (list ascii) :=
  match drop_while is_space (rev l) with
  | [] => None
  | r => Some (rev (take_while (fun c => negb (is_space c)) r))
  end.

(** A dict with integer keys, in insertion order. *)
Definition dict : Type := list (nat * Z).

Fixpoint dict_set (k : nat) (v : Z) (d : dict) : dict :=
  match d with
  | [] => [(k, v)]
  | (k', v') :: d' =>
      if Nat.eqb k k' then (k, v) :: d' else (k', v') :: dict_set k v d'
  end.

Definition dict_values (d : dict) : list Z := map snd d.

Record state : Type := State {
  sent_packets : nat;
  received_packets : nat;
  delays : list Z;
  energy_consumption : Z;
  etx_values : list Q;
  first_time : option Z;
  last_time : option Z;
  send_times : dict
}.

Record metrics : Type := Metrics {
  PDR : Q;
  Average_End_to_End_Delay : Q;
  Overhead_Packets : Z;
  Energy_Consumption : Z;
  Throughput : Q;
  Average_ETX : Q
}.

Definition init : state := State 0 0 [] 0 [] None None [].

Definition timestamp_of (l : list ascii) : option Z :=
  match re_match false TIMESTAMP_PATTERN l with
  | Some m =>
      let minutes := int_of_digits (group m 1) in
      let seconds := int_of_digits (group m 2) in
      let millis := int_of_digits (group m 3) in
      Some ((minutes * 60 + seconds) * 1000 + millis)%Z
  | None => None
  end.

Definition is_sent (l : list ascii) : bool :=
  contains (chars "broadcast message sent") (lower_str l).

Definition is_received (l : list ascii) : bool :=
  contains (chars "broadcast message received") (lower_str l).

Definition time_step (timestamp : option Z) (st : state) : state :=
  match timestamp with
  | Some t =>
      State (sent_packets st) (received_packets st) (delays st)
            (energy_consumption st) (etx_values st)
            (match first_time st with None => Some t | Some t0 => Some t0 end)
            (Some t) (send_times st)
  | None => st
  end.

Definition sent_step (l : list ascii) (timestamp : option Z) (st : state) : state :=
  if is_sent l then
    let n := S (sent_packets st) in
    State n (received_packets st) (delays st) (energy_consumption st)
          (etx_values st) (first_time st) (last_time st)
          (match timestamp with
           | Some t => dict_set n t (send_times st)
           | None => send_times st
           end)
  else st.

Definition received_step (l : list ascii) (timestamp : option Z) (st : state) : state :=
  if is_received l then
    State (sent_packets st) (S (received_packets st))
          (match timestamp, last (dict_values (send_times st)) with
           | Some t, Some s => delays st ++ [(t - s)%Z]
           | _, _ => delays st
           end)
          (energy_consumption st) (etx_values st) (first_time st) (last_time st)
          (send_times st)
  else st.

Definition energy_step (l : list ascii) (st : state) : state :=
  match re_search false POWERTRACE_PATTERN l with
  | Some _ =>
      let numbers := findall_digits [] l in
      match numbers !! 4%nat, numbers !! 5%nat with
      | Some tx, Some listen =>
          State (sent_packets st) (received_packets st) (delays st)
                (energy_consumption st + (int_of_digits tx + int_of_digits listen))%Z
                (etx_values st) (first_time st) (last_time st) (send_times st)
      | _, _ => st
      end
  | None => st
  end.

(** The digit strings that the body hands to [int] on a line: the three
    groups of a timestamp, and the fifth and sixth number of a powertrace
    line.  [timestamp_of] and [energy_step] give what the body computes
    when [int] accepts them all. *)
Definition converted (l : list ascii) : list (list ascii) :=
  match re_match false TIMESTAMP_PATTERN l with
  | Some m => [group m 1; group m 2; group m 3]
  | None => []
  end ++
  match re_search false POWERTRACE_PATTERN l with
  | Some _ =>
      let numbers := findall_digits [] l in
      match numbers !! 4%nat, numbers !! 5%nat with
      | Some tx, Some listen => [tx; listen]
      | _, _ => []
      end
  | None => []
  end.

Definition int_raises (l : list ascii) : bool := existsb int_refuses (converted l).

Section ParseLog.

(** [float(s)] on an arbitrary token: [None] when it raises. *)
Variable py_float : list ascii -> option Q.

Definition etx_step (l : list ascii) (st : state) : state :=
  if contains (chars "ETX") l then
    match last_token l ≫= py_float with
    | Some etx =>
        State (sent_packets st) (received_packets st) (delays st)
              (energy_consumption st) (etx_values st ++ [etx])
              (first_time st) (last_time st) (send_times st)
    | None => st
    end
  else st.

(** The body of [for line in f]. *)
Definition on_line (st : state) (line : string) : state :=
  let l := chars line in
  let timestamp := timestamp_of l in
  etx_step l (energy_step l (received_step l timestamp
    (sent_step l timestamp (time_step timestamp st)))).

Definition scan_lines (ls : list string) : state := fold_left on_line ls init.

(** The loop as [parse_log] runs it: nothing handles the ValueError of
    an [int] call, so it ends the loop and leaves the function. *)
Fixpoint read_lines (st : state) (ls : list string) : outcome state :=
  match ls with
  | [] => Return st
  | line :: ls' =>
      if int_raises (chars line) then Raise ValueError
      else read_lines (on_line st line) ls'
  end.

(** [open(filename, "r")] and the loop; the file is read strictly, and
    no exception is handled. *)
Definition read_log (f : text_file) : outcome state :=
  match f with
  | Unreadable => Raise OSError
  | Interrupted ls => _ ← read_lines init ls; Raise OSError
  | Undecodable ls _ => _ ← read_lines init ls; Raise ValueError
  | Lines ls => read_lines init ls
  end.

(** Truth value of an optional integer: neither [None] nor 0. *)
Definition truthy_time (o : option Z) : bool :=
  match o with Some t => negb (t =? 0)%Z | None => false end.

Definition pdr_of (st : state) : outcome Q :=
  if (0 <? sent_packets st)%nat
  then q ← div (float_of_nat (received_packets st)) (float_of_nat (sent_packets st));
       mret (q * 100)%Q
  else mret 0%Q.

(** [sum(delays) / len(delays)]: a true division of ints. *)
Definition avg_delay_of (st : state) : outcome Q :=
  if truthy (delays st)
  then int_true_div (sum_int (delays st)) (Z.of_nat (length (delays st)))
  else mret 0%Q.

(** [(last_time - first_time) / 1000]: a true division of ints. *)
Definition duration_of (st : state) : outcome Q :=
  if truthy_time (first_time st) && truthy_time (last_time st)
  then match first_time st, last_time st with
       | Some t0, Some t1 => int_true_div (t1 - t0) 1000
       | _, _ => mret 1%Q
       end
  else mret 1%Q.

Definition throughput_of (st : state) (duration : Q) : outcome Q :=
  if Qltb 0 duration
  then div (float_of_nat (received_packets st)) duration
  else mret 0%Q.

Definition avg_etx_of (st : state) : outcome Q :=
  if truthy (etx_values st)
  then div (sum (etx_values st)) (float_of_nat (length (etx_values st)))
  else mret 0%Q.

Definition derive (st : state) : outcome metrics :=
  pdr ← pdr_of st;
  avg_delay ← avg_delay_of st;
  let overhead_packets := (Z.of_nat (sent_packets st) - Z.of_nat (received_packets st))%Z in
  duration ← duration_of st;
  throughput ← throughput_of st duration;
  avg_etx ← avg_etx_of st;
  mret (Metrics (round2 pdr) (round2 avg_delay) overhead_packets
                (energy_consumption st) (round2 throughput) (round2 avg_etx)).

Definition parse_log (f : text_file) : outcome metrics :=
  st ← read_log f; derive st.

End ParseLog.

(** The decimal spellings [digits] and [digits.digits] of [float(s)];
    used to run [parse_log] on sample logs. *)
Definition float_of_plain (l : list ascii) : option Q :=
  let ip := take_while is_digit l in
  let well_formed :=
    match drop_while is_digit l with
    | [] => true
    | c :: fp => Ascii.eqb c "." && forallb is_digit fp
    end in
  if truthy ip && well_formed then Some (float_of_literal l) else None.

(** *** The pairing of section 4.3, in the specification's words *)

Inductive event : Type :=
| Send (t : Z)
| Receive (t : Z).

(** Outstanding sends are a stack: a receive takes the most recent one
    off it and records the delay; with none outstanding it records
    nothing. *)
Fixpoint lifo_delays (outstanding : list Z) (evs : list event) : list Z :=
  match evs with
  | [] => []
  | Send t :: evs' => lifo_delays (t :: outstanding) evs'
  | Receive t :: evs' =>
      match outstanding with
      | s :: outstanding' => (t - s)%Z :: lifo_delays outstanding' evs'
      | [] => lifo_delays [] evs'
      end
  end.

Definition events_of_line (line : string) : list event :=
  let l := chars line in
  match timestamp_of l with
  | Some t =>
      (if is_sent l then [Send t] else []) ++
      (if is_received l then [Receive t] else [])
  | None => []
  end.

Definition events_of (ls : list string) : list event :=
  concat (map events_of_line ls).

End Omerw.

(** ** Views of the inputs, used to state what the loops compute *)

Module Views.
Import Chars Re Py.

(** The timestamp a packet adds to [send_times], if it is counted as sent. *)
Definition send_time (pkt : Main.packet) : option Q :=
  match Main.sniff_timestamp pkt with
  | Some t =>
      if Main.ipv6 pkt || bool_decide (is_Some (Main.icmpv6 pkt)) then Some t else None
  | None => None
  end.

(** The timestamp a packet adds to [recv_times], if it is counted as received. *)
Definition reply_time (pkt : Main.packet) : option Q :=
  match Main.sniff_timestamp pkt, Main.icmpv6 pkt with
  | Some t, Some (Main.TypeInt n) =>
      if existsb (Z.eqb n) Main.reply_types then Some t else None
  | _, _ => None
  end.

(** Lines of a log on which the control pattern is found. *)
Definition is_ctrl (line : string) : bool :=
  bool_decide (is_Some (re_search true Main.RPL_CTRL_PATTERN (chars line))).

(** The node id a line announces. *)
Definition node_id_of (line : string) : option string :=
  if contains (chars "Node id is set to") (chars line) then
    (fun m => string_of_list_ascii (group m 1))
      <$> re_search false Main.NODE_ID_PATTERN (chars line)
  else None.

(** The number of an explicit "Total energy:" line. *)
Definition energy_of (line : string) : option Q :=
  (fun m => float_of_literal (group m 1))
    <$> re_search true Main.ENERGY_PATTERN (chars line).

(** Lines the energy heuristic counts: TX and RX, and no explicit total. *)
Definition is_tx_rx (line : string) : bool :=
  bool_decide (energy_of line = None)
  && contains (chars "TX") (chars line) && contains (chars "RX") (chars line).

(** The ETX sample on a line of the main log parser. *)
Definition etx_of (line : string) : option Q :=
  (fun m => float_of_literal (group m 1))
    <$> re_search true Main.ETX_PATTERN (chars line).

(** omerw.py: the timestamp of a line that records a send. *)
Definition sent_timestamp (line : string) : option Z :=
  if Omerw.is_sent (chars line) then Omerw.timestamp_of (chars line) else None.

(** omerw.py: the timestamp at the start of a line. *)
Definition line_timestamp (line : string) : option Z :=
  Omerw.timestamp_of (chars line).

(** omerw.py: the ETX sample of a line. *)
Definition omerw_etx_of (py_float : list ascii -> option Q) (line : string) : option Q :=
  if contains (chars "ETX") (chars line)
  then Omerw.last_token (chars line) ≫= py_float
  else None.

(** The control-message matches and the distinct node ids of a log. *)
Definition ctrl_matches (ls : list string) : nat := length (List.filter is_ctrl ls).

Definition distinct_node_ids (ls : list string) : gset string :=
  list_to_set (omap node_id_of ls).

(** The energy score after a line, from the score before it. *)
Definition energy_after (score : Q) (line : string) : Q :=
  match energy_of line with
  | Some v => v
  | None => if is_tx_rx line then (score + 1)%Q else score
  end.

(** The lines the loop of [parse_log_metrics] reads. *)
Definition lines_of (f : text_file) : list string :=
  match f with
  | Unreadable => []
  | Interrupted ls => ls
  | Undecodable _ lenient => lenient
  | Lines ls => ls
  end.

End Views.

(** ** src/main.py: the script around the parsers *)

Module Script.
Import Chars Re Py.

(** The directory BASE: the names of its entries, in the order
    [BASE.glob] yields them.  Names are compared as they are spelled, and
    the name looked for has no glob metacharacter. *)
Definition directory : Type := list string.

(** [(BASE / name).exists()] *)
Definition exists_in (dir : directory) (name : string) : bool :=
  bool_decide (name ∈ dir).

(** [list(BASE.glob(name + '*'))] *)
Definition glob_star (dir : directory) (name : string) : list string :=
  List.filter (fun entry => is_prefix (chars name) (chars entry)) dir.

(** [pick]; FileNotFoundError is an OSError. *)
Definition pick (dir : directory) (name : string) : outcome string :=
  if exists_in dir name then Return name
  else
    match glob_star dir name with
    | [] => Raise OSError
    | m0 :: _ => Return m0
    end.

(** The dicts the two parsers return. *)
Definition pcap_dict (m : Main.pcap_metrics) : gmap string Q :=
  <["PDR" := Main.PDR m]>
    (<["Average End-to-End Delay" := Main.Average_End_to_End_Delay m]>
      (<["Throughput" := Main.Throughput m]> ∅)).

Definition log_dict (m : Main.log_metrics) : gmap string Q :=
  <["Overhead Packets" := Main.Overhead_Packets m]>
    (<["Energy Consumption" := Main.Energy_Consumption m]>
      (<["Average ETX" := Main.Average_ETX m]> ∅)).

(** [d.update(e)]: the entries of [e] win. *)
Definition dict_update (d e : gmap string Q) : gmap string Q := e ∪ d.

Definition metrics_order : list (string * string) :=
  [("PDR", "%"); ("Average End-to-End Delay", "ms"); ("Overhead Packets", "count");
   ("Energy Consumption", "units"); ("Throughput", "pkts/sec"); ("Average ETX", "")].

(** [f"{name} ({unit})" if unit else name] *)
Definition formatted (entry : string * string) : string :=
  match snd entry with
  | EmptyString => fst entry
  | unit => fst entry +:+ " (" +:+ unit +:+ ")"
  end.

Definition formatted_metrics : list string := map formatted metrics_order.
Definition metric_keys : list string := map fst metrics_order.

(** [[m.get(k, 0) for k in metric_keys]] *)
Definition column (m : gmap string Q) : list Q :=
  map (fun k => default 0%Q (m !! k)) metric_keys.

(** [m = parse_pcap_metrics(pcap); m.update(parse_log_metrics(log))] *)
Definition scenario (c : Main.capture) (f : text_file) : outcome (gmap string Q) :=
  m ← Main.parse_pcap_metrics c;
  l ← Main.parse_log_metrics f;
  mret (dict_update (pcap_dict m) (log_dict l)).

(** The columns handed to the data frame in [main]. *)
Record table : Type := Table {
  Metric : list string;
  With_Attack : list Q;
  Without_Attack : list Q
}.

Definition main_table (c_with : Main.capture) (f_with : text_file)
    (c_without : Main.capture) (f_without : text_file) : outcome table :=
  m_with ← scenario c_with f_with;
  m_without ← scenario c_without f_without;
  mret (Table formatted_metrics (column m_with) (column m_without)).

End Script.

(** ** Further views of the inputs *)

Module Traces.
Import Chars Re Py.

(** A capture record the loop counts (as sent, at least). *)
Definition is_counted (pkt : Main.packet) : bool :=
  match Views.send_time pkt with Some _ => true | None => false end.

(** omerw.py: what a line adds to [energy_consumption]. *)
Definition line_energy (line : string) : Z :=
  match re_search false Omerw.POWERTRACE_PATTERN (chars line) with
  | Some _ =>
      let numbers := Omerw.findall_digits [] (chars line) in
      match numbers !! 4%nat, numbers !! 5%nat with
      | Some tx, Some listen => (int_of_digits tx + int_of_digits listen)%Z
      | _, _ => 0%Z
      end
  | None => 0%Z
  end.

(** main.py: the three ways a line can hold a control message, read off
    the alternatives of RPL_CTRL_PATTERN: "rpl", optional white space and
    a frame name, as one word; a frame name as a word of its own; or
    "icmpv6" followed on the same line by "rpl" or "155". *)
Definition frame_names : list (list ascii) := [chars "dio"; chars "dao"; chars "dis"].

Definition control_occurrence (l : list ascii) : Prop :=
  (exists a x ws w c,
     l = a ++ x ++ ws ++ w ++ c /\ lower_str x = chars "rpl" /\
     forallb is_space ws = true /\ In (lower_str w) frame_names /\
     word_opt (last a) = false /\ word_opt (head c) = false) \/
  (exists a w c,
     l = a ++ w ++ c /\ In (lower_str w) frame_names /\
     word_opt (last a) = false /\ word_opt (head c) = false) \/
  (exists a x b y c,
     l = a ++ x ++ b ++ y ++ c /\ lower_str x = chars "icmpv6" /\
     forallb is_dot b = true /\ In (lower_str y) [chars "rpl"; chars "155"]).

(** The text is at its end, or goes on with a character outside [p]. *)
Definition stops (p : ascii -> bool) (s : list ascii) : bool :=
  match s with
  | [] => true
  | c :: _ => negb (p c)
  end.

Definition is_sent_line (line : string) : bool := Omerw.is_sent (chars line).
Definition is_received_line (line : string) : bool := Omerw.is_received (chars line).

(** omerw.py: a log whose numbers are within the range of the
    conversions: [int] accepts every digit string the loop hands to it,
    and every line timestamp is below [2^1022] (milliseconds), so that
    neither of the two true divisions of ints leaves the floats. *)
Definition in_float_range (t : Z) : bool := (Z.abs t <? 2 ^ 1022)%Z.

Definition within_float_range (ls : list string) : bool :=
  forallb (fun line => negb (Omerw.int_raises (chars line))) ls &&
  forallb in_float_range (omap Views.line_timestamp ls).

(** omerw.py: a line that starts with a timestamp of [digits] nines for
    the minutes. *)
Definition long_stamp (digits : nat) (rest : string) : string :=
  string_of_list_ascii (repeat "9"%char digits) +:+ ":00.000 " +:+ rest.

End Traces.

(** * Properties *)

Import Chars Re Py Views Traces.

(** ** The model on sample inputs *)

Example etx_sample : etx_of "rank 256 etx =  12.50 ok" = Some 12.50%Q.
Proof. reflexivity. Qed.

Example node_id_second_try :
  node_id_of "Node id is set to x, Node id is set to 77a" = Some "77".
Proof. reflexivity. Qed.

Example ctrl_samples :
  map is_ctrl ["DIO"; "rpl dao x"; "xDIOx"; "icmpv6 foo 155"; "rpl icmpv6"]
  = [true; true; false; true; false].
Proof. vm_compute. reflexivity. Qed.

Example timestamp_sample :
  line_timestamp "01:02.345 ID:3 broadcast message sent" = Some 62345%Z.
Proof. vm_compute. reflexivity. Qed.

(** Ten network-layer records, four of them replies: PDR 40. *)
Example ten_sent_four_received :
  let plain t := Main.Packet (Some (inject_Z t)) true None in
  let reply t := Main.Packet (Some (inject_Z t)) true (Some (Main.TypeInt 129)) in
  let ps := [plain 1; reply 2; plain 3; reply 4; plain 5;
             reply 6; plain 7; reply 8; plain 9; plain 10]%Z in
  Main.sent (Main.scan_packets ps) = 10%nat /\
  Main.received (Main.scan_packets ps) = 4%nat /\
  exists m, Main.parse_pcap_metrics (Main.Packets ps) = Return m /\
            (Main.PDR m == 40)%Q.
Proof.
  cbn zeta. split; [reflexivity|]. split; [reflexivity|].
  eexists. split; [vm_compute; reflexivity | reflexivity].
Qed.

(** A record whose type field does not read as an integer is counted as
    sent before the exception skips the rest of the body. *)
Example malformed_type_counts_as_sent :
  Main.on_packet Main.pcap_init (Main.Packet (Some 1%Q) false (Some Main.TypeMalformed))
  = Main.PcapState [1%Q] [] 1 0.
Proof. reflexivity. Qed.

(** ETX samples 1.0, 2.0 and 3.0 average to 2.0. *)
Example etx_average :
  exists m, Main.parse_log_metrics (Lines ["ETX: 1.0"; "ETX: 2.0"; "ETX: 3.0"]) = Return m /\
            (Main.Average_ETX m == 2)%Q.
Proof. eexists. split; [vm_compute; reflexivity | reflexivity]. Qed.

(** ** Arithmetic of the float model *)

Lemma float_of_nat_pos (n : nat) : (0 < n)%nat -> (0 < float_of_nat n)%Q.
Proof.
  intros H. unfold float_of_nat, Qlt. simpl. lia.
Qed.

Lemma float_of_nat_nonneg (n : nat) : (0 <= float_of_nat n)%Q.
Proof.
  unfold float_of_nat, Qle. simpl. lia.
Qed.

Lemma div_defined (x y : Q) : ~ (y == 0)%Q -> div x y = Return (x / y)%Q.
Proof.
  intros H. unfold div.
  destruct (Qeq_bool y 0) eqn:E; [|reflexivity].
  apply Qeq_bool_eq in E. contradiction.
Qed.

Lemma div_by_count (x : Q) (n : nat) :
  (0 < n)%nat -> div x (float_of_nat n) = Return (x / float_of_nat n)%Q.
Proof.
  intros H. apply div_defined. intros E.
  pose proof (float_of_nat_pos n H) as P. rewrite E in P.
  exact (Qlt_irrefl _ P).
Qed.

Lemma Qltb_lt (x y : Q) : Qltb x y = true <-> (x < y)%Q.
Proof.
  unfold Qltb. rewrite negb_true_iff. split.
  - intros H. apply Qnot_le_lt. intros L.
    apply Qle_bool_iff in L. congruence.
  - intros H. destruct (Qle_bool y x) eqn:E; [|reflexivity].
    apply Qle_bool_iff in E. exfalso. exact (Qlt_not_le _ _ H E).
Qed.

Lemma Qltb_ge (x y : Q) : Qltb x y = false <-> (y <= x)%Q.
Proof.
  unfold Qltb. rewrite negb_false_iff. apply Qle_bool_iff.
Qed.

Lemma sum_snoc (l : list Q) (x : Q) : sum (l ++ [x]) = (sum l + x)%Q.
Proof.
  unfold sum. rewrite fold_left_app. reflexivity.
Qed.

Lemma truthy_length {A} (l : list A) : truthy l = true <-> (0 < length l)%nat.
Proof.
  destruct l; simpl; split; intros; try lia; try discriminate; reflexivity.
Qed.

(** ** The capture loop *)

Lemma on_packet_eq (st : Main.pcap_state) (pkt : Main.packet) :
  Main.on_packet st pkt =
  match send_time pkt with
  | None => st
  | Some t =>
      match reply_time pkt with
      | Some _ => Main.count_received t (Main.count_sent t st)
      | None => Main.count_sent t st
      end
  end.
Proof.
  destruct pkt as [[t|] i [[|n|]|]]; destruct i;
    unfold Main.on_packet, try_continue, Main.packet_body, send_time, reply_time,
      mbind, body_bind, bind, lift, update, mret, body_ret, ret;
    simpl; try reflexivity;
    match goal with |- context [if ?b then _ else _] => destruct b end;
    reflexivity.
Qed.

Lemma reply_is_send (pkt : Main.packet) (t : Q) :
  reply_time pkt = Some t -> send_time pkt = Some t.
Proof.
  destruct pkt as [[u|] i [[|n|]|]]; unfold reply_time, send_time;
    cbn [Main.sniff_timestamp Main.icmpv6 Main.ipv6]; try discriminate.
  destruct (existsb (Z.eqb n) Main.reply_types); [|discriminate].
  intros H. rewrite orb_true_r. exact H.
Qed.

Ltac fold_omap :=
  repeat match goal with
         | |- context [list_omap ?A ?B ?f ?l] =>
             change (list_omap A B f l) with (omap f l)
         end.

Lemma fold_on_packet (ps : list Main.packet) (st : Main.pcap_state) :
  let st' := fold_left Main.on_packet ps st in
  Main.send_times st' = Main.send_times st ++ omap send_time ps /\
  Main.recv_times st' = Main.recv_times st ++ omap reply_time ps /\
  Main.sent st' = (Main.sent st + length (omap send_time ps))%nat /\
  Main.received st' = (Main.received st + length (omap reply_time ps))%nat.
Proof.
  revert st. induction ps as [|pkt ps IH]; intros st; cbn zeta; simpl.
  - rewrite !app_nil_r. repeat split; lia.
  - specialize (IH (Main.on_packet st pkt)). cbn zeta in IH.
    destruct IH as (Hs & Hr & Hn & Hm).
    rewrite Hs, Hr, Hn, Hm, on_packet_eq. clear Hs Hr Hn Hm.
    destruct (send_time pkt) as [t|] eqn:Es.
    + destruct (reply_time pkt) as [u|] eqn:Er; simpl; fold_omap.
      * rewrite (reply_is_send _ _ Er) in Es. injection Es as ->.
        rewrite <- !app_assoc. simpl. repeat split; lia.
      * rewrite <- !app_assoc. simpl. repeat split; lia.
    + destruct (reply_time pkt) as [u|] eqn:Er.
      * rewrite (reply_is_send _ _ Er) in Es. discriminate.
      * simpl. fold_omap. repeat split; lia.
Qed.

Lemma scan_packets_view (ps : list Main.packet) :
  Main.scan_packets ps =
  Main.PcapState (omap send_time ps) (omap reply_time ps)
                 (length (omap send_time ps)) (length (omap reply_time ps)).
Proof.
  unfold Main.scan_packets.
  destruct (fold_on_packet ps Main.pcap_init) as (Hs & Hr & Hn & Hm).
  destruct (fold_left Main.on_packet ps Main.pcap_init); simpl in *.
  subst. reflexivity.
Qed.

Lemma replies_le_sends (ps : list Main.packet) :
  (length (omap reply_time ps) <= length (omap send_time ps))%nat.
Proof.
  induction ps as [|pkt ps IH]; simpl; [lia|]. fold_omap.
  destruct (reply_time pkt) as [t|] eqn:Er.
  - rewrite (reply_is_send _ _ Er). simpl. lia.
  - destruct (send_time pkt); simpl; lia.
Qed.

(** ** The derived capture metrics are always defined *)

Lemma pdr_of_eq (st : Main.pcap_state) :
  Main.pdr_of st =
  Return (if (0 <? Main.sent st)%nat
          then float_of_nat (Main.received st) / float_of_nat (Main.sent st) * 100
          else 0)%Q.
Proof.
  unfold Main.pdr_of. destruct (0 <? Main.sent st)%nat eqn:E; [|reflexivity].
  apply Nat.ltb_lt in E. rewrite (div_by_count _ _ E). reflexivity.
Qed.

Lemma ae2ed_of_eq (st : Main.pcap_state) :
  Main.ae2ed_of st =
  Return (if truthy (Main.recv_times st)
          then (sum (Main.recv_times st)
                - sum (take (length (Main.recv_times st)) (Main.send_times st)))
               / float_of_nat (length (Main.recv_times st)) * 1000
          else 0)%Q.
Proof.
  unfold Main.ae2ed_of. destruct (truthy (Main.recv_times st)) eqn:E; [|reflexivity].
  apply truthy_length in E. rewrite (div_by_count _ _ E). reflexivity.
Qed.

Lemma throughput_of_eq (st : Main.pcap_state) (d : Q) :
  Main.throughput_of st d =
  Return (if Qltb 0 d then float_of_nat (Main.received st) / d else 0)%Q.
Proof.
  unfold Main.throughput_of. destruct (Qltb 0 d) eqn:E; [|reflexivity].
  apply Qltb_lt in E. apply div_defined. intros Z. rewrite Z in E.
  exact (Qlt_irrefl _ E).
Qed.

(** [max] and [min] of a non-empty list bound every element. *)
Lemma max_fold_bounds (l : list Q) (x : Q) :
  let hi := fold_left (fun m y => if Qltb m y then y else m) l x in
  (x <= hi)%Q /\ Forall (fun y => y <= hi)%Q l /\ (hi = x \/ In hi l).
Proof.
  revert x. induction l as [|y l IH]; intros x; cbn zeta; simpl.
  - split; [apply Qle_refl|]. split; [constructor | left; reflexivity].
  - destruct (Qltb x y) eqn:E.
    + apply Qltb_lt in E. destruct (IH y) as (H1 & H2 & H3).
      split; [eapply Qle_trans; [apply Qlt_le_weak, E | exact H1]|].
      split; [constructor; assumption|].
      destruct H3 as [-> | H3]; right; [left; reflexivity | right; exact H3].
    + apply Qltb_ge in E. destruct (IH x) as (H1 & H2 & H3).
      split; [exact H1|].
      split; [constructor; [eapply Qle_trans; eassumption | assumption]|].
      destruct H3 as [-> | H3]; [left; reflexivity | right; right; exact H3].
Qed.

Lemma min_fold_bounds (l : list Q) (x : Q) :
  let lo := fold_left (fun m y => if Qltb y m then y else m) l x in
  (lo <= x)%Q /\ Forall (fun y => lo <= y)%Q l /\ (lo = x \/ In lo l).
Proof.
  revert x. induction l as [|y l IH]; intros x; cbn zeta; simpl.
  - split; [apply Qle_refl|]. split; [constructor | left; reflexivity].
  - destruct (Qltb y x) eqn:E.
    + apply Qltb_lt in E. destruct (IH y) as (H1 & H2 & H3).
      split; [eapply Qle_trans; [exact H1 | apply Qlt_le_weak, E]|].
      split; [constructor; assumption|].
      destruct H3 as [-> | H3]; right; [left; reflexivity | right; exact H3].
    + apply Qltb_ge in E. destruct (IH x) as (H1 & H2 & H3).
      split; [exact H1|].
      split; [constructor; [eapply Qle_trans; eassumption | assumption]|].
      destruct H3 as [-> | H3]; [left; reflexivity | right; right; exact H3].
Qed.

Lemma max_spec (l : list Q) :
  l <> [] ->
  exists hi, max l = Return hi /\ In hi l /\ Forall (fun y => y <= hi)%Q l.
Proof.
  destruct l as [|x l]; [congruence|]. intros _.
  destruct (max_fold_bounds l x) as (H1 & H2 & H3).
  eexists. split; [reflexivity|]. split.
  - destruct H3 as [-> | H3]; [left; reflexivity | right; exact H3].
  - constructor; assumption.
Qed.

Lemma min_spec (l : list Q) :
  l <> [] ->
  exists lo, min l = Return lo /\ In lo l /\ Forall (fun y => lo <= y)%Q l.
Proof.
  destruct l as [|x l]; [congruence|]. intros _.
  destruct (min_fold_bounds l x) as (H1 & H2 & H3).
  eexists. split; [reflexivity|]. split.
  - destruct H3 as [-> | H3]; [left; reflexivity | right; exact H3].
  - constructor; assumption.
Qed.

Lemma duration_of_spec (st : Main.pcap_state) :
  let all := Main.recv_times st ++ Main.send_times st in
  if truthy (Main.recv_times st) && truthy (Main.send_times st)
  then exists hi lo,
         max all = Return hi /\ min all = Return lo /\
         Main.duration_of st = Return (hi - lo)%Q /\
         In hi all /\ In lo all /\
         Forall (fun t => lo <= t /\ t <= hi)%Q all
  else Main.duration_of st = Return 1%Q.
Proof.
  cbn zeta. unfold Main.duration_of.
  destruct (truthy (Main.recv_times st) && truthy (Main.send_times st)) eqn:E;
    [|reflexivity].
  apply andb_true_iff in E. destruct E as [Er _].
  assert (Hne : Main.recv_times st ++ Main.send_times st <> []).
  { destruct (Main.recv_times st); [discriminate | simpl; congruence]. }
  destruct (max_spec _ Hne) as (hi & Hmax & Hin & Hhi).
  destruct (min_spec _ Hne) as (lo & Hmin & Hin' & Hlo).
  exists hi, lo. rewrite Hmax, Hmin. repeat split; try assumption.
  rewrite Forall_forall in *. intros t Ht. split; [apply Hlo | apply Hhi]; exact Ht.
Qed.

Lemma duration_of_defined (st : Main.pcap_state) :
  exists d, Main.duration_of st = Return d.
Proof.
  pose proof (duration_of_spec st) as H. cbn zeta in H.
  destruct (truthy (Main.recv_times st) && truthy (Main.send_times st)).
  - destruct H as (hi & lo & _ & _ & H & _). eauto.
  - eauto.
Qed.

Lemma pcap_derive_eq (st : Main.pcap_state) (d : Q) :
  Main.duration_of st = Return d ->
  Main.pcap_derive st =
  Return (Main.PcapMetrics
     (if (0 <? Main.sent st)%nat
      then float_of_nat (Main.received st) / float_of_nat (Main.sent st) * 100
      else 0)%Q
     (if truthy (Main.recv_times st)
      then (sum (Main.recv_times st)
            - sum (take (length (Main.recv_times st)) (Main.send_times st)))
           / float_of_nat (length (Main.recv_times st)) * 1000
      else 0)%Q
     (if Qltb 0 d then float_of_nat (Main.received st) / d else 0)%Q).
Proof.
  intros Hd. unfold Main.pcap_derive.
  rewrite pdr_of_eq, ae2ed_of_eq, Hd. simpl.
  rewrite throughput_of_eq. reflexivity.
Qed.

Lemma ratio_percent_bounds (r s : nat) :
  (r <= s)%nat -> (0 < s)%nat ->
  (0 <= float_of_nat r / float_of_nat s * 100
   /\ float_of_nat r / float_of_nat s * 100 <= 100)%Q.
Proof.
  intros Hrs Hs.
  pose proof (float_of_nat_pos s Hs) as Ps.
  pose proof (float_of_nat_nonneg r) as Pr.
  assert (Hle : (float_of_nat r <= float_of_nat s)%Q).
  { unfold float_of_nat. rewrite <- Zle_Qle. lia. }
  assert (H0 : (0 <= float_of_nat r / float_of_nat s)%Q).
  { apply Qle_shift_div_l; [exact Ps|]. rewrite Qmult_0_l. exact Pr. }
  assert (H1 : (float_of_nat r / float_of_nat s <= 1)%Q).
  { apply Qle_shift_div_r; [exact Ps|]. rewrite Qmult_1_l. exact Hle. }
  split; lra.
Qed.

(** ** Claims on the packet-capture parser *)

Lemma parse_packets_eq (ps : list Main.packet) :
  Main.parse_pcap_metrics (Main.Packets ps) = Main.pcap_derive (Main.scan_packets ps).
Proof. reflexivity. Qed.

(** C2: for every sequence of capture records, [received] lies between 0
    and [sent], the returned PDR is [received / sent * 100] when
    [sent > 0] and 0 otherwise, and the PDR lies in [0, 100]; the PDR of
    the fallback record of an unreadable capture lies there too. *)
Theorem C2_pdr_in_range (ps : list Main.packet) :
  let st := Main.scan_packets ps in
  (0 <= Main.received st /\ Main.received st <= Main.sent st)%nat /\
  Main.sent st = length (omap send_time ps) /\
  Main.received st = length (omap reply_time ps) /\
  (exists m, Main.parse_pcap_metrics (Main.Packets ps) = Return m /\
     Main.PDR m =
       (if (0 <? Main.sent st)%nat
        then float_of_nat (Main.received st) / float_of_nat (Main.sent st) * 100
        else 0)%Q /\
     (0 <= Main.PDR m /\ Main.PDR m <= 100)%Q) /\
  (forall c, exists m, Main.parse_pcap_metrics c = Return m /\
     (0 <= Main.PDR m /\ Main.PDR m <= 100)%Q).
Proof.
  assert (Hall : forall qs, exists m,
            Main.parse_pcap_metrics (Main.Packets qs) = Return m /\
            Main.PDR m =
              (if (0 <? Main.sent (Main.scan_packets qs))%nat
               then float_of_nat (Main.received (Main.scan_packets qs))
                    / float_of_nat (Main.sent (Main.scan_packets qs)) * 100
               else 0)%Q /\
            (0 <= Main.PDR m /\ Main.PDR m <= 100)%Q).
  { intros qs. destruct (duration_of_defined (Main.scan_packets qs)) as [d Hd].
    rewrite parse_packets_eq, (pcap_derive_eq _ _ Hd).
    eexists. split; [reflexivity|]. cbn [Main.PDR]. split; [reflexivity|].
    rewrite scan_packets_view. cbn [Main.sent Main.received].
    destruct (0 <? length (omap send_time qs))%nat eqn:E.
    - apply Nat.ltb_lt in E.
      apply ratio_percent_bounds; [apply replies_le_sends | exact E].
    - split; [apply Qle_refl | discriminate]. }
  cbn zeta.
  split.
  { rewrite scan_packets_view. cbn [Main.sent Main.received].
    split; [lia | apply replies_le_sends]. }
  split; [rewrite scan_packets_view; reflexivity|].
  split; [rewrite scan_packets_view; reflexivity|].
  split; [apply Hall|].
  intros [|qs|qs].
  - exists Main.pcap_fallback. split; [reflexivity|]. split; discriminate.
  - exists Main.pcap_fallback. split; [reflexivity|]. split; discriminate.
  - destruct (Hall qs) as (m & Hm & _ & Hb). eauto.
Qed.

(** C10: for every sequence of capture records, the average end-to-end
    delay is [(sum(recv_times) - sum(send_times[:len(recv_times)])) /
    len(recv_times) * 1000] when [recv_times] is non-empty and 0 when it
    is empty, where [send_times] and [recv_times] are the timestamps of
    the records counted as sent and as received, in capture order. *)
Theorem C10_average_delay (ps : list Main.packet) :
  let recv := omap reply_time ps in
  let send := omap send_time ps in
  Main.recv_times (Main.scan_packets ps) = recv /\
  Main.send_times (Main.scan_packets ps) = send /\
  exists m, Main.parse_pcap_metrics (Main.Packets ps) = Return m /\
    Main.Average_End_to_End_Delay m =
      match recv with
      | [] => 0%Q
      | _ :: _ =>
          ((sum recv - sum (take (length recv) send))
           / float_of_nat (length recv) * 1000)%Q
      end.
Proof.
  cbn zeta.
  split; [rewrite scan_packets_view; reflexivity|].
  split; [rewrite scan_packets_view; reflexivity|].
  destruct (duration_of_defined (Main.scan_packets ps)) as [d Hd].
  rewrite parse_packets_eq, (pcap_derive_eq _ _ Hd).
  eexists. split; [reflexivity|]. cbn [Main.Average_End_to_End_Delay].
  rewrite scan_packets_view. cbn [Main.recv_times Main.send_times].
  destruct (omap reply_time ps); reflexivity.
Qed.

(** C1, as stated, fails: two reply packets half a second apart give the
    duration 1/2, below 1.0, and the throughput divides by it. *)
Lemma C1_counterexample :
  let ps := [Main.Packet (Some 0%Q) false (Some (Main.TypeInt 155));
             Main.Packet (Some (1 # 2)%Q) false (Some (Main.TypeInt 155))] in
  let st := Main.scan_packets ps in
  Main.recv_times st <> [] /\ Main.send_times st <> [] /\
  exists d m,
    Main.duration_of st = Return d /\ (d == 1 # 2)%Q /\ ~ (1 <= d)%Q /\
    Main.parse_pcap_metrics (Main.Packets ps) = Return m /\
    (Main.Throughput m == 4)%Q.
Proof.
  cbn zeta. split; [vm_compute; discriminate|]. split; [vm_compute; discriminate|].
  eexists. eexists. split; [vm_compute; reflexivity|].
  split; [reflexivity|]. split; [intros H; vm_compute in H; apply H; reflexivity|].
  split; [vm_compute; reflexivity|]. reflexivity.
Qed.

(** C1, amended: the duration is [max - min] of all timestamps when
    there is a send and a receive timestamp, without a floor (it is only
    known to be non-negative), and 1.0 otherwise; the throughput is
    [received / duration] when the duration is positive and 0.0
    otherwise, so it never divides by zero. *)
Theorem C1_duration_guarded (ps : list Main.packet) :
  let st := Main.scan_packets ps in
  let all := Main.recv_times st ++ Main.send_times st in
  exists d m,
    Main.duration_of st = Return d /\
    Main.parse_pcap_metrics (Main.Packets ps) = Return m /\
    Main.Throughput m =
      (if Qltb 0 d then float_of_nat (Main.received st) / d else 0)%Q /\
    (0 <= d)%Q /\
    if truthy (Main.recv_times st) && truthy (Main.send_times st)
    then exists hi lo,
           max all = Return hi /\ min all = Return lo /\ d = (hi - lo)%Q /\
           Forall (fun t => lo <= t /\ t <= hi)%Q all
    else d = 1%Q.
Proof.
  cbn zeta. set (st := Main.scan_packets ps).
  pose proof (duration_of_spec st) as H. cbn zeta in H.
  destruct (truthy (Main.recv_times st) && truthy (Main.send_times st)).
  - destruct H as (hi & lo & Hmax & Hmin & Hd & Hhi & Hlo & Hall).
    exists (hi - lo)%Q. eexists. split; [exact Hd|].
    rewrite parse_packets_eq. fold st. rewrite (pcap_derive_eq _ _ Hd).
    split; [reflexivity|]. split; [reflexivity|]. split.
    + rewrite Forall_forall in Hall.
      destruct (Hall lo (proj2 (list_elem_of_In _ _) Hlo)) as [_ Hle]. lra.
    + exists hi, lo. auto.
  - exists 1%Q. eexists. split; [exact H|].
    rewrite parse_packets_eq. fold st. rewrite (pcap_derive_eq _ _ H).
    split; [reflexivity|]. split; [reflexivity|]. split; [discriminate | reflexivity].
Qed.

(** ** The log loop of main.py *)

Ltac case_steps :=
  repeat match goal with
         | |- context [match ?o with Some _ => _ | None => _ end] => destruct o
         | |- context [if ?b then _ else _] => destruct b
         end.

Lemma node_step_frame (l : list ascii) (st : Main.log_state) :
  Main.energy_score (Main.node_step l st) = Main.energy_score st /\
  Main.etx_values (Main.node_step l st) = Main.etx_values st /\
  Main.ctrl_count (Main.node_step l st) = Main.ctrl_count st.
Proof. unfold Main.node_step. case_steps; repeat split; reflexivity. Qed.

Lemma etx_step_frame (l : list ascii) (st : Main.log_state) :
  Main.energy_score (Main.etx_step l st) = Main.energy_score st /\
  Main.ctrl_count (Main.etx_step l st) = Main.ctrl_count st /\
  Main.node_ids (Main.etx_step l st) = Main.node_ids st.
Proof. unfold Main.etx_step. case_steps; repeat split; reflexivity. Qed.

Lemma ctrl_step_frame (l : list ascii) (st : Main.log_state) :
  Main.energy_score (Main.ctrl_step l st) = Main.energy_score st /\
  Main.etx_values (Main.ctrl_step l st) = Main.etx_values st /\
  Main.node_ids (Main.ctrl_step l st) = Main.node_ids st.
Proof. unfold Main.ctrl_step. case_steps; repeat split; reflexivity. Qed.

Lemma energy_step_frame (l : list ascii) (st : Main.log_state) :
  Main.etx_values (Main.energy_step l st) = Main.etx_values st /\
  Main.ctrl_count (Main.energy_step l st) = Main.ctrl_count st /\
  Main.node_ids (Main.energy_step l st) = Main.node_ids st.
Proof. unfold Main.energy_step. case_steps; repeat split; reflexivity. Qed.

Lemma on_line_ctrl (st : Main.log_state) (line : string) :
  Main.ctrl_count (Main.on_line st line) =
  (Main.ctrl_count st + if is_ctrl line then 1 else 0)%nat.
Proof.
  unfold Main.on_line. cbn zeta.
  rewrite (proj1 (proj2 (energy_step_frame _ _))).
  unfold Main.ctrl_step at 1, is_ctrl.
  destruct (re_search true Main.RPL_CTRL_PATTERN (chars line)) as [m|];
    cbn [Main.ctrl_count];
    rewrite (proj1 (proj2 (etx_step_frame _ _))),
            (proj2 (proj2 (node_step_frame _ _))).
  - rewrite bool_decide_eq_true_2 by eauto. lia.
  - rewrite bool_decide_eq_false_2 by (intros [? ?]; discriminate). lia.
Qed.

Lemma on_line_node_ids (st : Main.log_state) (line : string) :
  Main.node_ids (Main.on_line st line) =
  match node_id_of line with
  | Some n => {[ n ]} ∪ Main.node_ids st
  | None => Main.node_ids st
  end.
Proof.
  unfold Main.on_line. cbn zeta.
  rewrite (proj2 (proj2 (energy_step_frame _ _))),
          (proj2 (proj2 (ctrl_step_frame _ _))),
          (proj2 (proj2 (etx_step_frame _ _))).
  unfold Main.node_step, node_id_of.
  destruct (contains (chars "Node id is set to") (chars line)); [|reflexivity].
  destruct (re_search false Main.NODE_ID_PATTERN (chars line)); reflexivity.
Qed.

Lemma on_line_etx (st : Main.log_state) (line : string) :
  Main.etx_values (Main.on_line st line) =
  Main.etx_values st ++ option_list (etx_of line).
Proof.
  unfold Main.on_line. cbn zeta.
  rewrite (proj1 (energy_step_frame _ _)), (proj1 (proj2 (ctrl_step_frame _ _))).
  unfold Main.etx_step at 1, etx_of.
  destruct (re_search true Main.ETX_PATTERN (chars line)); cbn;
    rewrite (proj1 (proj2 (node_step_frame _ _))), ?app_nil_r; reflexivity.
Qed.

Lemma on_line_energy (st : Main.log_state) (line : string) :
  Main.energy_score (Main.on_line st line) = energy_after (Main.energy_score st) line.
Proof.
  unfold Main.on_line. cbn zeta.
  unfold Main.energy_step at 1, energy_after, is_tx_rx, energy_of.
  destruct (re_search true Main.ENERGY_PATTERN (chars line)) as [m|]; cbn.
  - reflexivity.
  - match goal with |- context [if ?b then _ else _] => destruct b end;
      cbn [Main.energy_score];
      rewrite (proj1 (ctrl_step_frame _ _)), (proj1 (etx_step_frame _ _)),
              (proj1 (node_step_frame _ _)); reflexivity.
Qed.

Lemma fold_on_line (ls : list string) (st : Main.log_state) :
  let st' := fold_left Main.on_line ls st in
  Main.ctrl_count st' = (Main.ctrl_count st + ctrl_matches ls)%nat /\
  Main.node_ids st' = distinct_node_ids ls ∪ Main.node_ids st /\
  Main.etx_values st' = Main.etx_values st ++ omap etx_of ls /\
  Main.energy_score st' = fold_left energy_after ls (Main.energy_score st).
Proof.
  revert st. induction ls as [|line ls IH]; intros st; cbn zeta.
  - cbn. rewrite app_nil_r. unfold distinct_node_ids. cbn.
    rewrite (left_id_L ∅ (∪)). repeat split; lia.
  - cbn [fold_left]. specialize (IH (Main.on_line st line)). cbn zeta in IH.
    destruct IH as (Hc & Hn & He & Hs). rewrite Hc, Hn, He, Hs.
    rewrite on_line_ctrl, on_line_node_ids, on_line_etx, on_line_energy.
    unfold ctrl_matches, distinct_node_ids. cbn [List.filter omap list_omap]. fold_omap.
    repeat split.
    + destruct (is_ctrl line); simpl; lia.
    + destruct (node_id_of line) as [n|]; cbn [list_to_set foldr]; [|reflexivity].
      rewrite (assoc_L (∪)), (comm_L (∪) _ {[ n ]}). reflexivity.
    + destruct (etx_of line); cbn; rewrite <- ?app_assoc, ?app_nil_r; reflexivity.
Qed.

Lemma scan_lines_view (ls : list string) :
  let st := Main.scan_lines ls in
  Main.ctrl_count st = ctrl_matches ls /\
  Main.node_ids st = distinct_node_ids ls /\
  Main.etx_values st = omap etx_of ls /\
  Main.energy_score st = fold_left energy_after ls 0%Q.
Proof.
  destruct (fold_on_line ls Main.log_init) as (Hc & Hn & He & Hs).
  cbn zeta. unfold Main.scan_lines. rewrite Hc, Hn, He, Hs. cbn.
  rewrite (right_id_L ∅ (∪)). repeat split.
Qed.

Lemma avg_etx_of_eq (st : Main.log_state) :
  Main.avg_etx_of st =
  Return (if truthy (Main.etx_values st)
          then sum (Main.etx_values st) / float_of_nat (length (Main.etx_values st))
          else 1)%Q.
Proof.
  unfold Main.avg_etx_of. destruct (truthy (Main.etx_values st)) eqn:E; [|reflexivity].
  apply truthy_length in E. apply div_by_count. exact E.
Qed.

Lemma log_derive_eq (st : Main.log_state) :
  Main.log_derive st =
  Return (Main.LogMetrics
    (float_of_nat (Main.ctrl_count st) / float_of_nat (Main.node_count_of st))%Q
    (Main.energy_score st)
    (if truthy (Main.etx_values st)
     then sum (Main.etx_values st) / float_of_nat (length (Main.etx_values st))
     else 1)%Q).
Proof.
  unfold Main.log_derive. rewrite avg_etx_of_eq. simpl.
  rewrite div_by_count; [reflexivity|]. unfold Main.node_count_of. lia.
Qed.

Lemma parse_lines_eq (ls : list string) :
  Main.parse_log_metrics (Lines ls) = Main.log_derive (Main.scan_lines ls).
Proof. reflexivity. Qed.

Lemma parse_undecodable_eq (ls lenient : list string) :
  Main.parse_log_metrics (Undecodable ls lenient) = Main.parse_log_metrics (Lines lenient).
Proof. reflexivity. Qed.

(** ** Claims on the log parser of main.py *)

(** C7: when the log file cannot be opened, or a read fails,
    [parse_log_metrics] returns exactly the record with Overhead Packets
    0.0, Energy Consumption 0.0 and Average ETX 1.0; and on no input at
    all does an exception leave the function. *)
Theorem C7_unreadable_log_fallback :
  Main.parse_log_metrics Unreadable = Return (Main.LogMetrics 0 0 1) /\
  (forall ls, Main.parse_log_metrics (Interrupted ls) = Return (Main.LogMetrics 0 0 1)) /\
  (forall f, exists m, Main.parse_log_metrics f = Return m).
Proof.
  split; [reflexivity|]. split; [reflexivity|].
  intros [|ls|ls lenient|ls].
  - eexists; reflexivity.
  - eexists; reflexivity.
  - rewrite parse_undecodable_eq, parse_lines_eq, log_derive_eq. eexists; reflexivity.
  - rewrite parse_lines_eq, log_derive_eq. eexists; reflexivity.
Qed.

(** C8: for every log text the overhead is [ctrl_count] divided by
    [max(1, number of distinct node ids)]; with no node id the divisor is
    1; two distinct node ids and six control-message matches give 3.0. *)
Theorem C8_overhead_normalised (ls : list string) :
  Main.ctrl_count (Main.scan_lines ls) = ctrl_matches ls /\
  Main.node_ids (Main.scan_lines ls) = distinct_node_ids ls /\
  exists m, Main.parse_log_metrics (Lines ls) = Return m /\
    Main.Overhead_Packets m =
      (float_of_nat (ctrl_matches ls)
       / float_of_nat (Nat.max 1 (size (distinct_node_ids ls))))%Q /\
    (size (distinct_node_ids ls) = 0%nat ->
     Main.Overhead_Packets m = (float_of_nat (ctrl_matches ls) / float_of_nat 1)%Q /\
     (Main.Overhead_Packets m == float_of_nat (ctrl_matches ls))%Q) /\
    (size (distinct_node_ids ls) = 2%nat -> ctrl_matches ls = 6%nat ->
     (Main.Overhead_Packets m == 3)%Q).
Proof.
  destruct (scan_lines_view ls) as (Hc & Hn & _ & _).
  split; [exact Hc|]. split; [exact Hn|].
  rewrite parse_lines_eq, log_derive_eq. eexists. split; [reflexivity|].
  cbn [Main.Overhead_Packets]. unfold Main.node_count_of. rewrite Hc, Hn.
  split; [reflexivity|]. split.
  - intros ->. split; [reflexivity|]. cbn [Nat.max].
    unfold float_of_nat at 2. cbn. field.
  - intros -> ->. reflexivity.
Qed.

(** C8 at a log with two node announcements and six control lines. *)
Lemma C8_overhead_witness :
  let ls := ["Node id is set to 1"; "DIO"; "DAO sent"; "Node id is set to 2";
             "rpl dis"; "icmpv6 type 155"; "got DIS"; "RPL DIO."] in
  exists m, Main.parse_log_metrics (Lines ls) = Return m /\
            (Main.Overhead_Packets m == 3)%Q.
Proof.
  intros ls.
  destruct (C8_overhead_normalised ls) as (_ & _ & m & Hm & _ & _ & H).
  exists m. split; [exact Hm|].
  apply H; vm_compute; reflexivity.
Defined.

(** ** The matcher *)

Lemma prev_after_cons (prev : option ascii) (c : ascii) (a : list ascii) :
  prev_after prev (c :: a) = prev_after (Some c) a.
Proof.
  unfold prev_after. destruct a as [|d a]; [reflexivity|].
  rewrite last_cons. destruct (last (d :: a)) eqn:E; [reflexivity|].
  apply last_None in E. discriminate.
Qed.

Lemma reaches_eps (ic : bool) (x : pos) : reaches ic Eps x x.
Proof. intros g. exists g. left. reflexivity. Qed.

Lemma reaches_seq (ic : bool) (r1 r2 : regex) (x y z : pos) :
  reaches ic r1 x y -> reaches ic r2 y z -> reaches ic (Seq r1 r2) x z.
Proof.
  intros H1 H2 g. destruct (H1 g) as [g1 I1]. destruct (H2 g1) as [g2 I2].
  exists g2. cbn [rmatch]. apply in_flat_map. exists (g1, y). split; assumption.
Qed.

Lemma reaches_alt_l (ic : bool) (r1 r2 : regex) (x y : pos) :
  reaches ic r1 x y -> reaches ic (Alt r1 r2) x y.
Proof.
  intros H g. destruct (H g) as [g' I]. exists g'. cbn [rmatch].
  apply in_or_app. left. exact I.
Qed.

Lemma reaches_alt_r (ic : bool) (r1 r2 : regex) (x y : pos) :
  reaches ic r2 x y -> reaches ic (Alt r1 r2) x y.
Proof.
  intros H g. destruct (H g) as [g' I]. exists g'. cbn [rmatch].
  apply in_or_app. right. exact I.
Qed.

Lemma reaches_grp (ic : bool) (i : nat) (r : regex) (x y : pos) :
  reaches ic r x y -> reaches ic (Grp i r) x y.
Proof.
  intros H g. destruct (H g) as [g' I].
  exists ((i, consumed x y) :: g'). cbn [rmatch].
  apply in_map_iff. exists (g', y). split; [reflexivity | exact I].
Qed.

Lemma reaches_bnd (ic : bool) (x : pos) :
  at_boundary x = true -> reaches ic Bnd x x.
Proof.
  intros H g. exists g. cbn [rmatch]. rewrite H. left. reflexivity.
Qed.

Lemma star_self (p : ascii -> bool) (prev : option ascii) (s : list ascii) :
  In (Pos prev s) (star p prev s).
Proof.
  destruct s as [|a s]; cbn [star]; [left; reflexivity|].
  destruct (p a); [apply in_or_app; right|]; left; reflexivity.
Qed.

Lemma reaches_star (ic : bool) (p : ascii -> bool) (prev : option ascii)
    (b s : list ascii) :
  forallb p b = true ->
  reaches ic (Star p) (Pos prev (b ++ s)) (Pos (prev_after prev b) s).
Proof.
  intros Hb g. exists g. cbn [rmatch before rest].
  apply in_map. revert prev Hb.
  induction b as [|a b IH]; intros prev Hb.
  - apply star_self.
  - cbn [forallb] in Hb. apply andb_true_iff in Hb. destruct Hb as [Ha Hb].
    rewrite prev_after_cons. cbn [app star]. rewrite Ha.
    apply in_or_app. left. apply IH. exact Hb.
Qed.

Lemma reaches_lit (w : string) (prev : option ascii) (x s : list ascii) :
  lower_str x = lower_str (chars w) ->
  reaches true (Lit w) (Pos prev (x ++ s)) (Pos (prev_after prev x) s).
Proof.
  revert prev x. induction w as [|c w IH]; intros prev x Hx.
  - destruct x; [|discriminate]. apply reaches_eps.
  - destruct x as [|a x]; [discriminate|].
    cbn in Hx. injection Hx as Ha Hx.
    rewrite prev_after_cons. cbn [Lit].
    apply reaches_seq with (y := Pos (Some a) (x ++ s)).
    + intros g. exists g. cbn [rmatch]. unfold step1, same. cbn [rest app].
      rewrite Ha, Ascii.eqb_refl. left. reflexivity.
    + apply IH. exact Hx.
Qed.

Lemma search_at_reaches (ic : bool) (r : regex) (prev : option ascii)
    (a s : list ascii) (x' : pos) :
  reaches ic r (Pos (prev_after prev a) s) x' ->
  is_Some (search_at ic r prev (a ++ s)).
Proof.
  revert prev. induction a as [|c a IH]; intros prev H.
  - destruct (H []) as [g' I]. cbn [app].
    destruct s; cbn [search_at];
      destruct (rmatch ic r [] _) as [|gx l]; try (destruct I); cbn; eauto.
  - rewrite prev_after_cons in H. cbn [app search_at].
    destruct (head _); [eauto|]. apply IH. exact H.
Qed.

Lemma lower_keeps_word (a : ascii) : is_word (lower a) = is_word a.
Proof.
  destruct a as [[|] [|] [|] [|] [|] [|] [|] [|]]; reflexivity.
Qed.

Lemma word_of_lower (a c : ascii) : lower a = c -> is_word c = true -> is_word a = true.
Proof.
  intros <- H. rewrite lower_keeps_word in H. exact H.
Qed.

Lemma prev_after_none (a : list ascii) : prev_after None a = last a.
Proof. unfold prev_after. destruct (last a); reflexivity. Qed.

Lemma reaches_frame_name (w : string) (prev : option ascii) (x s : list ascii) :
  In w ["DIO"; "DAO"; "DIS"] ->
  lower_str x = lower_str (chars w) ->
  reaches true Main.DIO_DAO_DIS (Pos prev (x ++ s)) (Pos (prev_after prev x) s).
Proof.
  intros Hw Hx. unfold Main.DIO_DAO_DIS.
  destruct Hw as [<- | [<- | [<- | []]]].
  - apply reaches_alt_l, reaches_lit, Hx.
  - apply reaches_alt_r, reaches_alt_l, reaches_lit, Hx.
  - apply reaches_alt_r, reaches_alt_r, reaches_lit, Hx.
Qed.

Lemma whole_word_reaches (w : string) (prev : option ascii) (x s : list ascii) :
  In w ["DIO"; "DAO"; "DIS"] ->
  lower_str x = lower_str (chars w) ->
  word_opt prev = false -> word_opt (head s) = false ->
  reaches true (Seq Bnd (Seq (Grp 3 Main.DIO_DAO_DIS) Bnd))
          (Pos prev (x ++ s)) (Pos (prev_after prev x) s).
Proof.
  intros Hw Hx Hp Hs.
  assert (Hshape : exists x0 x1 x2, x = [x0; x1; x2] /\
                     is_word x0 = true /\ is_word x2 = true).
  { destruct Hw as [<- | [<- | [<- | []]]];
      destruct x as [|x0 [|x1 [|x2 [|]]]]; try discriminate;
      injection Hx as H0 H1 H2; exists x0, x1, x2;
      (split; [reflexivity|]); split;
      (eapply word_of_lower; [eassumption | reflexivity]). }
  destruct Hshape as (x0 & x1 & x2 & -> & W0 & W2).
  apply reaches_seq with (y := Pos prev ([x0; x1; x2] ++ s)).
  { apply reaches_bnd. unfold at_boundary. cbn. rewrite Hp, W0. reflexivity. }
  apply reaches_seq with (y := Pos (prev_after prev [x0; x1; x2]) s).
  { apply reaches_grp, (reaches_frame_name w); assumption. }
  apply reaches_bnd. unfold at_boundary. cbn. rewrite W2, Hs. reflexivity.
Qed.

Lemma icmpv6_then_reaches (prev : option ascii) (x b y s : list ascii) :
  lower_str x = chars "icmpv6" -> forallb is_dot b = true ->
  In (lower_str y) [chars "rpl"; chars "155"] ->
  reaches true
    (Seq (Lit "icmpv6") (Seq (Star is_dot) (Grp 4 (Alt (Lit "rpl") (Lit "155")))))
    (Pos prev (x ++ b ++ y ++ s))
    (Pos (prev_after (prev_after (prev_after prev x) b) y) s).
Proof.
  intros Hx Hb Hy.
  eapply reaches_seq; [apply reaches_lit; exact Hx|].
  eapply reaches_seq; [apply reaches_star; exact Hb|].
  apply reaches_grp.
  destruct Hy as [Hy | [Hy | []]].
  - apply reaches_alt_l, reaches_lit. symmetry. exact Hy.
  - apply reaches_alt_r, reaches_lit. symmetry. exact Hy.
Qed.

Lemma ctrl_counted (st : Main.log_state) (line : string) :
  is_Some (re_search true Main.RPL_CTRL_PATTERN (chars line)) ->
  Main.ctrl_count (Main.on_line st line) = S (Main.ctrl_count st).
Proof.
  intros H. rewrite on_line_ctrl. unfold is_ctrl.
  rewrite bool_decide_eq_true_2 by exact H. lia.
Qed.

(** ** Control messages and energy *)

(** C6, as stated, fails: a line with the protocol name before the
    [icmpv6] token (and none after it) is not counted. *)
Lemma C6_counterexample :
  let line := "rpl message over icmpv6" in
  contains (chars "icmpv6") (chars line) = true /\
  contains (chars "rpl") (chars line) = true /\
  Main.ctrl_count (Main.on_line Main.log_init line) = Main.ctrl_count Main.log_init /\
  Main.ctrl_count (Main.scan_lines [line; "155 icmpv6"]) = 0%nat.
Proof. vm_compute. repeat split; reflexivity. Qed.

(** C6, amended: a line on which [icmpv6] is followed, later on the line
    and with no newline in between, by [rpl] or [155] (letters in either
    case) increments [ctrl_count]; so does a line with an occurrence of
    DIO, DAO or DIS (in either case) that has no word character directly
    before or after it. *)
Theorem C6_control_patterns (st : Main.log_state) (line : string) :
  (forall a x b y c,
     chars line = a ++ x ++ b ++ y ++ c ->
     lower_str x = chars "icmpv6" -> forallb is_dot b = true ->
     In (lower_str y) [chars "rpl"; chars "155"] ->
     Main.ctrl_count (Main.on_line st line) = S (Main.ctrl_count st)) /\
  (forall a w c,
     chars line = a ++ w ++ c ->
     In (lower_str w) [chars "dio"; chars "dao"; chars "dis"] ->
     word_opt (last a) = false -> word_opt (head c) = false ->
     Main.ctrl_count (Main.on_line st line) = S (Main.ctrl_count st)).
Proof.
  split.
  - intros a x b y c Hl Hx Hb Hy. apply ctrl_counted.
    unfold re_search. rewrite Hl.
    eapply search_at_reaches. unfold Main.RPL_CTRL_PATTERN.
    apply reaches_grp, reaches_alt_r, reaches_alt_r.
    apply icmpv6_then_reaches; eassumption.
  - intros a w c Hl Hw Ha Hc. apply ctrl_counted.
    unfold re_search. rewrite Hl.
    eapply search_at_reaches. unfold Main.RPL_CTRL_PATTERN.
    apply reaches_grp, reaches_alt_r, reaches_alt_l.
    assert (Hname : exists n, In n ["DIO"; "DAO"; "DIS"] /\
                       lower_str w = lower_str (chars n)).
    { destruct Hw as [Hw | [Hw | [Hw | []]]].
      - exists "DIO". split; [left; reflexivity | symmetry; exact Hw].
      - exists "DAO". split; [right; left; reflexivity | symmetry; exact Hw].
      - exists "DIS". split; [right; right; left; reflexivity | symmetry; exact Hw]. }
    destruct Hname as (n & Hn & Hwn).
    apply (whole_word_reaches n); try assumption.
    rewrite prev_after_none. exact Ha.
Qed.

(** C6 (amended) at two lines: [icmpv6] before the code 155, and a DIO
    between a space and a full stop. *)
Lemma C6_control_patterns_witness :
  Main.ctrl_count (Main.on_line Main.log_init "rx ICMPv6 type=155 len 8") = 1%nat /\
  Main.ctrl_count (Main.on_line Main.log_init "got dio.") = 1%nat.
Proof.
  split.
  - apply (proj1 (C6_control_patterns Main.log_init "rx ICMPv6 type=155 len 8")
             (chars "rx ") (chars "ICMPv6") (chars " type=") (chars "155")
             (chars " len 8")).
    + reflexivity.
    + reflexivity.
    + reflexivity.
    + right. left. reflexivity.
  - apply (proj2 (C6_control_patterns Main.log_init "got dio.")
             (chars "got ") (chars "dio") (chars ".")).
    + reflexivity.
    + left. reflexivity.
    + reflexivity.
    + reflexivity.
Defined.

Lemma float_of_nat_succ (n : nat) : (float_of_nat (S n) == float_of_nat n + 1)%Q.
Proof.
  unfold float_of_nat. rewrite Nat2Z.inj_succ. unfold Z.succ.
  rewrite inject_Z_plus. reflexivity.
Qed.

Lemma energy_heuristic_only (rest : list string) (score : Q) :
  Forall (fun l => energy_of l = None) rest ->
  (fold_left energy_after rest score
   == score + float_of_nat (length (List.filter is_tx_rx rest)))%Q.
Proof.
  intros H. revert score. induction H as [|l rest Hl _ IH]; intros score.
  - cbn. change (float_of_nat 0) with 0%Q. lra.
  - cbn [fold_left List.filter]. rewrite IH. unfold energy_after. rewrite Hl.
    destruct (is_tx_rx l); cbn [length].
    + rewrite float_of_nat_succ. lra.
    + reflexivity.
Qed.

Lemma energy_after_total (pre rest : list string) (line : string) (v score : Q) :
  energy_of line = Some v ->
  fold_left energy_after (pre ++ line :: rest) score = fold_left energy_after rest v.
Proof.
  intros H. rewrite fold_left_app. cbn [fold_left].
  unfold energy_after at 2. rewrite H. reflexivity.
Qed.

(** C5, as stated, fails: a TX/RX line after the last "Total energy"
    line still adds 1.0, so the final score is not the number of that
    line. *)
Lemma C5_counterexample :
  let ls := ["Total energy: 5"; "TX 12 RX 7"] in
  energy_of "Total energy: 5" = Some 5%Q /\
  exists m, Main.parse_log_metrics (Lines ls) = Return m /\
            (Main.Energy_Consumption m == 6)%Q /\
            ~ (Main.Energy_Consumption m == 5)%Q.
Proof.
  cbn zeta. split; [vm_compute; reflexivity|].
  eexists. split; [vm_compute; reflexivity|].
  split; [reflexivity | discriminate].
Qed.

(** C5, amended: line by line, a "Total energy: <number>" match
    overwrites the score and the TX/RX heuristic adds 1.0 only on a line
    without such a match; so the final score is the number of the last
    matching line plus 1.0 for every later line with both TX and RX, and
    with no matching line it is the number of lines with both TX and RX. *)
Theorem C5_energy_score (ls : list string) :
  (forall st line,
     Main.energy_score (Main.on_line st line) =
     match energy_of line with
     | Some v => v
     | None => if is_tx_rx line then (Main.energy_score st + 1)%Q
               else Main.energy_score st
     end) /\
  exists m, Main.parse_log_metrics (Lines ls) = Return m /\
    (forall pre line rest v,
       ls = pre ++ line :: rest -> energy_of line = Some v ->
       Forall (fun l => energy_of l = None) rest ->
       (Main.Energy_Consumption m
        == v + float_of_nat (length (List.filter is_tx_rx rest)))%Q) /\
    (Forall (fun l => energy_of l = None) ls ->
     (Main.Energy_Consumption m
      == float_of_nat (length (List.filter is_tx_rx ls)))%Q).
Proof.
  split; [intros st line; apply on_line_energy|].
  rewrite parse_lines_eq, log_derive_eq. eexists. split; [reflexivity|].
  cbn [Main.Energy_Consumption].
  destruct (scan_lines_view ls) as (_ & _ & _ & ->).
  split.
  - intros pre line rest v -> Hv Hrest.
    rewrite (energy_after_total _ _ _ _ _ Hv).
    apply energy_heuristic_only. exact Hrest.
  - intros Hnone. rewrite (energy_heuristic_only _ _ Hnone). lra.
Qed.

(** C5 (amended) at a log with an explicit total followed by two TX/RX
    lines, and at a log without an explicit total. *)
Lemma C5_energy_score_witness :
  (exists m, Main.parse_log_metrics
               (Lines ["TX 1 RX 1"; "Total energy: 5"; "TX 12 RX 7"; "idle"; "RX 3 TX 4"])
             = Return m /\ (Main.Energy_Consumption m == 5 + 2)%Q) /\
  (exists m, Main.parse_log_metrics (Lines ["TX 1 RX 1"; "idle"])
             = Return m /\ (Main.Energy_Consumption m == 1)%Q).
Proof.
  split.
  - destruct (C5_energy_score
                ["TX 1 RX 1"; "Total energy: 5"; "TX 12 RX 7"; "idle"; "RX 3 TX 4"])
      as (_ & m & Hm & Hlast & _).
    exists m. split; [exact Hm|].
    apply (Hlast ["TX 1 RX 1"] "Total energy: 5" ["TX 12 RX 7"; "idle"; "RX 3 TX 4"] 5%Q).
    + reflexivity.
    + vm_compute. reflexivity.
    + repeat constructor.
  - destruct (C5_energy_score ["TX 1 RX 1"; "idle"]) as (_ & m & Hm & _ & Hnone).
    exists m. split; [exact Hm|].
    apply Hnone. repeat constructor.
Defined.

(** ** The log loop of omerw.py *)

Section OmerwLoop.

Variable py_float : list ascii -> option Q.

Lemma omerw_etx_step_frame (l : list ascii) (st : Omerw.state) :
  Omerw.sent_packets (Omerw.etx_step py_float l st) = Omerw.sent_packets st /\
  Omerw.received_packets (Omerw.etx_step py_float l st) = Omerw.received_packets st /\
  Omerw.delays (Omerw.etx_step py_float l st) = Omerw.delays st /\
  Omerw.send_times (Omerw.etx_step py_float l st) = Omerw.send_times st.
Proof. unfold Omerw.etx_step. case_steps; repeat split; reflexivity. Qed.

Lemma omerw_energy_step_frame (l : list ascii) (st : Omerw.state) :
  Omerw.sent_packets (Omerw.energy_step l st) = Omerw.sent_packets st /\
  Omerw.received_packets (Omerw.energy_step l st) = Omerw.received_packets st /\
  Omerw.delays (Omerw.energy_step l st) = Omerw.delays st /\
  Omerw.send_times (Omerw.energy_step l st) = Omerw.send_times st /\
  Omerw.etx_values (Omerw.energy_step l st) = Omerw.etx_values st.
Proof. unfold Omerw.energy_step. case_steps; repeat split; reflexivity. Qed.

Lemma omerw_time_step_frame (ts : option Z) (st : Omerw.state) :
  Omerw.sent_packets (Omerw.time_step ts st) = Omerw.sent_packets st /\
  Omerw.received_packets (Omerw.time_step ts st) = Omerw.received_packets st /\
  Omerw.delays (Omerw.time_step ts st) = Omerw.delays st /\
  Omerw.send_times (Omerw.time_step ts st) = Omerw.send_times st /\
  Omerw.etx_values (Omerw.time_step ts st) = Omerw.etx_values st.
Proof. unfold Omerw.time_step. destruct ts; repeat split; reflexivity. Qed.

Lemma omerw_sent_step_fields (l : list ascii) (ts : option Z) (st : Omerw.state) :
  Omerw.sent_packets (Omerw.sent_step l ts st)
  = (Omerw.sent_packets st + if Omerw.is_sent l then 1 else 0)%nat /\
  Omerw.received_packets (Omerw.sent_step l ts st) = Omerw.received_packets st /\
  Omerw.delays (Omerw.sent_step l ts st) = Omerw.delays st /\
  Omerw.send_times (Omerw.sent_step l ts st)
  = match (if Omerw.is_sent l then ts else None) with
    | Some t => Omerw.dict_set (S (Omerw.sent_packets st)) t (Omerw.send_times st)
    | None => Omerw.send_times st
    end /\
  Omerw.etx_values (Omerw.sent_step l ts st) = Omerw.etx_values st.
Proof.
  unfold Omerw.sent_step. destruct (Omerw.is_sent l); cbn.
  - repeat split; try lia; destruct ts; reflexivity.
  - repeat split; lia.
Qed.

Lemma omerw_received_step_fields (l : list ascii) (ts : option Z) (st : Omerw.state) :
  Omerw.sent_packets (Omerw.received_step l ts st) = Omerw.sent_packets st /\
  Omerw.received_packets (Omerw.received_step l ts st)
  = (Omerw.received_packets st + if Omerw.is_received l then 1 else 0)%nat /\
  Omerw.delays (Omerw.received_step l ts st)
  = (if Omerw.is_received l then
       match ts, last (Omerw.dict_values (Omerw.send_times st)) with
       | Some t, Some s => Omerw.delays st ++ [(t - s)%Z]
       | _, _ => Omerw.delays st
       end
     else Omerw.delays st) /\
  Omerw.send_times (Omerw.received_step l ts st) = Omerw.send_times st /\
  Omerw.etx_values (Omerw.received_step l ts st) = Omerw.etx_values st.
Proof.
  unfold Omerw.received_step. destruct (Omerw.is_received l); cbn;
    repeat split; lia.
Qed.

(** What one line does to the fields the claims are about. *)
Lemma omerw_on_line_fields (st : Omerw.state) (line : string) :
  let l := chars line in
  let ts := Omerw.timestamp_of l in
  let st' := Omerw.on_line py_float st line in
  let sends :=
    match sent_timestamp line with
    | Some t => Omerw.dict_set (S (Omerw.sent_packets st)) t (Omerw.send_times st)
    | None => Omerw.send_times st
    end in
  Omerw.sent_packets st'
  = (Omerw.sent_packets st + if Omerw.is_sent l then 1 else 0)%nat /\
  Omerw.received_packets st'
  = (Omerw.received_packets st + if Omerw.is_received l then 1 else 0)%nat /\
  Omerw.send_times st' = sends /\
  Omerw.delays st'
  = (if Omerw.is_received l then
       match ts, last (Omerw.dict_values sends) with
       | Some t, Some s => Omerw.delays st ++ [(t - s)%Z]
       | _, _ => Omerw.delays st
       end
     else Omerw.delays st) /\
  Omerw.etx_values st'
  = Omerw.etx_values st ++ option_list (omerw_etx_of py_float line).
Proof.
  cbn zeta. unfold Omerw.on_line. cbn zeta.
  set (l := chars line). set (ts := Omerw.timestamp_of l).
  set (st0 := Omerw.time_step ts st).
  set (st1 := Omerw.sent_step l ts st0).
  set (st2 := Omerw.received_step l ts st1).
  set (st3 := Omerw.energy_step l st2).
  destruct (omerw_time_step_frame ts st) as (T1 & T2 & T3 & T4 & T5). fold st0 in T1, T2, T3, T4, T5.
  destruct (omerw_sent_step_fields l ts st0) as (S1 & S2 & S3 & S4 & S5). fold st1 in S1, S2, S3, S4, S5.
  destruct (omerw_received_step_fields l ts st1) as (R1 & R2 & R3 & R4 & R5). fold st2 in R1, R2, R3, R4, R5.
  destruct (omerw_energy_step_frame l st2) as (E1 & E2 & E3 & E4 & E5). fold st3 in E1, E2, E3, E4, E5.
  destruct (omerw_etx_step_frame l st3) as (X1 & X2 & X3 & X4).
  assert (Hsends : Omerw.send_times st1 =
            match sent_timestamp line with
            | Some t => Omerw.dict_set (S (Omerw.sent_packets st)) t (Omerw.send_times st)
            | None => Omerw.send_times st
            end).
  { rewrite S4, T1, T4. reflexivity. }
  repeat split.
  - rewrite X1, E1, R1, S1, T1. reflexivity.
  - rewrite X2, E2, R2, S2, T2. reflexivity.
  - rewrite X4, E4, R4. exact Hsends.
  - rewrite X3, E3, R3, S3, T3, <- Hsends. reflexivity.
  - unfold Omerw.etx_step, omerw_etx_of. fold l.
    destruct (contains (chars "ETX") l).
    + destruct (Omerw.last_token l ≫= py_float); cbn;
        rewrite E5, R5, S5, T5, ?app_nil_r; reflexivity.
    + rewrite E5, R5, S5, T5, app_nil_r. reflexivity.
Qed.

Lemma scan_lines_snoc (ls : list string) (line : string) :
  Omerw.scan_lines py_float (ls ++ [line])
  = Omerw.on_line py_float (Omerw.scan_lines py_float ls) line.
Proof. unfold Omerw.scan_lines. rewrite fold_left_app. reflexivity. Qed.

Lemma dict_set_fresh (k : nat) (v : Z) (d : Omerw.dict) :
  Forall (fun kv => (fst kv < k)%nat) d -> Omerw.dict_set k v d = d ++ [(k, v)].
Proof.
  induction 1 as [|[k' v'] d Hk _ IH]; [reflexivity|].
  cbn [Omerw.dict_set]. cbn in Hk.
  destruct (Nat.eqb_spec k k') as [->|_]; [lia|]. rewrite IH. reflexivity.
Qed.

(** The dict of send times holds, in file order and with keys that never
    repeat, the timestamps of all the send lines read so far. *)
Lemma omerw_send_times_view (ls : list string) :
  let st := Omerw.scan_lines py_float ls in
  Forall (fun kv => (fst kv < S (Omerw.sent_packets st))%nat) (Omerw.send_times st) /\
  Omerw.dict_values (Omerw.send_times st) = omap sent_timestamp ls.
Proof.
  induction ls as [|line ls IH] using rev_ind; cbn zeta.
  - split; [constructor | reflexivity].
  - cbn zeta in IH. destruct IH as [Hk Hv].
    rewrite scan_lines_snoc.
    destruct (omerw_on_line_fields (Omerw.scan_lines py_float ls) line)
      as (Hs & _ & Hd & _ & _).
    rewrite Hs, Hd, omap_app. clear Hs Hd.
    assert (Hone : omap sent_timestamp [line] = option_list (sent_timestamp line)).
    { cbn. destruct (sent_timestamp line); reflexivity. }
    rewrite Hone. clear Hone.
    assert (Hweak : Forall (fun kv : nat * Z =>
                      (fst kv < S (Omerw.sent_packets (Omerw.scan_lines py_float ls)
                                   + if Omerw.is_sent (chars line) then 1 else 0))%nat)
                      (Omerw.send_times (Omerw.scan_lines py_float ls))).
    { eapply Forall_impl; [exact Hk|]. cbn. intros; lia. }
    destruct (sent_timestamp line) as [t|] eqn:Est; cbn [option_list].
    + assert (Hsent : Omerw.is_sent (chars line) = true).
      { unfold sent_timestamp in Est.
        destruct (Omerw.is_sent (chars line)); [reflexivity | discriminate]. }
      rewrite (dict_set_fresh _ _ _ Hk). split.
      * apply Forall_app. split; [exact Hweak|].
        constructor; [|constructor]. rewrite Hsent. cbn. lia.
      * unfold Omerw.dict_values in *. rewrite map_app, Hv. reflexivity.
    + split; [exact Hweak|]. rewrite app_nil_r. exact Hv.
Qed.

End OmerwLoop.

(** ** True division of ints *)

Lemma float_limit_above : (2 ^ 1023 < float_limit)%Z.
Proof. reflexivity. Qed.

(** The quotient overflows from [float_limit] times the divisor on. *)
Lemma overflows_quotient (a b : Z) :
  (0 < b)%Z ->
  overflows (inject_Z a / inject_Z b) = (float_limit * b <=? Z.abs a)%Z.
Proof.
  intros Hb. destruct b as [|p|p]; try lia.
  unfold overflows, Qle_bool, Qdiv, Qmult, Qinv, Qabs, inject_Z.
  cbn [Qnum Qden]. rewrite !Z.mul_1_r, Pos.mul_1_l. reflexivity.
Qed.

Lemma int_true_div_eq (a b : Z) :
  (0 < b)%Z ->
  int_true_div a b =
  if (float_limit * b <=? Z.abs a)%Z then Raise OverflowError
  else Return (inject_Z a / inject_Z b)%Q.
Proof.
  intros Hb. unfold int_true_div.
  destruct (Z.eqb_spec b 0) as [->|_]; [lia|].
  cbn zeta. rewrite (overflows_quotient _ _ Hb). reflexivity.
Qed.

Lemma int_true_div_in_range (a b : Z) :
  (0 < b)%Z -> (Z.abs a <= 2 ^ 1023 * b)%Z ->
  int_true_div a b = Return (inject_Z a / inject_Z b)%Q.
Proof.
  intros Hb Ha. rewrite (int_true_div_eq _ _ Hb).
  pose proof float_limit_above as HL.
  destruct (Z.leb_spec (float_limit * b) (Z.abs a)) as [H|_]; [|reflexivity].
  exfalso. revert HL Ha H. generalize float_limit (2 ^ 1023)%Z (Z.abs a).
  intros L M x HL Ha H. nia.
Qed.

Lemma int_true_div_inv (a b : Z) (q : Q) :
  int_true_div a b = Return q -> q = (inject_Z a / inject_Z b)%Q.
Proof.
  unfold int_true_div. destruct (b =? 0)%Z; [discriminate|]. cbn zeta.
  destruct (overflows _); [discriminate|]. intros H. injection H as <-. reflexivity.
Qed.

Lemma int_true_div_raises (a b : Z) (e : exn) :
  b <> 0%Z -> int_true_div a b = Raise e -> e = OverflowError.
Proof.
  intros Hb. unfold int_true_div.
  destruct (Z.eqb_spec b 0) as [->|_]; [congruence|]. cbn zeta.
  destruct (overflows _); [|discriminate]. intros H. injection H as <-. reflexivity.
Qed.

(** ** The derived metrics of omerw.py *)

Lemma omerw_throughput_defined (st : Omerw.state) (d : Q) :
  exists q, Omerw.throughput_of st d = Return q.
Proof.
  unfold Omerw.throughput_of. destruct (Qltb 0 d) eqn:E; [|eauto].
  apply Qltb_lt in E. rewrite div_defined; [eauto|].
  intros Z. rewrite Z in E. exact (Qlt_irrefl _ E).
Qed.

Lemma omerw_pdr_defined (st : Omerw.state) :
  exists q, Omerw.pdr_of st = Return q.
Proof.
  unfold Omerw.pdr_of. destruct (0 <? Omerw.sent_packets st)%nat eqn:E; [|eauto].
  apply Nat.ltb_lt in E. rewrite (div_by_count _ _ E). eauto.
Qed.

Lemma omerw_avg_etx_eq (st : Omerw.state) :
  Omerw.avg_etx_of st =
  Return (if truthy (Omerw.etx_values st)
          then sum (Omerw.etx_values st) / float_of_nat (length (Omerw.etx_values st))
          else 0)%Q.
Proof.
  unfold Omerw.avg_etx_of. destruct (truthy (Omerw.etx_values st)) eqn:E; [|reflexivity].
  apply truthy_length in E. apply div_by_count. exact E.
Qed.

Lemma omerw_avg_delay_inv (st : Omerw.state) (q : Q) :
  Omerw.avg_delay_of st = Return q ->
  q = (if truthy (Omerw.delays st)
       then float_of_int (sum_int (Omerw.delays st))
            / float_of_nat (length (Omerw.delays st))
       else 0)%Q.
Proof.
  unfold Omerw.avg_delay_of. destruct (truthy (Omerw.delays st)).
  - apply int_true_div_inv.
  - intros H. injection H as <-. reflexivity.
Qed.

(** The only exception of the two true divisions is the OverflowError:
    neither divides by zero. *)
Lemma omerw_avg_delay_raises (st : Omerw.state) (e : exn) :
  Omerw.avg_delay_of st = Raise e -> e = OverflowError.
Proof.
  unfold Omerw.avg_delay_of. destruct (truthy (Omerw.delays st)) eqn:E; [|discriminate].
  apply truthy_length in E. apply int_true_div_raises. lia.
Qed.

Lemma omerw_duration_raises (st : Omerw.state) (e : exn) :
  Omerw.duration_of st = Raise e -> e = OverflowError.
Proof.
  unfold Omerw.duration_of.
  destruct (Omerw.truthy_time _ && Omerw.truthy_time _); [|discriminate].
  destruct (Omerw.first_time st), (Omerw.last_time st); try discriminate.
  apply int_true_div_raises. lia.
Qed.

(** A record is the rounding of the six derived values. *)
Lemma omerw_derive_inv (st : Omerw.state) (m : Omerw.metrics) :
  Omerw.derive st = Return m ->
  exists pdr d thr,
    Omerw.pdr_of st = Return pdr /\
    Omerw.duration_of st = Return d /\
    Omerw.throughput_of st d = Return thr /\
    m = Omerw.Metrics
      (round2 pdr)
      (round2 (if truthy (Omerw.delays st)
               then float_of_int (sum_int (Omerw.delays st))
                    / float_of_nat (length (Omerw.delays st))
               else 0)%Q)
      (Z.of_nat (Omerw.sent_packets st) - Z.of_nat (Omerw.received_packets st))%Z
      (Omerw.energy_consumption st)
      (round2 thr)
      (round2 (if truthy (Omerw.etx_values st)
               then sum (Omerw.etx_values st)
                    / float_of_nat (length (Omerw.etx_values st))
               else 0)%Q).
Proof.
  unfold Omerw.derive. intros H.
  destruct (Omerw.pdr_of st) as [pdr|] eqn:Ep; [|discriminate]. cbn in H.
  destruct (Omerw.avg_delay_of st) as [ad|] eqn:Ea; [|discriminate]. cbn in H.
  destruct (Omerw.duration_of st) as [d|] eqn:Ed; [|discriminate]. cbn in H.
  destruct (Omerw.throughput_of st d) as [thr|] eqn:Et; [|discriminate]. cbn in H.
  rewrite omerw_avg_etx_eq in H. cbn in H.
  apply omerw_avg_delay_inv in Ea. subst ad.
  exists pdr, d, thr. split; [reflexivity|]. split; [reflexivity|].
  split; [exact Et|]. injection H as <-. reflexivity.
Qed.

(** A record is returned as soon as the two true divisions return. *)
Lemma omerw_derive_defined (st : Omerw.state) (ad d : Q) :
  Omerw.avg_delay_of st = Return ad -> Omerw.duration_of st = Return d ->
  exists m, Omerw.derive st = Return m.
Proof.
  intros Ha Hd.
  destruct (omerw_pdr_defined st) as [pdr Hp].
  destruct (omerw_throughput_defined st d) as [thr Ht].
  unfold Omerw.derive. rewrite Hp. cbn. rewrite Ha. cbn. rewrite Hd. cbn.
  rewrite Ht. cbn. rewrite omerw_avg_etx_eq. cbn. eexists. reflexivity.
Qed.

Lemma omerw_derive_raises (st : Omerw.state) (e : exn) :
  Omerw.derive st = Raise e -> e = OverflowError.
Proof.
  destruct (omerw_pdr_defined st) as [pdr Hp].
  unfold Omerw.derive. rewrite Hp. cbn.
  destruct (Omerw.avg_delay_of st) as [ad|e1] eqn:Ea; cbn.
  2: { intros H. injection H as <-. eapply omerw_avg_delay_raises, Ea. }
  destruct (Omerw.duration_of st) as [d|e1] eqn:Ed; cbn.
  2: { intros H. injection H as <-. eapply omerw_duration_raises, Ed. }
  destruct (omerw_throughput_defined st d) as [thr Ht]. rewrite Ht. cbn.
  rewrite omerw_avg_etx_eq. cbn. discriminate.
Qed.

Lemma round2_nonneg (x : Q) : (0 <= x)%Q -> (0 <= round2 x)%Q.
Proof.
  intros Hx. unfold round2.
  assert (Hf : (0 <= Qfloor (x * 100))%Z).
  { change 0%Z with (Qfloor 0). apply Qfloor_resp_le. lra. }
  cbn zeta.
  repeat match goal with |- context [if ?b then _ else _] => destruct b end;
    unfold Qle; cbn [Qnum Qden]; lia.
Qed.

Lemma fold_add_nonneg (l : list Z) (acc : Z) :
  Forall (fun d => 0 <= d)%Z l -> (acc <= fold_left Z.add l acc)%Z.
Proof.
  intros H. revert acc. induction H as [|d l Hd _ IH]; intros acc; cbn.
  - lia.
  - specialize (IH (acc + d)%Z). lia.
Qed.

Lemma sum_int_nonneg (l : list Z) : Forall (fun d => 0 <= d)%Z l -> (0 <= sum_int l)%Z.
Proof. intros H. apply fold_add_nonneg. exact H. Qed.

Lemma omap_all_none {A B} (f : A -> option B) (l : list A) :
  Forall (fun x => f x = None) l -> omap f l = [].
Proof.
  induction 1 as [|x l Hx _ IH]; [reflexivity|].
  cbn. rewrite Hx. exact IH.
Qed.

Lemma omerw_etx_view (py_float : list ascii -> option Q) (ls : list string) :
  Omerw.etx_values (Omerw.scan_lines py_float ls) = omap (omerw_etx_of py_float) ls.
Proof.
  induction ls as [|line ls IH] using rev_ind; [reflexivity|].
  rewrite scan_lines_snoc, omap_app.
  destruct (omerw_on_line_fields py_float (Omerw.scan_lines py_float ls) line)
    as (_ & _ & _ & _ & He).
  rewrite He, IH. reflexivity.
Qed.

(** ** The loop of omerw.py with its conversions *)

Lemma omerw_read_lines_eq (py_float : list ascii -> option Q)
    (ls : list string) (st : Omerw.state) :
  Omerw.read_lines py_float st ls =
  if forallb (fun line => negb (Omerw.int_raises (chars line))) ls
  then Return (fold_left (Omerw.on_line py_float) ls st)
  else Raise ValueError.
Proof.
  revert st. induction ls as [|line ls IH]; intros st; [reflexivity|].
  cbn [Omerw.read_lines forallb fold_left].
  destruct (Omerw.int_raises (chars line)); [reflexivity|]. apply IH.
Qed.

Lemma omerw_read_lines_raises (py_float : list ascii -> option Q)
    (ls : list string) (st : Omerw.state) (e : exn) :
  Omerw.read_lines py_float st ls = Raise e -> e = ValueError.
Proof.
  rewrite omerw_read_lines_eq. destruct (forallb _ ls); [discriminate|].
  intros H. injection H as <-. reflexivity.
Qed.

(** A record of a file read to its end is derived from the state that
    the loop reaches. *)
Lemma omerw_parse_lines_inv (py_float : list ascii -> option Q)
    (ls : list string) (m : Omerw.metrics) :
  Omerw.parse_log py_float (Lines ls) = Return m ->
  Omerw.derive (Omerw.scan_lines py_float ls) = Return m.
Proof.
  unfold Omerw.parse_log. cbn [Omerw.read_log]. rewrite omerw_read_lines_eq.
  destruct (forallb _ ls); [|discriminate]. trivial.
Qed.

Lemma omerw_parse_lines_eq (py_float : list ascii -> option Q) (ls : list string) :
  forallb (fun line => negb (Omerw.int_raises (chars line))) ls = true ->
  Omerw.parse_log py_float (Lines ls) = Omerw.derive (Omerw.scan_lines py_float ls).
Proof.
  intros H. unfold Omerw.parse_log. cbn [Omerw.read_log].
  rewrite omerw_read_lines_eq, H. reflexivity.
Qed.

(** ** Pairing of sends and receives (omerw.py) *)

(** C4, as stated, fails: after one send, two receives are both paired
    with it; a stack of outstanding sends would pair only the first. *)
Lemma C4_counterexample :
  let ls := ["00:01.000 ID:1 broadcast message sent";
             "00:02.000 ID:2 broadcast message received";
             "00:03.000 ID:3 broadcast message received"] in
  Omerw.delays (Omerw.scan_lines Omerw.float_of_plain ls) = [1000; 2000]%Z /\
  Omerw.lifo_delays [] (Omerw.events_of ls) = [1000]%Z /\
  Omerw.delays (Omerw.scan_lines Omerw.float_of_plain ls)
  <> Omerw.lifo_delays [] (Omerw.events_of ls).
Proof.
  cbn zeta. split; [vm_compute; reflexivity|]. split; [vm_compute; reflexivity|].
  vm_compute. discriminate.
Qed.

(** C4, amended: a receive line increments [received]; when it has a
    timestamp and a timestamped send was recorded before it (or on the
    same line), the delay appended is its timestamp minus that of the
    most recently recorded send, otherwise no delay is appended; the
    receive removes nothing from the recorded sends, which remain the
    timestamps of all send lines so far, in order. *)
Theorem C4_last_send_pairing (py_float : list ascii -> option Q)
    (ls : list string) (line : string) :
  let st := Omerw.scan_lines py_float ls in
  let st' := Omerw.scan_lines py_float (ls ++ [line]) in
  Omerw.is_received (chars line) = true ->
  Omerw.received_packets st' = S (Omerw.received_packets st) /\
  Omerw.dict_values (Omerw.send_times st') = omap sent_timestamp (ls ++ [line]) /\
  Omerw.delays st' =
    match line_timestamp line, last (omap sent_timestamp (ls ++ [line])) with
    | Some t, Some s => Omerw.delays st ++ [(t - s)%Z]
    | _, _ => Omerw.delays st
    end.
Proof.
  cbn zeta. intros Hr.
  destruct (omerw_send_times_view py_float (ls ++ [line])) as [_ Hv].
  cbn zeta in Hv. split; [|split; [exact Hv|]].
  - rewrite scan_lines_snoc.
    destruct (omerw_on_line_fields py_float (Omerw.scan_lines py_float ls) line)
      as (_ & H & _).
    rewrite H, Hr. lia.
  - rewrite <- Hv, scan_lines_snoc.
    destruct (omerw_on_line_fields py_float (Omerw.scan_lines py_float ls) line)
      as (_ & _ & Hs & Hd & _).
    rewrite Hd, Hr, Hs. reflexivity.
Qed.

(** C4 (amended) at the second receive after a single send. *)
Lemma C4_last_send_pairing_witness :
  let ls := ["00:01.000 ID:1 broadcast message sent";
             "00:02.000 ID:2 broadcast message received"] in
  let line := "00:03.000 ID:3 broadcast message received" in
  Omerw.delays (Omerw.scan_lines Omerw.float_of_plain (ls ++ [line]))
  = Omerw.delays (Omerw.scan_lines Omerw.float_of_plain ls) ++ [(3000 - 1000)%Z] /\
  Omerw.dict_values (Omerw.send_times (Omerw.scan_lines Omerw.float_of_plain (ls ++ [line])))
  = [1000%Z].
Proof.
  intros ls line.
  destruct (C4_last_send_pairing Omerw.float_of_plain ls line) as (_ & Hv & Hd).
  - vm_compute. reflexivity.
  - split; [exact Hd | exact Hv].
Defined.

(** ** Logs within the range of the conversions (omerw.py) *)

Lemma omap_snoc {A B} (f : A -> option B) (l : list A) (x : A) :
  omap f (l ++ [x]) = omap f l ++ option_list (f x).
Proof. rewrite omap_app. reflexivity. Qed.

Lemma sent_is_line_timestamp (line : string) (t : Z) :
  sent_timestamp line = Some t -> line_timestamp line = Some t.
Proof.
  unfold sent_timestamp, line_timestamp.
  destruct (Omerw.is_sent (chars line)); [trivial | discriminate].
Qed.

Section OmerwRange.

Variable py_float : list ascii -> option Q.

Lemma omerw_etx_step_times (l : list ascii) (st : Omerw.state) :
  Omerw.first_time (Omerw.etx_step py_float l st) = Omerw.first_time st /\
  Omerw.last_time (Omerw.etx_step py_float l st) = Omerw.last_time st /\
  Omerw.energy_consumption (Omerw.etx_step py_float l st) = Omerw.energy_consumption st.
Proof. unfold Omerw.etx_step. case_steps; repeat split; reflexivity. Qed.

Lemma omerw_energy_step_times (line : string) (st : Omerw.state) :
  Omerw.first_time (Omerw.energy_step (chars line) st) = Omerw.first_time st /\
  Omerw.last_time (Omerw.energy_step (chars line) st) = Omerw.last_time st /\
  Omerw.energy_consumption (Omerw.energy_step (chars line) st)
  = (Omerw.energy_consumption st + line_energy line)%Z.
Proof.
  unfold Omerw.energy_step, line_energy. cbn zeta.
  destruct (re_search false Omerw.POWERTRACE_PATTERN (chars line));
    [|repeat split; lia].
  destruct (Omerw.findall_digits [] (chars line) !! 4%nat);
    [|repeat split; lia].
  destruct (Omerw.findall_digits [] (chars line) !! 5%nat);
    repeat split; lia.
Qed.

Lemma omerw_received_step_times (l : list ascii) (ts : option Z) (st : Omerw.state) :
  Omerw.first_time (Omerw.received_step l ts st) = Omerw.first_time st /\
  Omerw.last_time (Omerw.received_step l ts st) = Omerw.last_time st /\
  Omerw.energy_consumption (Omerw.received_step l ts st) = Omerw.energy_consumption st.
Proof. unfold Omerw.received_step. destruct (Omerw.is_received l); repeat split; reflexivity. Qed.

Lemma omerw_sent_step_times (l : list ascii) (ts : option Z) (st : Omerw.state) :
  Omerw.first_time (Omerw.sent_step l ts st) = Omerw.first_time st /\
  Omerw.last_time (Omerw.sent_step l ts st) = Omerw.last_time st /\
  Omerw.energy_consumption (Omerw.sent_step l ts st) = Omerw.energy_consumption st.
Proof. unfold Omerw.sent_step. destruct (Omerw.is_sent l); repeat split; reflexivity. Qed.

Lemma omerw_on_line_times (st : Omerw.state) (line : string) :
  let st' := Omerw.on_line py_float st line in
  Omerw.first_time st'
  = match Omerw.first_time st with
    | Some t0 => Some t0
    | None => line_timestamp line
    end /\
  Omerw.last_time st'
  = match line_timestamp line with
    | Some t => Some t
    | None => Omerw.last_time st
    end /\
  Omerw.energy_consumption st' = (Omerw.energy_consumption st + line_energy line)%Z.
Proof.
  cbn zeta. unfold Omerw.on_line. cbn zeta.
  set (ts := Omerw.timestamp_of (chars line)).
  destruct (omerw_etx_step_times (chars line)
              (Omerw.energy_step (chars line)
                 (Omerw.received_step (chars line) ts
                    (Omerw.sent_step (chars line) ts (Omerw.time_step ts st)))))
    as (-> & -> & ->).
  destruct (omerw_energy_step_times line
              (Omerw.received_step (chars line) ts
                 (Omerw.sent_step (chars line) ts (Omerw.time_step ts st))))
    as (-> & -> & ->).
  destruct (omerw_received_step_times (chars line) ts
              (Omerw.sent_step (chars line) ts (Omerw.time_step ts st)))
    as (-> & -> & ->).
  destruct (omerw_sent_step_times (chars line) ts (Omerw.time_step ts st))
    as (-> & -> & ->).
  unfold Omerw.time_step, line_timestamp. fold ts.
  destruct ts as [t|]; cbn.
  - destruct (Omerw.first_time st); repeat split; reflexivity.
  - destruct (Omerw.first_time st); repeat split; reflexivity.
Qed.

Lemma sum_int_snoc (l : list Z) (x : Z) : sum_int (l ++ [x]) = (sum_int l + x)%Z.
Proof. unfold sum_int. rewrite fold_left_app. reflexivity. Qed.

Lemma omerw_times_view (ls : list string) :
  let st := Omerw.scan_lines py_float ls in
  Omerw.first_time st = head (omap line_timestamp ls) /\
  Omerw.last_time st = last (omap line_timestamp ls) /\
  Omerw.energy_consumption st = sum_int (map line_energy ls).
Proof.
  induction ls as [|line ls IH] using rev_ind; cbn zeta.
  - repeat split; reflexivity.
  - cbn zeta in IH. destruct IH as (Hf & Hl & He).
    rewrite scan_lines_snoc.
    destruct (omerw_on_line_times (Omerw.scan_lines py_float ls) line)
      as (-> & -> & ->).
    rewrite Hf, Hl, He, omap_snoc, map_app. cbn [map]. rewrite sum_int_snoc.
    split; [|split; [|reflexivity]].
    + destruct (omap line_timestamp ls) as [|t0 l]; cbn [head app].
      * destruct (line_timestamp line); reflexivity.
      * reflexivity.
    + destruct (line_timestamp line) as [t|]; cbn [option_list option_rect].
      * rewrite last_snoc. reflexivity.
      * rewrite app_nil_r. reflexivity.
Qed.

Lemma sum_int_abs_bound (l : list Z) (M : Z) :
  Forall (fun d => Z.abs d <= M)%Z l ->
  (Z.abs (sum_int l) <= M * Z.of_nat (length l))%Z.
Proof.
  induction l as [|d l IH] using rev_ind; intros H.
  - cbn. lia.
  - apply Forall_app in H. destruct H as [Hl Hd]. apply Forall_inv in Hd.
    specialize (IH Hl). rewrite sum_int_snoc, List.length_app. cbn [length]. lia.
Qed.

(** A delay is the difference of two line timestamps. *)
Lemma omerw_delays_bounded (ls : list string) (B : Z) :
  Forall (fun t => Z.abs t < B)%Z (omap line_timestamp ls) ->
  Forall (fun d => Z.abs d <= 2 * B)%Z (Omerw.delays (Omerw.scan_lines py_float ls)).
Proof.
  induction ls as [|line ls IH] using rev_ind; intros Hs.
  - constructor.
  - rewrite omap_snoc in Hs. apply Forall_app in Hs. destruct Hs as [Hls Hline].
    specialize (IH Hls).
    destruct (omerw_send_times_view py_float (ls ++ [line])) as [_ Hv].
    cbn zeta in Hv. rewrite scan_lines_snoc in *.
    destruct (omerw_on_line_fields py_float (Omerw.scan_lines py_float ls) line)
      as (_ & _ & Hst & Hd & _).
    rewrite Hd. rewrite <- Hst, Hv. clear Hd Hst Hv.
    destruct (Omerw.is_received (chars line)); [|exact IH].
    fold (line_timestamp line).
    destruct (line_timestamp line) as [t|] eqn:Et; [|exact IH].
    destruct (last (omap sent_timestamp (ls ++ [line]))) as [s|] eqn:El; [|exact IH].
    apply Forall_app. split; [exact IH|]. constructor; [|constructor].
    cbn [option_list option_rect] in Hline. apply Forall_inv in Hline.
    assert (Hs : (Z.abs s < B)%Z).
    { apply last_Some_elem_of in El. rewrite omap_snoc in El.
      apply elem_of_app in El. destruct El as [El | El].
      - apply list_elem_of_omap in El. destruct El as (l0 & Hin & Hl0).
        rewrite Forall_forall in Hls. apply Hls. apply list_elem_of_omap.
        exists l0. split; [exact Hin | apply sent_is_line_timestamp; exact Hl0].
      - destruct (sent_timestamp line) as [s'|] eqn:Es; cbn in El.
        + apply list_elem_of_singleton in El. subst s'.
          apply sent_is_line_timestamp in Es. rewrite Es in Et.
          injection Et as ->. exact Hline.
        + inversion El. }
    lia.
Qed.

Lemma omerw_stamps_bounded (ls : list string) :
  forallb in_float_range (omap line_timestamp ls) = true ->
  Forall (fun t => Z.abs t < 2 ^ 1022)%Z (omap line_timestamp ls).
Proof.
  intros H. apply Forall_forall. intros t Ht.
  rewrite forallb_forall in H. apply Z.ltb_lt. apply (H t).
  apply list_elem_of_In, Ht.
Qed.

Lemma omerw_avg_delay_in_range (ls : list string) :
  forallb in_float_range (omap line_timestamp ls) = true ->
  exists ad, Omerw.avg_delay_of (Omerw.scan_lines py_float ls) = Return ad.
Proof.
  intros H. apply omerw_stamps_bounded in H.
  pose proof (omerw_delays_bounded ls _ H) as Hd.
  apply sum_int_abs_bound in Hd.
  unfold Omerw.avg_delay_of.
  destruct (truthy _) eqn:E; [|eexists; reflexivity].
  apply truthy_length in E.
  rewrite int_true_div_in_range; [eexists; reflexivity | lia |].
  replace (2 ^ 1023)%Z with (2 * 2 ^ 1022)%Z by reflexivity. exact Hd.
Qed.

Lemma omerw_duration_in_range (ls : list string) :
  forallb in_float_range (omap line_timestamp ls) = true ->
  exists d, Omerw.duration_of (Omerw.scan_lines py_float ls) = Return d.
Proof.
  intros H. apply omerw_stamps_bounded in H.
  destruct (omerw_times_view ls) as (Hf & Hl & _). cbn zeta in Hf, Hl.
  unfold Omerw.duration_of. rewrite Hf, Hl.
  destruct (Omerw.truthy_time _ && Omerw.truthy_time _); [|eexists; reflexivity].
  destruct (head (omap line_timestamp ls)) as [t0|] eqn:E0; [|eexists; reflexivity].
  destruct (last (omap line_timestamp ls)) as [t1|] eqn:E1; [|eexists; reflexivity].
  rewrite Forall_forall in H.
  pose proof (H t0 (head_Some_elem_of _ _ E0)) as H0.
  pose proof (H t1 (last_Some_elem_of _ _ E1)) as H1.
  rewrite int_true_div_in_range; [eexists; reflexivity | lia |].
  replace (2 ^ 1023)%Z with (2 * 2 ^ 1022)%Z by reflexivity.
  revert H0 H1. generalize (2 ^ 1022)%Z. intros B H0 H1. lia.
Qed.

(** On a log within the range of the conversions a record is returned. *)
Lemma omerw_parse_returns (ls : list string) :
  within_float_range ls = true ->
  exists m, Omerw.parse_log py_float (Lines ls) = Return m.
Proof.
  unfold within_float_range. intros H. apply andb_true_iff in H.
  destruct H as [Hc Hr]. rewrite (omerw_parse_lines_eq _ _ Hc).
  destruct (omerw_avg_delay_in_range ls Hr) as [ad Ha].
  destruct (omerw_duration_in_range ls Hr) as [d Hd].
  exact (omerw_derive_defined _ _ _ Ha Hd).
Qed.

End OmerwRange.

(** ** The default of the link-quality average *)

(** C9, as stated, fails for the log-only variant: without ETX samples
    omerw.py reports 0. *)
Lemma C9_counterexample :
  let ls := ["00:01.000 ID:1 broadcast message sent";
             "00:02.000 ID:2 broadcast message received"] in
  Forall (fun line => omerw_etx_of Omerw.float_of_plain line = None) ls /\
  exists m, Omerw.parse_log Omerw.float_of_plain (Lines ls) = Return m /\
            (Omerw.Average_ETX m == 0)%Q /\ ~ (Omerw.Average_ETX m == 1)%Q.
Proof.
  cbn zeta. split; [repeat constructor|].
  eexists. split; [vm_compute; reflexivity|].
  split; [reflexivity | discriminate].
Qed.

(** C9, amended: for [parse_log_metrics] of main.py a log without ETX
    samples (also one that cannot be read) gives the average
    link-quality metric exactly 1.0; [parse_log] of omerw.py gives 0 in
    that case, in every record it returns, and it returns one on every
    log whose numbers are within the range of the conversions. *)
Theorem C9_default_link_quality (py_float : list ascii -> option Q) :
  (forall f, Forall (fun line => etx_of line = None) (lines_of f) ->
     exists m, Main.parse_log_metrics f = Return m /\ Main.Average_ETX m = 1%Q) /\
  (forall ls, Forall (fun line => omerw_etx_of py_float line = None) ls ->
     (forall m, Omerw.parse_log py_float (Lines ls) = Return m ->
        Omerw.Average_ETX m = round2 0 /\ (Omerw.Average_ETX m == 0)%Q) /\
     (within_float_range ls = true ->
        exists m, Omerw.parse_log py_float (Lines ls) = Return m /\
                  Omerw.Average_ETX m = round2 0 /\ (Omerw.Average_ETX m == 0)%Q)).
Proof.
  split.
  - assert (Hlines : forall ls, Forall (fun line => etx_of line = None) ls ->
              exists m, Main.parse_log_metrics (Lines ls) = Return m /\
                        Main.Average_ETX m = 1%Q).
    { intros ls H. rewrite parse_lines_eq, log_derive_eq.
      eexists. split; [reflexivity|]. cbn [Main.Average_ETX].
      destruct (scan_lines_view ls) as (_ & _ & -> & _).
      rewrite (omap_all_none _ _ H). reflexivity. }
    intros [|ls|ls lenient|ls] H.
    + exists Main.log_fallback. split; reflexivity.
    + exists Main.log_fallback. split; reflexivity.
    + rewrite parse_undecodable_eq. apply Hlines. exact H.
    + apply Hlines. exact H.
  - intros ls H.
    assert (Hzero : forall m, Omerw.parse_log py_float (Lines ls) = Return m ->
              Omerw.Average_ETX m = round2 0 /\ (Omerw.Average_ETX m == 0)%Q).
    { intros m Hm. apply omerw_parse_lines_inv, omerw_derive_inv in Hm.
      destruct Hm as (pdr & d & thr & _ & _ & _ & ->). cbn [Omerw.Average_ETX].
      rewrite omerw_etx_view, (omap_all_none _ _ H). cbn [truthy].
      split; reflexivity. }
    split; [exact Hzero|]. intros Hr.
    destruct (omerw_parse_returns py_float ls Hr) as [m Hm].
    exists m. split; [exact Hm | exact (Hzero m Hm)].
Qed.

(** C9 (amended) at a log without ETX lines, for both parsers. *)
Lemma C9_default_link_quality_witness :
  let ls := ["00:01.000 ID:1 broadcast message sent"; "Node id is set to 1"] in
  (exists m, Main.parse_log_metrics (Lines ls) = Return m /\ Main.Average_ETX m = 1%Q) /\
  (exists m, Omerw.parse_log Omerw.float_of_plain (Lines ls) = Return m /\
             Omerw.Average_ETX m = round2 0 /\ (Omerw.Average_ETX m == 0)%Q).
Proof.
  intros ls. split.
  - apply (proj1 (C9_default_link_quality Omerw.float_of_plain) (Lines ls)).
    repeat constructor.
  - apply (proj2 (C9_default_link_quality Omerw.float_of_plain) ls).
    + repeat constructor.
    + vm_compute. reflexivity.
Defined.

(** ** Delays under timestamps in file order *)

Lemma send_is_timestamp (pkt : Main.packet) (t : Q) :
  send_time pkt = Some t -> Main.sniff_timestamp pkt = Some t.
Proof.
  unfold send_time. destruct (Main.sniff_timestamp pkt); [|discriminate].
  destruct (_ || _); [trivial | discriminate].
Qed.

Lemma sends_among_timestamps (ps : list Main.packet) (x : Q) :
  x ∈ omap send_time ps -> x ∈ omap Main.sniff_timestamp ps.
Proof.
  rewrite !list_elem_of_omap. intros (pkt & Hin & Hs).
  exists pkt. split; [exact Hin | apply send_is_timestamp; exact Hs].
Qed.

(** With timestamps in capture order, the first [len(recv_times)] send
    times sum to at most the sum of the receive times. *)
Lemma paired_sends_before_receives (ps : list Main.packet) :
  StronglySorted Qle (omap Main.sniff_timestamp ps) ->
  (sum (take (length (omap reply_time ps)) (omap send_time ps))
   <= sum (omap reply_time ps))%Q.
Proof.
  induction ps as [|pkt ps IH] using rev_ind; intros Hs.
  - cbn. apply Qle_refl.
  - rewrite !omap_snoc in *.
    pose proof (replies_le_sends ps) as Hlen.
    pose proof (StronglySorted_app_1_l _ _ _ Hs) as Hs'.
    specialize (IH Hs').
    destruct (reply_time pkt) as [t|] eqn:Er.
    + pose proof (reply_is_send _ _ Er) as Es.
      pose proof (send_is_timestamp _ _ Es) as Et.
      rewrite Es, Et in *. cbn [option_list option_rect] in *.
      rewrite List.length_app. cbn [length]. rewrite Nat.add_1_r.
      destruct (lookup_lt_is_Some_2 (omap send_time ps ++ [t])
                  (length (omap reply_time ps))) as [x Hx].
      { rewrite List.length_app. cbn. lia. }
      rewrite (take_S_r _ _ _ Hx), (take_app_le _ _ _ Hlen), !sum_snoc.
      assert (Hxt : (x <= t)%Q).
      { apply list_elem_of_lookup_2 in Hx. apply elem_of_app in Hx.
        destruct Hx as [Hx | Hx].
        - apply (StronglySorted_app_1_elem_of _ _ _ _ _ Hs).
          + apply sends_among_timestamps. exact Hx.
          + apply list_elem_of_singleton. reflexivity.
        - apply list_elem_of_singleton in Hx. subst x. apply Qle_refl. }
      lra.
    + cbn [option_list option_rect]. rewrite app_nil_r.
      destruct (send_time pkt) as [t|]; cbn [option_list option_rect].
      * rewrite (take_app_le _ _ _ Hlen). exact IH.
      * rewrite app_nil_r. exact IH.
Qed.

(** With timestamps in file order, every recorded delay is non-negative. *)
Lemma omerw_delays_nonneg (py_float : list ascii -> option Q) (ls : list string) :
  StronglySorted Z.le (omap line_timestamp ls) ->
  Forall (fun d => 0 <= d)%Z (Omerw.delays (Omerw.scan_lines py_float ls)).
Proof.
  induction ls as [|line ls IH] using rev_ind; intros Hs.
  - constructor.
  - rewrite omap_snoc in Hs.
    specialize (IH (StronglySorted_app_1_l _ _ _ Hs)).
    destruct (omerw_send_times_view py_float (ls ++ [line])) as [_ Hv].
    cbn zeta in Hv. rewrite scan_lines_snoc in *.
    destruct (omerw_on_line_fields py_float (Omerw.scan_lines py_float ls) line)
      as (_ & _ & Hst & Hd & _).
    rewrite Hd. rewrite <- Hst, Hv. clear Hd Hst Hv.
    destruct (Omerw.is_received (chars line)); [|exact IH].
    fold (line_timestamp line).
    destruct (line_timestamp line) as [t|] eqn:Et; [|exact IH].
    destruct (last (omap sent_timestamp (ls ++ [line]))) as [s|] eqn:El; [|exact IH].
    apply Forall_app. split; [exact IH|]. constructor; [|constructor].
    apply last_Some_elem_of in El. rewrite omap_snoc in El.
    apply elem_of_app in El. cbn [option_list option_rect] in Hs.
    destruct El as [El | El].
    + apply list_elem_of_omap in El. destruct El as (l0 & Hin & Hl0).
      assert (Hle : (s <= t)%Z).
      { apply (StronglySorted_app_1_elem_of _ _ _ _ _ Hs).
        - apply list_elem_of_omap. exists l0.
          split; [exact Hin | apply sent_is_line_timestamp; exact Hl0].
        - apply list_elem_of_singleton. reflexivity. }
      lia.
    + destruct (sent_timestamp line) as [s'|] eqn:Es; cbn in El.
      * apply list_elem_of_singleton in El. subst s'.
        apply sent_is_line_timestamp in Es. rewrite Es in Et.
        injection Et as ->. lia.
      * inversion El.
Qed.

Lemma average_nonneg (s : Z) (n : nat) :
  (0 <= s)%Z -> (0 < n)%nat -> (0 <= float_of_int s / float_of_nat n)%Q.
Proof.
  intros Hs Hn. apply Qle_shift_div_l; [apply float_of_nat_pos; exact Hn|].
  rewrite Qmult_0_l. unfold float_of_int. change 0%Q with (inject_Z 0).
  rewrite <- Zle_Qle. exact Hs.
Qed.

(** C3, as stated, fails when timestamps are not in order: a reply that
    carries an earlier timestamp than the packet before it gives a
    negative average delay, in both parsers. *)
Lemma C3_counterexample :
  (exists m,
     Main.parse_pcap_metrics
       (Main.Packets [Main.Packet (Some 10%Q) true None;
                      Main.Packet (Some 5%Q) false (Some (Main.TypeInt 155))])
     = Return m /\
     (Main.Average_End_to_End_Delay m == -5000)%Q /\
     ~ (0 <= Main.Average_End_to_End_Delay m)%Q) /\
  (exists m,
     Omerw.parse_log Omerw.float_of_plain
       (Lines ["00:05.000 ID:1 broadcast message sent";
               "00:03.000 ID:2 broadcast message received"])
     = Return m /\
     (Omerw.Average_End_to_End_Delay m == -2000)%Q /\
     ~ (0 <= Omerw.Average_End_to_End_Delay m)%Q).
Proof.
  split; eexists; (split; [vm_compute; reflexivity|]);
    (split; [reflexivity | intros H; vm_compute in H; apply H; reflexivity]).
Qed.

(** C3, amended: when the timestamps of the input are non-decreasing in
    file order (the decodable packet timestamps of a capture, the line
    timestamps of a log), the average end-to-end delay is >= 0, for
    [parse_pcap_metrics] and for [parse_log] of omerw.py: in every record
    that [parse_log] returns, and it returns one on every log whose
    numbers are within the range of the conversions. *)
Theorem C3_delay_nonnegative (py_float : list ascii -> option Q) :
  (forall ps, StronglySorted Qle (omap Main.sniff_timestamp ps) ->
     exists m, Main.parse_pcap_metrics (Main.Packets ps) = Return m /\
               (0 <= Main.Average_End_to_End_Delay m)%Q) /\
  (forall ls, StronglySorted Z.le (omap line_timestamp ls) ->
     (forall m, Omerw.parse_log py_float (Lines ls) = Return m ->
        (0 <= Omerw.Average_End_to_End_Delay m)%Q) /\
     (within_float_range ls = true ->
        exists m, Omerw.parse_log py_float (Lines ls) = Return m /\
                  (0 <= Omerw.Average_End_to_End_Delay m)%Q)).
Proof.
  split.
  - intros ps Hs.
    destruct (duration_of_defined (Main.scan_packets ps)) as [d Hd].
    rewrite parse_packets_eq, (pcap_derive_eq _ _ Hd).
    eexists. split; [reflexivity|]. cbn [Main.Average_End_to_End_Delay].
    rewrite scan_packets_view. cbn [Main.recv_times Main.send_times].
    destruct (truthy (omap reply_time ps)) eqn:E; [|apply Qle_refl].
    apply truthy_length in E.
    pose proof (paired_sends_before_receives ps Hs) as Hle.
    pose proof (float_of_nat_pos _ E) as Hn.
    assert (H0 : (0 <= (sum (omap reply_time ps)
                        - sum (take (length (omap reply_time ps)) (omap send_time ps)))
                       / float_of_nat (length (omap reply_time ps)))%Q).
    { apply Qle_shift_div_l; [exact Hn|]. lra. }
    lra.
  - intros ls Hs.
    assert (Hpos : forall m, Omerw.parse_log py_float (Lines ls) = Return m ->
              (0 <= Omerw.Average_End_to_End_Delay m)%Q).
    { intros m Hm. apply omerw_parse_lines_inv, omerw_derive_inv in Hm.
      destruct Hm as (pdr & d & thr & _ & _ & _ & ->).
      cbn [Omerw.Average_End_to_End_Delay]. apply round2_nonneg.
      destruct (truthy (Omerw.delays (Omerw.scan_lines py_float ls))) eqn:E;
        [|apply Qle_refl].
      apply truthy_length in E.
      apply average_nonneg; [|exact E].
      apply sum_int_nonneg, omerw_delays_nonneg. exact Hs. }
    split; [exact Hpos|]. intros Hr.
    destruct (omerw_parse_returns py_float ls Hr) as [m Hm].
    exists m. split; [exact Hm | exact (Hpos m Hm)].
Qed.

(** C3 (amended) at a capture and a log with increasing timestamps. *)
Lemma C3_delay_nonnegative_witness :
  (exists m,
     Main.parse_pcap_metrics
       (Main.Packets [Main.Packet (Some 1%Q) true None;
                      Main.Packet (Some 2%Q) false (Some (Main.TypeInt 129));
                      Main.Packet (Some (5 # 2)%Q) true (Some (Main.TypeInt 155))])
     = Return m /\ (0 <= Main.Average_End_to_End_Delay m)%Q) /\
  (exists m,
     Omerw.parse_log Omerw.float_of_plain
       (Lines ["00:01.000 ID:1 broadcast message sent";
               "00:01.250 ID:2 broadcast message received";
               "no timestamp here"])
     = Return m /\ (0 <= Omerw.Average_End_to_End_Delay m)%Q).
Proof.
  split.
  - apply (proj1 (C3_delay_nonnegative Omerw.float_of_plain)).
    cbn. repeat constructor; discriminate.
  - apply (proj2 (C3_delay_nonnegative Omerw.float_of_plain)).
    + vm_compute. repeat constructor; discriminate.
    + vm_compute. reflexivity.
Defined.

(** * Further properties of the code *)

(** ** parse_pcap_metrics *)

(** X1: an exception of the check [Path(pcap_path).is_file()] of line
    41, which stands before the [try], leaves [parse_pcap_metrics].
    Once the check has answered, the parsing and the metric computation
    return a record on every input: the three zeros for a path that is
    no file and for a capture whose decoding fails, and the derived
    metrics for a capture that is read to its end (no division by zero,
    no [max] or [min] of an empty list). *)
Theorem pcap_parser_outcomes :
  Main.parse_pcap_metrics_at Main.StatFails = Raise OSError /\
  Main.parse_pcap_metrics_at (Main.Examined Main.NotAFile)
  = Return (Main.PcapMetrics 0 0 0) /\
  (forall ps, Main.parse_pcap_metrics_at (Main.Examined (Main.Broken ps))
              = Return (Main.PcapMetrics 0 0 0)) /\
  (forall ps, exists m,
     Main.parse_pcap_metrics_at (Main.Examined (Main.Packets ps)) = Return m /\
     Main.pcap_derive (Main.scan_packets ps) = Return m) /\
  (forall c, exists m, Main.parse_pcap_metrics_at (Main.Examined c) = Return m).
Proof.
  assert (Hps : forall ps, exists m,
            Main.parse_pcap_metrics (Main.Packets ps) = Return m /\
            Main.pcap_derive (Main.scan_packets ps) = Return m).
  { intros ps. destruct (duration_of_defined (Main.scan_packets ps)) as [d Hd].
    rewrite parse_packets_eq, (pcap_derive_eq _ _ Hd). eexists. split; reflexivity. }
  split; [reflexivity|]. split; [reflexivity|]. split; [reflexivity|].
  split; [exact Hps|].
  intros [|ps|ps]; [eexists; reflexivity | eexists; reflexivity |].
  destruct (Hps ps) as (m & Hm & _). exists m. exact Hm.
Qed.

Lemma replies_sublist_sends (ps : list Main.packet) :
  omap reply_time ps `sublist_of` omap send_time ps.
Proof.
  induction ps as [|pkt ps IH]; [constructor|].
  cbn [omap list_omap]. fold_omap.
  destruct (reply_time pkt) as [t|] eqn:Er.
  - rewrite (reply_is_send _ _ Er). apply sublist_skip. exact IH.
  - destruct (send_time pkt); [apply sublist_cons|]; exact IH.
Qed.

(** X2: after the capture loop, [recv_times] is a subsequence of
    [send_times] (every receive timestamp was also recorded as a send),
    [sent] is the length of [send_times] and [received] the length of
    [recv_times]. *)
Theorem receives_within_sends (ps : list Main.packet) :
  let st := Main.scan_packets ps in
  Main.recv_times st `sublist_of` Main.send_times st /\
  Main.sent st = length (Main.send_times st) /\
  Main.received st = length (Main.recv_times st).
Proof.
  cbn zeta. rewrite scan_packets_view. cbn.
  split; [apply replies_sublist_sends|]. split; reflexivity.
Qed.

Lemma omap_filter_counted (ps : list Main.packet) :
  omap send_time (List.filter is_counted ps) = omap send_time ps /\
  omap reply_time (List.filter is_counted ps) = omap reply_time ps.
Proof.
  induction ps as [|pkt ps [IH1 IH2]]; [split; reflexivity|].
  cbn [List.filter].
  destruct (send_time pkt) as [t|] eqn:Es.
  - assert (Hc : is_counted pkt = true) by (unfold is_counted; rewrite Es; reflexivity).
    rewrite Hc. cbn [omap list_omap]. fold_omap. rewrite IH1, IH2. split; reflexivity.
  - assert (Hc : is_counted pkt = false) by (unfold is_counted; rewrite Es; reflexivity).
    rewrite Hc. cbn [omap list_omap]. fold_omap. rewrite Es, IH1, IH2.
    destruct (reply_time pkt) as [u|] eqn:Er; [|split; reflexivity].
    rewrite (reply_is_send _ _ Er) in Es. discriminate.
Qed.

(** X5: records whose timestamp cannot be read, or that have neither an
    [ipv6] nor an [icmpv6] layer, have no effect: dropping them from the
    capture changes neither the loop's state nor the metrics. *)
Theorem skipped_records_have_no_effect (ps : list Main.packet) :
  Main.scan_packets (List.filter is_counted ps) = Main.scan_packets ps /\
  Main.parse_pcap_metrics (Main.Packets (List.filter is_counted ps))
  = Main.parse_pcap_metrics (Main.Packets ps).
Proof.
  assert (H : Main.scan_packets (List.filter is_counted ps) = Main.scan_packets ps).
  { rewrite !scan_packets_view.
    destruct (omap_filter_counted ps) as [-> ->]. reflexivity. }
  split; [exact H|]. rewrite !parse_packets_eq, H. reflexivity.
Qed.

Lemma Qltb_zero (y : Q) : (y == 0)%Q -> Qltb 0 y = false.
Proof. intros H. apply Qltb_ge. rewrite H. apply Qle_refl. Qed.

(** X3: the throughput is never negative, on any input; and when all the
    counted packets carry the same timestamp the duration is not
    positive and the throughput is 0, however many replies there are. *)
Theorem throughput_nonnegative :
  (forall c, exists m, Main.parse_pcap_metrics c = Return m /\
                       (0 <= Main.Throughput m)%Q) /\
  (forall ps t0,
     Forall (fun t => t == t0)%Q (omap send_time ps) ->
     exists m, Main.parse_pcap_metrics (Main.Packets ps) = Return m /\
               (Main.Throughput m == 0)%Q).
Proof.
  split.
  - intros [|ps|ps].
    + eexists. split; [reflexivity | discriminate].
    + eexists. split; [reflexivity | discriminate].
    + destruct (duration_of_defined (Main.scan_packets ps)) as [d Hd].
      rewrite parse_packets_eq, (pcap_derive_eq _ _ Hd).
      eexists. split; [reflexivity|]. cbn [Main.Throughput].
      destruct (Qltb 0 d) eqn:E; [|apply Qle_refl].
      apply Qltb_lt in E. apply Qle_shift_div_l; [exact E|].
      rewrite Qmult_0_l. apply float_of_nat_nonneg.
  - intros ps t0 Hall.
    pose proof (duration_of_spec (Main.scan_packets ps)) as Hd. cbn zeta in Hd.
    rewrite parse_packets_eq.
    rewrite scan_packets_view in Hd. cbn [Main.recv_times Main.send_times] in Hd.
    destruct (truthy (omap reply_time ps) && truthy (omap send_time ps)) eqn:E.
    + destruct Hd as (hi & lo & _ & _ & Hd & Hhi & Hlo & _).
      rewrite <- scan_packets_view in Hd. rewrite (pcap_derive_eq _ _ Hd).
      eexists. split; [reflexivity|]. cbn [Main.Throughput].
      assert (Hin : forall x, In x (omap reply_time ps ++ omap send_time ps) -> (x == t0)%Q).
      { intros x Hx. rewrite Forall_forall in Hall. apply Hall.
        apply in_app_or in Hx. destruct Hx as [Hx | Hx].
        - apply list_elem_of_In in Hx.
          eapply elem_of_sublist; [exact Hx|]. apply replies_sublist_sends.
        - apply list_elem_of_In. exact Hx. }
      assert (Hz : Qltb 0 (hi - lo) = false).
      { apply Qltb_zero.
        pose proof (Hin hi Hhi) as H1. pose proof (Hin lo Hlo) as H2. lra. }
      rewrite Hz. reflexivity.
    + rewrite <- scan_packets_view in Hd. rewrite (pcap_derive_eq _ _ Hd).
      eexists. split; [reflexivity|]. cbn [Main.Throughput].
      change (Qltb 0 1) with true. cbn iota.
      rewrite scan_packets_view. cbn [Main.received].
      apply andb_false_iff in E. destruct E as [E | E].
      * destruct (omap reply_time ps); [reflexivity | discriminate].
      * pose proof (replies_le_sends ps) as Hle.
        destruct (omap send_time ps); [|discriminate].
        destruct (omap reply_time ps); [reflexivity | cbn in Hle; lia].
Qed.

(** X3 at three replies that share one timestamp (with an exact
    rational and with an unreduced one). *)
Lemma throughput_nonnegative_witness :
  exists m,
    Main.parse_pcap_metrics
      (Main.Packets [Main.Packet (Some (1 # 2)%Q) false (Some (Main.TypeInt 155));
                     Main.Packet (Some (2 # 4)%Q) true (Some (Main.TypeInt 129));
                     Main.Packet (Some (1 # 2)%Q) true None])
    = Return m /\ (Main.Throughput m == 0)%Q.
Proof.
  apply (proj2 throughput_nonnegative _ (1 # 2)%Q).
  cbn. repeat constructor.
Defined.

(** X4: when every counted packet is a reply, the i-th receive is paired
    with itself and the average end-to-end delay is 0, whatever the
    timestamps are. *)
Theorem all_replies_zero_delay (ps : list Main.packet) :
  Forall (fun pkt => send_time pkt = reply_time pkt) ps ->
  exists m, Main.parse_pcap_metrics (Main.Packets ps) = Return m /\
            (Main.Average_End_to_End_Delay m == 0)%Q.
Proof.
  intros Hall.
  assert (Heq : omap send_time ps = omap reply_time ps).
  { induction Hall as [|pkt ps Hp _ IH]; [reflexivity|].
    cbn [omap list_omap]. fold_omap. rewrite Hp, IH. reflexivity. }
  destruct (duration_of_defined (Main.scan_packets ps)) as [d Hd].
  rewrite parse_packets_eq, (pcap_derive_eq _ _ Hd).
  eexists. split; [reflexivity|]. cbn [Main.Average_End_to_End_Delay].
  rewrite scan_packets_view. cbn [Main.recv_times Main.send_times].
  rewrite Heq. destruct (truthy (omap reply_time ps)); [|reflexivity].
  rewrite firstn_all. unfold Qminus. rewrite Qplus_opp_r.
  unfold Qdiv. rewrite !Qmult_0_l. reflexivity.
Qed.

(** X4 at a capture of two replies, the second stamped before the first. *)
Lemma all_replies_zero_delay_witness :
  exists m,
    Main.parse_pcap_metrics
      (Main.Packets [Main.Packet (Some 7%Q) true (Some (Main.TypeInt 2));
                     Main.Packet None true None;
                     Main.Packet (Some 3%Q) false (Some (Main.TypeInt 155))])
    = Return m /\ (Main.Average_End_to_End_Delay m == 0)%Q.
Proof.
  apply all_replies_zero_delay. repeat constructor.
Defined.

(** ** What a match tells about the subject *)

Lemma step1_inv (ok : ascii -> bool) (g g' : caps) (x x' : pos) :
  In (g', x') (step1 ok g x) ->
  exists a, rest x = a :: rest x' /\ ok a = true /\ g' = g /\ before x' = Some a.
Proof.
  unfold step1. destruct (rest x) as [|a s] eqn:E; [intros []|].
  destruct (ok a) eqn:Ha; [|intros []].
  intros [H | []]. injection H as <- <-. exists a. auto.
Qed.

Lemma star_inv (p : ascii -> bool) (prev : option ascii) (s : list ascii) (x' : pos) :
  In x' (star p prev s) ->
  exists b, s = b ++ rest x' /\ forallb p b = true /\ before x' = prev_after prev b.
Proof.
  revert prev. induction s as [|a s IH]; intros prev H.
  - destruct H as [<- | []]. exists []. auto.
  - cbn [star] in H. destruct (p a) eqn:Ha.
    + apply in_app_or in H. destruct H as [H | [<- | []]].
      * destruct (IH _ H) as (b & -> & Hb & Hp).
        exists (a :: b). rewrite prev_after_cons. cbn. rewrite Ha, Hb. auto.
      * exists []. auto.
    + destruct H as [<- | []]. exists []. auto.
Qed.

Lemma seq_inv (ic : bool) (r1 r2 : regex) (g g' : caps) (x x' : pos) :
  In (g', x') (rmatch ic (Seq r1 r2) g x) ->
  exists g1 y, In (g1, y) (rmatch ic r1 g x) /\ In (g', x') (rmatch ic r2 g1 y).
Proof.
  cbn [rmatch]. intros H. apply in_flat_map in H.
  destruct H as ([g1 y] & H1 & H2). exists g1, y. auto.
Qed.

Lemma grp_inv (ic : bool) (i : nat) (r : regex) (g g' : caps) (x x' : pos) :
  In (g', x') (rmatch ic (Grp i r) g x) ->
  exists g2, In (g2, x') (rmatch ic r g x) /\ g' = (i, consumed x x') :: g2.
Proof.
  cbn [rmatch]. intros H. apply in_map_iff in H.
  destruct H as ([g2 y] & E & H). cbn in E. injection E as <- <-.
  exists g2. auto.
Qed.

Lemma lit_inv (w : string) (g g' : caps) (x x' : pos) :
  In (g', x') (rmatch true (Lit w) g x) ->
  exists y, rest x = y ++ rest x' /\ lower_str y = lower_str (chars w) /\
            g' = g /\ before x' = prev_after (before x) y.
Proof.
  revert g x. induction w as [|c w IH]; intros g x H.
  - destruct H as [H | []]. injection H as <- <-. exists []. auto.
  - cbn [Lit] in H. apply seq_inv in H. destruct H as (g1 & x1 & H1 & H2).
    cbn [rmatch] in H1. apply step1_inv in H1.
    destruct H1 as (a & Hr & Hs & -> & Hb).
    destruct (IH _ _ H2) as (y & Hy & Hl & -> & Hp).
    exists (a :: y). unfold same in Hs. apply Ascii.eqb_eq in Hs.
    split; [rewrite Hr, Hy; reflexivity|].
    split; [|split; [reflexivity | rewrite prev_after_cons, <- Hb; exact Hp]].
    change (lower a :: lower_str y = lower c :: lower_str (chars w)).
    rewrite Hl, Hs. reflexivity.
Qed.

Lemma search_at_inv (ic : bool) (r : regex) (prev : option ascii)
    (s : list ascii) (g : caps) :
  search_at ic r prev s = Some g ->
  exists a s' x', s = a ++ s' /\ In (g, x') (rmatch ic r [] (Pos (prev_after prev a) s')).
Proof.
  revert prev. induction s as [|c s IH]; intros prev H.
  - cbn [search_at] in H.
    destruct (head (rmatch ic r [] (Pos prev []))) as [[g0 x0]|] eqn:E; [|discriminate].
    injection H as <-. apply head_Some_elem_of, list_elem_of_In in E.
    exists [], [], x0. auto.
  - cbn [search_at] in H.
    destruct (head (rmatch ic r [] (Pos prev (c :: s)))) as [[g0 x0]|] eqn:E.
    + injection H as <-. apply head_Some_elem_of, list_elem_of_In in E.
      exists [], (c :: s), x0. auto.
    + destruct (IH _ H) as (a & s' & x' & -> & Hin).
      exists (c :: a), s', x'. rewrite prev_after_cons. auto.
Qed.

Lemma consumed_app (prev p' : option ascii) (y s : list ascii) :
  consumed (Pos prev (y ++ s)) (Pos p' s) = y.
Proof.
  unfold consumed. cbn [rest]. rewrite List.length_app.
  replace (length y + length s - length s)%nat with (length y) by lia.
  apply take_app_length.
Qed.

Lemma same_dot (ic : bool) (a : ascii) : same ic "." a = true -> a = "."%char.
Proof.
  destruct ic; unfold same.
  - destruct a as [[|] [|] [|] [|] [|] [|] [|] [|]]; vm_compute;
      intros H; first [discriminate H | reflexivity].
  - intros H. apply Ascii.eqb_eq in H. congruence.
Qed.

(** A match of [\d+\.?\d*] reads digits, then possibly a dot, then digits. *)
Lemma number_inv (ic : bool) (g g' : caps) (x x' : pos) :
  In (g', x') (rmatch ic Main.number g x) ->
  exists d1 dot d2,
    rest x = d1 ++ dot ++ d2 ++ rest x' /\
    d1 <> [] /\ forallb is_digit d1 = true /\
    (dot = [] \/ dot = ["."%char]) /\ forallb is_digit d2 = true.
Proof.
  unfold Main.number, Plus, Opt. intros H.
  apply seq_inv in H. destruct H as (g1 & x1 & H1 & H).
  apply seq_inv in H1. destruct H1 as (g0 & x0 & H0 & H1).
  cbn [rmatch] in H0, H1. apply step1_inv in H0.
  destruct H0 as (a & Hr0 & Ha & -> & Hb0).
  apply in_map_iff in H1. destruct H1 as (y1 & E1 & H1). injection E1 as <- <-.
  apply star_inv in H1. destruct H1 as (b & Hr1 & Hb & _).
  apply seq_inv in H. destruct H as (g2 & x2 & H2 & H3).
  cbn [rmatch] in H3. apply in_map_iff in H3.
  destruct H3 as (y3 & E3 & H3). injection E3 as <- <-.
  apply star_inv in H3. destruct H3 as (d2 & Hr3 & Hd2 & _).
  cbn [rmatch] in H2. apply in_app_or in H2.
  exists (a :: b). destruct H2 as [H2 | [H2 | []]].
  - cbn [Lit] in H2. apply seq_inv in H2. destruct H2 as (g3 & x3 & H2 & H4).
    cbn [rmatch] in H2, H4. apply step1_inv in H2.
    destruct H2 as (c & Hrc & Hc & _ & _). apply same_dot in Hc. subst c.
    destruct H4 as [H4 | []]. injection H4 as <- <-.
    exists ["."%char], d2. rewrite Hr0, Hr1, Hrc, Hr3. cbn. rewrite Ha, Hb.
    repeat split; auto; discriminate.
  - injection H2 as <- <-.
    exists [], d2. rewrite Hr0, Hr1, Hr3. cbn. rewrite Ha, Hb.
    repeat split; auto; discriminate.
Qed.

(** ** The numbers read from a log are non-negative *)

Lemma digit_val_nonneg (c : ascii) : is_digit c = true -> (0 <= digit_val c)%Z.
Proof.
  unfold is_digit, in_range, digit_val. intros H.
  apply andb_true_iff in H. destruct H as [H _]. apply N.leb_le in H. lia.
Qed.

Lemma fold_digits_nonneg (l : list ascii) (acc : Z) :
  (0 <= acc)%Z -> forallb is_digit l = true ->
  (0 <= fold_left (fun acc c => 10 * acc + digit_val c) l acc)%Z.
Proof.
  revert acc. induction l as [|c l IH]; intros acc Hacc Hl; [exact Hacc|].
  cbn [forallb] in Hl. apply andb_true_iff in Hl. destruct Hl as [Hc Hl].
  cbn [fold_left]. apply IH; [|exact Hl].
  pose proof (digit_val_nonneg c Hc). lia.
Qed.

Lemma int_of_digits_nonneg (l : list ascii) :
  forallb is_digit l = true -> (0 <= int_of_digits l)%Z.
Proof. apply fold_digits_nonneg. lia. Qed.

Lemma take_while_all (p : ascii -> bool) (l : list ascii) :
  forallb p (take_while p l) = true.
Proof.
  induction l as [|a l IH]; [reflexivity|].
  cbn [take_while]. destruct (p a) eqn:E; [|reflexivity].
  cbn [forallb]. rewrite E, IH. reflexivity.
Qed.

Lemma drop_while_all (p : ascii -> bool) (l : list ascii) :
  forallb p l = true -> drop_while p l = [].
Proof.
  induction l as [|a l IH]; [reflexivity|].
  cbn [forallb drop_while]. intros H. apply andb_true_iff in H.
  destruct H as [-> H]. apply IH, H.
Qed.

Lemma drop_while_stop (p : ascii -> bool) (d r : list ascii) (c : ascii) :
  forallb p d = true -> p c = false -> drop_while p (d ++ c :: r) = c :: r.
Proof.
  intros Hd Hc. induction d as [|a d IH]; cbn [app drop_while].
  - rewrite Hc. reflexivity.
  - cbn [forallb] in Hd. apply andb_true_iff in Hd. destruct Hd as [-> Hd].
    apply IH, Hd.
Qed.

Lemma float_of_literal_nonneg (d1 dot d2 : list ascii) :
  forallb is_digit d1 = true -> (dot = [] \/ dot = ["."%char]) ->
  forallb is_digit d2 = true ->
  (0 <= float_of_literal (d1 ++ dot ++ d2))%Q.
Proof.
  intros H1 Hdot H2. unfold float_of_literal.
  assert (Hfp : forallb is_digit (drop 1 (drop_while is_digit (d1 ++ dot ++ d2))) = true).
  { destruct Hdot as [-> | ->].
    - rewrite drop_while_all; [reflexivity|].
      cbn [app]. rewrite forallb_app, H1, H2. reflexivity.
    - cbn [app]. rewrite (drop_while_stop _ _ _ _ H1); [exact H2 | reflexivity]. }
  pose proof (int_of_digits_nonneg _ (take_while_all is_digit (d1 ++ dot ++ d2))) as Hip.
  pose proof (int_of_digits_nonneg _ Hfp) as Hf.
  cbn zeta.
  set (ip := int_of_digits (take_while _ _)) in *.
  set (fp := int_of_digits (drop _ _)) in *.
  set (den := Z.to_pos _).
  assert (Ha : (0 <= inject_Z ip)%Q)
    by (change 0%Q with (inject_Z 0); rewrite <- Zle_Qle; exact Hip).
  assert (Hb : (0 <= fp # den)%Q) by (unfold Qle; cbn; lia).
  lra.
Qed.

(** The number group of a pattern [r1 r2 r3 r4 (number)], as the ETX and
    the energy patterns are built, always reads as a non-negative number. *)
Lemma number_group_nonneg (r1 r2 r3 r4 : regex) (l : list ascii) (m : caps) :
  re_search true (Seq r1 (Seq r2 (Seq r3 (Seq r4 (Grp 1 Main.number))))) l = Some m ->
  (0 <= float_of_literal (group m 1))%Q.
Proof.
  intros H. apply search_at_inv in H. destruct H as (a & s' & x' & _ & H).
  apply seq_inv in H. destruct H as (g1 & y1 & _ & H).
  apply seq_inv in H. destruct H as (g2 & y2 & _ & H).
  apply seq_inv in H. destruct H as (g3 & y3 & _ & H).
  apply seq_inv in H. destruct H as (g4 & y4 & _ & H).
  apply grp_inv in H. destruct H as (g5 & H & ->).
  apply number_inv in H. destruct H as (d1 & dot & d2 & Hr & _ & H1 & Hdot & H2).
  cbn [group Nat.eqb].
  destruct y4 as [p4 s4], x' as [p' sx]. cbn [rest] in Hr. subst s4.
  rewrite !app_assoc, consumed_app, <- app_assoc.
  apply float_of_literal_nonneg; assumption.
Qed.

Lemma etx_of_nonneg (line : string) (v : Q) : etx_of line = Some v -> (0 <= v)%Q.
Proof.
  unfold etx_of, Main.ETX_PATTERN.
  destruct (re_search true _ (chars line)) as [m|] eqn:E; [|discriminate].
  intros H. injection H as <-. eapply number_group_nonneg, E.
Qed.

Lemma energy_of_nonneg (line : string) (v : Q) : energy_of line = Some v -> (0 <= v)%Q.
Proof.
  unfold energy_of, Main.ENERGY_PATTERN.
  destruct (re_search true _ (chars line)) as [m|] eqn:E; [|discriminate].
  intros H. injection H as <-. eapply number_group_nonneg, E.
Qed.

Lemma energy_fold_nonneg (ls : list string) (score : Q) :
  (0 <= score)%Q -> (0 <= fold_left energy_after ls score)%Q.
Proof.
  revert score. induction ls as [|line ls IH]; intros score Hs; [exact Hs|].
  cbn [fold_left]. apply IH. unfold energy_after.
  destruct (energy_of line) as [v|] eqn:E; [eapply energy_of_nonneg, E|].
  destruct (is_tx_rx line); lra.
Qed.

(** ** parse_log_metrics *)

Lemma log_lines_nonnegative (ls : list string) :
  exists m, Main.parse_log_metrics (Lines ls) = Return m /\
    (0 <= Main.Overhead_Packets m)%Q /\
    (0 <= Main.Energy_Consumption m)%Q /\
    (0 <= Main.Average_ETX m)%Q.
Proof.
  rewrite parse_lines_eq, log_derive_eq. eexists. split; [reflexivity|].
  cbn [Main.Overhead_Packets Main.Energy_Consumption Main.Average_ETX].
  destruct (scan_lines_view ls) as (_ & _ & He & Hs). rewrite He, Hs.
  split; [|split].
  - apply Qle_shift_div_l.
    + apply float_of_nat_pos. unfold Main.node_count_of. lia.
    + rewrite Qmult_0_l. apply float_of_nat_nonneg.
  - apply energy_fold_nonneg. apply Qle_refl.
  - destruct (omap etx_of ls) as [|v l] eqn:E; [discriminate|].
    cbn [truthy]. rewrite <- E.
    apply Qle_shift_div_l.
    + apply float_of_nat_pos. rewrite E. cbn. lia.
    + rewrite Qmult_0_l. clear E.
      assert (Hpos : Forall (fun v => 0 <= v)%Q (omap etx_of ls)).
      { apply Forall_forall. intros x Hx. apply list_elem_of_omap in Hx.
        destruct Hx as (line & _ & Hx). eapply etx_of_nonneg, Hx. }
      revert Hpos. generalize (omap etx_of ls). intros l0 Hpos.
      induction l0 as [|x l0 IH] using rev_ind; [apply Qle_refl|].
      apply Forall_app in Hpos. destruct Hpos as [Hl Hx].
      apply Forall_inv in Hx. rewrite sum_snoc. specialize (IH Hl). lra.
Qed.

(** X6: the three metrics of the log parser are never negative, on any
    input: the overhead is a count over a positive divisor, every number
    the energy and ETX patterns capture is a non-negative decimal, and
    the heuristic only adds. *)
Theorem log_metrics_nonnegative (f : text_file) :
  exists m, Main.parse_log_metrics f = Return m /\
    (0 <= Main.Overhead_Packets m)%Q /\
    (0 <= Main.Energy_Consumption m)%Q /\
    (0 <= Main.Average_ETX m)%Q.
Proof.
  destruct f as [|ls|ls lenient|ls].
  - eexists. split; [reflexivity|]. repeat split; discriminate.
  - eexists. split; [reflexivity|]. repeat split; discriminate.
  - rewrite parse_undecodable_eq. apply log_lines_nonnegative.
  - apply log_lines_nonnegative.
Qed.

Lemma size_list_to_set_le (l : list string) :
  (size (list_to_set l : gset string) <= length l)%nat.
Proof.
  induction l as [|x l IH]; [rewrite list_to_set_nil, size_empty; cbn; lia|].
  rewrite list_to_set_cons, size_union_alt, size_singleton. cbn [length].
  pose proof (subseteq_size (list_to_set l ∖ {[x]}) (list_to_set l : gset string)) as H.
  assert (Hsub : list_to_set l ∖ {[x]} ⊆ (list_to_set l : gset string)).
  { intros y Hy. apply elem_of_difference in Hy. tauto. }
  specialize (H Hsub). lia.
Qed.

Lemma omap_length_le {A B} (f : A -> option B) (l : list A) :
  (length (omap f l) <= length l)%nat.
Proof.
  induction l as [|x l IH]; [cbn; lia|].
  cbn [omap list_omap]. fold_omap. destruct (f x); cbn [length]; lia.
Qed.

Lemma scan_lines_snoc_main (ls : list string) (line : string) :
  Main.scan_lines (ls ++ [line]) = Main.on_line (Main.scan_lines ls) line.
Proof. unfold Main.scan_lines. rewrite fold_left_app. reflexivity. Qed.

(** X8: a line counts at most once: the control count, the number of ETX
    samples and the number of node ids are each at most the number of
    lines; and the overhead is at most the control count, since its
    divisor is at least 1. *)
Theorem log_counts_bounded (ls : list string) :
  let st := Main.scan_lines ls in
  (Main.ctrl_count st <= length ls)%nat /\
  (length (Main.etx_values st) <= length ls)%nat /\
  (size (Main.node_ids st) <= length ls)%nat /\
  exists m, Main.parse_log_metrics (Lines ls) = Return m /\
            (Main.Overhead_Packets m <= float_of_nat (Main.ctrl_count st))%Q.
Proof.
  cbn zeta. destruct (scan_lines_view ls) as (Hc & Hn & He & _).
  split; [rewrite Hc; unfold ctrl_matches; apply List.filter_length_le|].
  split; [rewrite He; apply omap_length_le|].
  split.
  { rewrite Hn. unfold distinct_node_ids.
    etransitivity; [apply size_list_to_set_le | apply omap_length_le]. }
  rewrite parse_lines_eq, log_derive_eq. eexists. split; [reflexivity|].
  cbn [Main.Overhead_Packets].
  assert (Hd : (1 <= Main.node_count_of (Main.scan_lines ls))%nat)
    by (unfold Main.node_count_of; lia).
  set (d := Main.node_count_of _) in *. set (c := Main.ctrl_count _).
  apply Qle_shift_div_r; [apply float_of_nat_pos; lia|].
  unfold float_of_nat. rewrite <- inject_Z_mult, <- Zle_Qle. nia.
Qed.

(** X9: announcing a node id adds it to the set of node ids; the number
    of distinct ids grows by one when the id is new and stays the same
    when it was announced before. *)
Theorem node_announcement (ls : list string) (line n : string) :
  node_id_of line = Some n ->
  let before := Main.node_ids (Main.scan_lines ls) in
  let after := Main.node_ids (Main.scan_lines (ls ++ [line])) in
  after = {[ n ]} ∪ before /\
  size after = if decide (n ∈ before) then size before else S (size before).
Proof.
  intros Hn. cbn zeta. rewrite scan_lines_snoc_main, on_line_node_ids, Hn.
  split; [reflexivity|]. destruct (decide _) as [Hin | Hout].
  - rewrite subseteq_union_1_L; [reflexivity|].
    intros y Hy. apply elem_of_singleton in Hy. subst y. exact Hin.
  - rewrite size_union, size_singleton; [reflexivity|].
    intros y Hy Hy'. apply elem_of_singleton in Hy. subst y. contradiction.
Qed.

(** X9 at a first and at a repeated announcement of node 7. *)
Lemma node_announcement_witness :
  size (Main.node_ids (Main.scan_lines (["boot"] ++ ["Node id is set to 7"]))) = 1%nat /\
  size (Main.node_ids (Main.scan_lines (["Node id is set to 7"; "DIO"]
                                        ++ ["12:00.1 Node id is set to 7."]))) = 1%nat.
Proof.
  split.
  - assert (Hn : node_id_of "Node id is set to 7" = Some "7") by (vm_compute; reflexivity).
    destruct (node_announcement ["boot"] _ _ Hn) as [_ Hs].
    etransitivity; [exact Hs|]. vm_compute. reflexivity.
  - assert (Hn : node_id_of "12:00.1 Node id is set to 7." = Some "7")
      by (vm_compute; reflexivity).
    destruct (node_announcement ["Node id is set to 7"; "DIO"] _ _ Hn) as [_ Hs].
    etransitivity; [exact Hs|]. vm_compute. reflexivity.
Defined.

Lemma filter_none {A} (p : A -> bool) (l : list A) :
  Forall (fun x => p x = false) l -> List.filter p l = [].
Proof.
  induction 1 as [|x l Hx _ IH]; [reflexivity|].
  cbn [List.filter]. rewrite Hx. exact IH.
Qed.

Lemma energy_fold_silent (ls : list string) (score : Q) :
  Forall (fun l => energy_of l = None /\ is_tx_rx l = false) ls ->
  fold_left energy_after ls score = score.
Proof.
  intros H. induction H as [|l ls [He Ht] _ IH]; [reflexivity|].
  cbn [fold_left]. unfold energy_after at 2. rewrite He, Ht. exact IH.
Qed.

(** X10: a readable log with no control line, no ETX sample, no "Total
    energy" line and no TX/RX line gives overhead 0, energy 0 and ETX
    1.0, the same values as an unreadable log, however many node ids it
    announces. *)
Theorem silent_log_gives_defaults (ls : list string) :
  Forall (fun l => is_ctrl l = false /\ etx_of l = None /\
                   energy_of l = None /\ is_tx_rx l = false) ls ->
  exists m, Main.parse_log_metrics (Lines ls) = Return m /\
    (Main.Overhead_Packets m == 0)%Q /\
    Main.Energy_Consumption m = 0%Q /\ Main.Average_ETX m = 1%Q.
Proof.
  intros H. rewrite parse_lines_eq, log_derive_eq. eexists. split; [reflexivity|].
  cbn [Main.Overhead_Packets Main.Energy_Consumption Main.Average_ETX].
  destruct (scan_lines_view ls) as (Hc & _ & He & Hs). rewrite Hc, He, Hs.
  assert (H1 : ctrl_matches ls = 0%nat).
  { unfold ctrl_matches. rewrite filter_none; [reflexivity|].
    eapply Forall_impl; [exact H|]. cbn. tauto. }
  assert (H2 : omap etx_of ls = []).
  { apply omap_all_none. eapply Forall_impl; [exact H|]. cbn. tauto. }
  assert (H3 : fold_left energy_after ls 0%Q = 0%Q).
  { apply energy_fold_silent. eapply Forall_impl; [exact H|]. cbn. tauto. }
  rewrite H1, H2, H3. split; [|split; reflexivity].
  change (float_of_nat 0) with 0%Q. unfold Qdiv. apply Qmult_0_l.
Qed.

(** X10 at a log of node announcements and unrelated lines. *)
Lemma silent_log_gives_defaults_witness :
  exists m,
    Main.parse_log_metrics
      (Lines ["Node id is set to 1"; "Node id is set to 2"; "radio tx on"; ""]) = Return m /\
    (Main.Overhead_Packets m == 0)%Q /\
    Main.Energy_Consumption m = 0%Q /\ Main.Average_ETX m = 1%Q.
Proof.
  apply silent_log_gives_defaults.
  repeat (constructor; [repeat split; vm_compute; reflexivity|]).
  constructor.
Defined.

(** ** Exactly which lines count as control messages *)

Lemma alt_inv (ic : bool) (r1 r2 : regex) (g g' : caps) (x x' : pos) :
  In (g', x') (rmatch ic (Alt r1 r2) g x) ->
  In (g', x') (rmatch ic r1 g x) \/ In (g', x') (rmatch ic r2 g x).
Proof. cbn [rmatch]. apply in_app_or. Qed.

Lemma bnd_inv (ic : bool) (g g' : caps) (x x' : pos) :
  In (g', x') (rmatch ic Bnd g x) -> x' = x /\ at_boundary x = true.
Proof.
  cbn [rmatch]. destruct (at_boundary x); [|intros []].
  intros [H | []]. injection H as <- <-. auto.
Qed.

Lemma star_rmatch_inv (ic : bool) (p : ascii -> bool) (g g' : caps) (x x' : pos) :
  In (g', x') (rmatch ic (Star p) g x) ->
  exists b, rest x = b ++ rest x' /\ forallb p b = true /\
            before x' = prev_after (before x) b.
Proof.
  cbn [rmatch]. intros H. apply in_map_iff in H.
  destruct H as (y & E & H). injection E as <- <-. apply star_inv, H.
Qed.

Lemma frame_name_inv (g g' : caps) (x x' : pos) :
  In (g', x') (rmatch true Main.DIO_DAO_DIS g x) ->
  exists w, rest x = w ++ rest x' /\ In (lower_str w) frame_names /\
            before x' = prev_after (before x) w.
Proof.
  unfold Main.DIO_DAO_DIS. intros H.
  apply alt_inv in H. destruct H as [H | H]; [|apply alt_inv in H; destruct H as [H | H]];
    apply lit_inv in H; destruct H as (w & Hr & Hl & _ & Hb);
    exists w; (split; [exact Hr|]); (split; [|exact Hb]); rewrite Hl.
  - left. reflexivity.
  - right. left. reflexivity.
  - right. right. left. reflexivity.
Qed.

Lemma frame_name_shape (w : list ascii) :
  In (lower_str w) frame_names ->
  exists w0 w1 w2, w = [w0; w1; w2] /\ is_word w0 = true /\ is_word w2 = true /\
    exists n, In n ["DIO"; "DAO"; "DIS"] /\ lower_str w = lower_str (chars n).
Proof.
  intros H.
  destruct H as [H | [H | [H | []]]];
    destruct w as [|w0 [|w1 [|w2 [|]]]]; try discriminate;
    exists w0, w1, w2; (split; [reflexivity|]);
    pose proof H as H'; injection H' as H0 H1 H2;
    (split; [eapply word_of_lower; [symmetry; exact H0 | reflexivity]|]);
    (split; [eapply word_of_lower; [symmetry; exact H2 | reflexivity]|]).
  - exists "DIO". split; [left; reflexivity | symmetry; exact H].
  - exists "DAO". split; [right; left; reflexivity | symmetry; exact H].
  - exists "DIS". split; [right; right; left; reflexivity | symmetry; exact H].
Qed.

Lemma boundary_before_word (prev : option ascii) (c : ascii) (s : list ascii) :
  is_word c = true ->
  at_boundary (Pos prev (c :: s)) = negb (word_opt prev).
Proof.
  intros H. unfold at_boundary. cbn. rewrite H. destruct (word_opt prev); reflexivity.
Qed.

Lemma boundary_after_word (c : ascii) (s : list ascii) :
  is_word c = true ->
  at_boundary (Pos (Some c) s) = negb (word_opt (head s)).
Proof.
  intros H. unfold at_boundary. cbn. rewrite H. reflexivity.
Qed.

Lemma rpl_frame_reaches (prev : option ascii) (x ws w c : list ascii) :
  lower_str x = chars "rpl" -> forallb is_space ws = true ->
  In (lower_str w) frame_names ->
  word_opt prev = false -> word_opt (head c) = false ->
  exists x',
    reaches true
      (Seq Bnd (Seq (Lit "RPL") (Seq (Star is_space) (Seq (Grp 2 Main.DIO_DAO_DIS) Bnd))))
      (Pos prev (x ++ ws ++ w ++ c)) x'.
Proof.
  intros Hx Hws Hw Hp Hc.
  destruct (frame_name_shape w Hw) as (w0 & w1 & w2 & -> & W0 & W2 & n & Hn & Hwn).
  destruct x as [|x0 [|x1 [|x2 [|]]]]; try discriminate.
  assert (X0 : is_word x0 = true).
  { injection Hx as H0 _ _. eapply word_of_lower; [exact H0 | reflexivity]. }
  eexists.
  apply reaches_seq with (y := Pos prev ([x0; x1; x2] ++ ws ++ [w0; w1; w2] ++ c)).
  { apply reaches_bnd. cbn [app]. rewrite (boundary_before_word _ _ _ X0), Hp. reflexivity. }
  eapply reaches_seq; [apply reaches_lit; exact Hx|].
  eapply reaches_seq; [apply reaches_star; exact Hws|].
  eapply reaches_seq; [apply reaches_grp, (reaches_frame_name n); [exact Hn | exact Hwn]|].
  apply reaches_bnd.
  change (prev_after _ [w0; w1; w2]) with (Some w2).
  rewrite (boundary_after_word _ _ W2), Hc. reflexivity.
Qed.

Lemma control_occurrence_found (l : list ascii) :
  control_occurrence l -> is_Some (re_search true Main.RPL_CTRL_PATTERN l).
Proof.
  unfold re_search, Main.RPL_CTRL_PATTERN.
  intros [H | [H | H]].
  - destruct H as (a & x & ws & w & c & -> & Hx & Hws & Hw & Ha & Hc).
    destruct (rpl_frame_reaches (prev_after None a) x ws w c) as [x' Hr]; try assumption.
    { rewrite prev_after_none. exact Ha. }
    eapply search_at_reaches. apply reaches_grp, reaches_alt_l. exact Hr.
  - destruct H as (a & w & c & -> & Hw & Ha & Hc).
    destruct (frame_name_shape w Hw) as (_ & _ & _ & _ & _ & _ & n & Hn & Hwn).
    eapply search_at_reaches. apply reaches_grp, reaches_alt_r, reaches_alt_l.
    apply (whole_word_reaches n); try assumption.
    rewrite prev_after_none. exact Ha.
  - destruct H as (a & x & b & y & c & -> & Hx & Hb & Hy).
    eapply search_at_reaches. apply reaches_grp, reaches_alt_r, reaches_alt_r.
    apply icmpv6_then_reaches; eassumption.
Qed.

Lemma control_found_occurrence (l : list ascii) (m : caps) :
  re_search true Main.RPL_CTRL_PATTERN l = Some m -> control_occurrence l.
Proof.
  unfold re_search, Main.RPL_CTRL_PATTERN. intros H.
  apply search_at_inv in H. destruct H as (a & s & x' & -> & H).
  rewrite prev_after_none in H.
  apply grp_inv in H. destruct H as (g1 & H & _).
  apply alt_inv in H. destruct H as [H | H]; [|apply alt_inv in H; destruct H as [H | H]].
  - left.
    apply seq_inv in H. destruct H as (g2 & y0 & H0 & H).
    apply bnd_inv in H0. destruct H0 as [-> B0].
    apply seq_inv in H. destruct H as (g3 & y1 & H1 & H).
    apply lit_inv in H1. destruct H1 as (x & Hr1 & Hx & _ & Hb1).
    apply seq_inv in H. destruct H as (g4 & y2 & H2 & H).
    apply star_rmatch_inv in H2. destruct H2 as (ws & Hr2 & Hws & Hb2).
    apply seq_inv in H. destruct H as (g5 & y3 & H3 & H).
    apply grp_inv in H3. destruct H3 as (g6 & H3 & _).
    apply frame_name_inv in H3. destruct H3 as (w & Hr3 & Hw & Hb3).
    apply bnd_inv in H. destruct H as [-> B3].
    cbn [rest before] in *.
    destruct (frame_name_shape w Hw) as (w0 & w1 & w2 & -> & W0 & W2 & _).
    destruct x as [|x0 [|x1 [|x2 [|]]]]; try discriminate.
    assert (X0 : is_word x0 = true).
    { injection Hx as H0 _ _. eapply word_of_lower; [exact H0 | reflexivity]. }
    exists a, [x0; x1; x2], ws, [w0; w1; w2], (rest y3).
    rewrite Hr1, Hr2, Hr3 in *. clear Hr1 Hr2 Hr3.
    cbn [app] in B0. rewrite (boundary_before_word _ _ _ X0) in B0.
    destruct y3 as [p3 s3]. cbn [before rest] in *.
    change (prev_after _ [w0; w1; w2]) with (Some w2) in Hb3. subst p3.
    rewrite (boundary_after_word _ _ W2) in B3.
    apply negb_true_iff in B0, B3. auto 10.
  - right. left.
    apply seq_inv in H. destruct H as (g2 & y0 & H0 & H).
    apply bnd_inv in H0. destruct H0 as [-> B0].
    apply seq_inv in H. destruct H as (g3 & y1 & H1 & H).
    apply grp_inv in H1. destruct H1 as (g4 & H1 & _).
    apply frame_name_inv in H1. destruct H1 as (w & Hr1 & Hw & Hb1).
    apply bnd_inv in H. destruct H as [-> B1].
    cbn [rest before] in *.
    destruct (frame_name_shape w Hw) as (w0 & w1 & w2 & -> & W0 & W2 & _).
    exists a, [w0; w1; w2], (rest y1).
    rewrite Hr1 in *. clear Hr1.
    cbn [app] in B0. rewrite (boundary_before_word _ _ _ W0) in B0.
    destruct y1 as [p1 s1]. cbn [before rest] in *.
    change (prev_after _ [w0; w1; w2]) with (Some w2) in Hb1. subst p1.
    rewrite (boundary_after_word _ _ W2) in B1.
    apply negb_true_iff in B0, B1. auto 10.
  - right. right.
    apply seq_inv in H. destruct H as (g2 & y1 & H1 & H).
    apply lit_inv in H1. destruct H1 as (x & Hr1 & Hx & _ & _).
    apply seq_inv in H. destruct H as (g3 & y2 & H2 & H).
    apply star_rmatch_inv in H2. destruct H2 as (b & Hr2 & Hb & _).
    apply grp_inv in H. destruct H as (g4 & H & _).
    apply alt_inv in H.
    assert (Hy : exists y, rest y2 = y ++ rest x' /\ In (lower_str y) [chars "rpl"; chars "155"]).
    { destruct H as [H | H]; apply lit_inv in H; destruct H as (y & Hr3 & Hy & _);
        exists y; (split; [exact Hr3|]); rewrite Hy; [left | right; left]; reflexivity. }
    destruct Hy as (y & Hr3 & Hy).
    cbn [rest] in Hr1. exists a, x, b, y, (rest x').
    rewrite Hr1, Hr2, Hr3. auto.
Qed.

(** X11: a line increments [ctrl_count] exactly when it holds a control
    occurrence: "rpl", optional white space and DIO, DAO or DIS as one
    word (so RPLDIO counts); DIO, DAO or DIS as a word of its own; or
    icmpv6 followed on the line by rpl or 155 (letters in either case).
    Every other line leaves [ctrl_count] unchanged, and no line adds
    more than one. *)
Theorem control_line_characterised (st : Main.log_state) (line : string) :
  (Main.ctrl_count (Main.on_line st line) = S (Main.ctrl_count st)
   <-> control_occurrence (chars line)) /\
  (Main.ctrl_count (Main.on_line st line) = Main.ctrl_count st
   <-> ~ control_occurrence (chars line)).
Proof.
  rewrite on_line_ctrl. unfold is_ctrl.
  destruct (re_search true Main.RPL_CTRL_PATTERN (chars line)) as [m|] eqn:E.
  - pose proof (control_found_occurrence _ _ E) as Hocc.
    rewrite bool_decide_eq_true_2 by eauto. split; split; try tauto; intros; lia.
  - assert (Hnone : ~ control_occurrence (chars line)).
    { intros Hocc. apply control_occurrence_found in Hocc.
      rewrite E in Hocc. destruct Hocc as [? ?]. discriminate. }
    rewrite bool_decide_eq_false_2 by (intros [? ?]; discriminate).
    split; split; try tauto; intros; lia.
Qed.

(** X11 at a line where RPL and DIO are written together. *)
Lemma control_line_characterised_witness :
  Main.ctrl_count (Main.on_line Main.log_init "sent RPLdio, rank 256") = 1%nat.
Proof.
  apply (proj1 (control_line_characterised Main.log_init "sent RPLdio, rank 256")).
  left. exists (chars "sent "), (chars "RPL"), [], (chars "dio"), (chars ", rank 256").
  repeat split; try reflexivity. left. reflexivity.
Defined.

(** ** parse_log of omerw.py *)

Section OmerwMore.

Variable py_float : list ascii -> option Q.

(** X12: [parse_log] has no handler.  A record comes only from a file
    that is read to its end, and it is derived from the state that the
    loop reaches.  A file that cannot be opened, a read that fails and
    bytes that cannot be decoded all end in an exception that leaves the
    function: an OSError or, for undecodable bytes and for a digit
    string that [int] refuses, a ValueError.  On a file read to its end
    the only other exception is the OverflowError of a true division of
    ints; nothing divides by zero.  On a log whose numbers are within
    the range of the conversions a record is returned. *)
Theorem omerw_parse_log_outcomes :
  (forall f m, Omerw.parse_log py_float f = Return m ->
     exists ls, f = Lines ls /\
                Omerw.derive (Omerw.scan_lines py_float ls) = Return m) /\
  (forall f, (forall ls, f <> Lines ls) ->
     exists e, Omerw.parse_log py_float f = Raise e /\
               (e = OSError \/ e = ValueError)) /\
  (forall ls lenient,
     Omerw.parse_log py_float (Undecodable ls lenient) = Raise ValueError) /\
  (forall ls e, Omerw.parse_log py_float (Lines ls) = Raise e ->
     e = ValueError \/ e = OverflowError) /\
  (forall ls, within_float_range ls = true ->
     exists m, Omerw.parse_log py_float (Lines ls) = Return m).
Proof.
  assert (Hread : forall ls e,
            (_ ← Omerw.read_lines py_float Omerw.init ls; Raise e : outcome Omerw.state)
            = Raise e \/
            (_ ← Omerw.read_lines py_float Omerw.init ls; Raise e : outcome Omerw.state)
            = Raise ValueError).
  { intros ls e. rewrite omerw_read_lines_eq.
    destruct (forallb _ ls); [left | right]; reflexivity. }
  split; [|split; [|split; [|split]]].
  - intros f m Hm. destruct f as [|ls|ls lenient|ls].
    + discriminate.
    + exfalso. revert Hm. unfold Omerw.parse_log. cbn [Omerw.read_log].
      destruct (Hread ls OSError) as [-> | ->]; discriminate.
    + exfalso. revert Hm. unfold Omerw.parse_log. cbn [Omerw.read_log].
      destruct (Hread ls ValueError) as [-> | ->]; discriminate.
    + exists ls. split; [reflexivity|]. apply omerw_parse_lines_inv. exact Hm.
  - intros f Hf. destruct f as [|ls|ls lenient|ls].
    + exists OSError. split; [reflexivity | left; reflexivity].
    + unfold Omerw.parse_log. cbn [Omerw.read_log].
      destruct (Hread ls OSError) as [-> | ->]; eexists; (split; [reflexivity|]);
        [left | right]; reflexivity.
    + unfold Omerw.parse_log. cbn [Omerw.read_log].
      destruct (Hread ls ValueError) as [-> | ->]; eexists; (split; [reflexivity|]);
        right; reflexivity.
    + exfalso. exact (Hf ls eq_refl).
  - intros ls lenient. unfold Omerw.parse_log. cbn [Omerw.read_log].
    destruct (Hread ls ValueError) as [-> | ->]; reflexivity.
  - intros ls e. unfold Omerw.parse_log. cbn [Omerw.read_log].
    rewrite omerw_read_lines_eq. destruct (forallb _ ls).
    + intros H. right. eapply omerw_derive_raises. exact H.
    + intros H. injection H as <-. left. reflexivity.
  - intros ls. apply omerw_parse_returns.
Qed.

Lemma filter_snoc_length {A} (p : A -> bool) (l : list A) (x : A) :
  length (List.filter p (l ++ [x]))
  = (length (List.filter p l) + if p x then 1 else 0)%nat.
Proof.
  rewrite List.filter_app, List.length_app. cbn [List.filter].
  destruct (p x); reflexivity.
Qed.

Lemma omerw_count_fields (ls : list string) :
  Omerw.sent_packets (Omerw.scan_lines py_float ls)
  = length (List.filter is_sent_line ls) /\
  Omerw.received_packets (Omerw.scan_lines py_float ls)
  = length (List.filter is_received_line ls) /\
  (length (Omerw.send_times (Omerw.scan_lines py_float ls))
   <= Omerw.sent_packets (Omerw.scan_lines py_float ls))%nat /\
  (length (Omerw.delays (Omerw.scan_lines py_float ls))
   <= Omerw.received_packets (Omerw.scan_lines py_float ls))%nat.
Proof.
  induction ls as [|line ls IH] using rev_ind.
  - cbn. repeat split; lia.
  - destruct IH as (Hs & Hr & Hst & Hd).
    pose proof (omerw_send_times_view py_float (ls ++ [line])) as [_ Hv].
    pose proof (omerw_send_times_view py_float ls) as [_ Hv0].
    cbn zeta in Hv, Hv0.
    assert (Hlen : forall d, length d = length (Omerw.dict_values d)).
    { intros d. unfold Omerw.dict_values. rewrite length_map. reflexivity. }
    rewrite (Hlen (Omerw.send_times (Omerw.scan_lines py_float (ls ++ [line])))), Hv.
    rewrite (Hlen (Omerw.send_times (Omerw.scan_lines py_float ls))), Hv0 in Hst.
    rewrite scan_lines_snoc.
    destruct (omerw_on_line_fields py_float (Omerw.scan_lines py_float ls) line)
      as (Es & Er & _ & Ed & _).
    assert (Hdl : (length (Omerw.delays
                             (Omerw.on_line py_float (Omerw.scan_lines py_float ls) line))
                   <= length (Omerw.delays (Omerw.scan_lines py_float ls))
                      + if Omerw.is_received (chars line) then 1 else 0)%nat).
    { rewrite Ed. destruct (Omerw.is_received (chars line)); [|lia].
      destruct (Omerw.timestamp_of (chars line)); [|lia].
      destruct (last _); [|lia]. rewrite List.length_app. cbn. lia. }
    assert (Hsl : (length (option_list (sent_timestamp line))
                   <= if Omerw.is_sent (chars line) then 1 else 0)%nat).
    { unfold sent_timestamp. destruct (Omerw.is_sent (chars line)); [|cbn; lia].
      destruct (Omerw.timestamp_of (chars line)); cbn; lia. }
    rewrite Es, Er, Hs, Hr, !filter_snoc_length, omap_snoc, List.length_app.
    rewrite Hs in Hst. rewrite Hr in Hd.
    unfold is_sent_line at 2, is_received_line at 2.
    repeat split; lia.
Qed.

(** X13: [sent_packets] and [received_packets] are the numbers of lines
    that contain "broadcast message sent" and "broadcast message
    received" (in any letter case); there are never more recorded send
    times than sends, nor more delay samples than receives; and the
    overhead of every record that [parse_log] returns is
    [sent - received], which is negative when more lines are received
    than sent.  A record is returned on every log whose numbers are
    within the range of the conversions. *)
Theorem omerw_counts (ls : list string) :
  let st := Omerw.scan_lines py_float ls in
  let overhead := (Z.of_nat (length (List.filter is_sent_line ls))
                   - Z.of_nat (length (List.filter is_received_line ls)))%Z in
  Omerw.sent_packets st = length (List.filter is_sent_line ls) /\
  Omerw.received_packets st = length (List.filter is_received_line ls) /\
  (length (Omerw.send_times st) <= Omerw.sent_packets st)%nat /\
  (length (Omerw.delays st) <= Omerw.received_packets st)%nat /\
  (forall m, Omerw.parse_log py_float (Lines ls) = Return m ->
     Omerw.Overhead_Packets m = overhead) /\
  (within_float_range ls = true ->
     exists m, Omerw.parse_log py_float (Lines ls) = Return m /\
               Omerw.Overhead_Packets m = overhead).
Proof.
  cbn zeta. destruct (omerw_count_fields ls) as (Hs & Hr & Hst & Hd).
  split; [exact Hs|]. split; [exact Hr|]. split; [exact Hst|]. split; [exact Hd|].
  assert (Hover : forall m, Omerw.parse_log py_float (Lines ls) = Return m ->
            Omerw.Overhead_Packets m
            = (Z.of_nat (length (List.filter is_sent_line ls))
               - Z.of_nat (length (List.filter is_received_line ls)))%Z).
  { intros m Hm. apply omerw_parse_lines_inv, omerw_derive_inv in Hm.
    destruct Hm as (pdr & d & thr & _ & _ & _ & ->).
    cbn [Omerw.Overhead_Packets]. rewrite Hs, Hr. reflexivity. }
  split; [exact Hover|]. intros Hrange.
  destruct (omerw_parse_returns py_float ls Hrange) as [m Hm].
  exists m. split; [exact Hm | exact (Hover m Hm)].
Qed.

End OmerwMore.

(** The log of two lines whose second timestamp has 320 digits for the
    minutes: the division of line 64 raises.  A timestamp of 4301 digits
    is refused by [int] on line 21. *)
Example omerw_overflow_sample :
  Omerw.parse_log Omerw.float_of_plain (Lines ["00:01.000 boot"; long_stamp 320 "done"])
  = Raise OverflowError.
Proof. vm_compute. reflexivity. Qed.

Example omerw_refused_sample :
  Omerw.parse_log Omerw.float_of_plain (Lines ["00:01.000 boot"; long_stamp 4301 "done"])
  = Raise ValueError.
Proof. vm_compute. reflexivity. Qed.

(** X12 at a log of two lines: a record is returned, and it is the one
    derived from the state after the loop. *)
Lemma omerw_parse_log_outcomes_witness :
  let ls := ["00:01.000 boot"; "00:03.000 done"] in
  exists m, Omerw.parse_log Omerw.float_of_plain (Lines ls) = Return m /\
            Omerw.derive (Omerw.scan_lines Omerw.float_of_plain ls) = Return m.
Proof.
  intros ls.
  destruct (proj2 (proj2 (proj2 (proj2
              (omerw_parse_log_outcomes Omerw.float_of_plain)))) ls) as [m Hm];
    [vm_compute; reflexivity|].
  exists m. split; [exact Hm|].
  destruct (proj1 (omerw_parse_log_outcomes Omerw.float_of_plain) (Lines ls) m Hm)
    as (ls' & Heq & Hd).
  injection Heq as <-. exact Hd.
Defined.

(** X13 at a log with one send and two receives. *)
Lemma omerw_counts_witness :
  exists m,
    Omerw.parse_log Omerw.float_of_plain
      (Lines ["00:01.000 ID:1 broadcast message sent";
              "00:02.000 ID:2 broadcast message received";
              "00:03.000 ID:3 Broadcast message received from 1"]) = Return m /\
    Omerw.Overhead_Packets m = (-1)%Z.
Proof.
  destruct (proj2 (proj2 (proj2 (proj2 (proj2
              (omerw_counts Omerw.float_of_plain
                 ["00:01.000 ID:1 broadcast message sent";
                  "00:02.000 ID:2 broadcast message received";
                  "00:03.000 ID:3 Broadcast message received from 1"]))))))
    as (m & Hm & Ho); [vm_compute; reflexivity|].
  exists m. split; [exact Hm|]. rewrite Ho. vm_compute. reflexivity.
Defined.

Section OmerwWindow.

Variable py_float : list ascii -> option Q.

(** X14: [first_time] and [last_time] are the first and the last line
    timestamp of the log.  When both are non-zero the duration is the
    true division [(last - first) / 1000]: the quotient when the
    difference is below [1000 * (2^1024 - 2^970)] in absolute value, and
    an OverflowError from there on.  A log without timestamps, or whose
    first or last timestamp is 00:00.000 (the integer 0, which is
    false), gets the duration 1. *)
Theorem omerw_observation_window (ls : list string) :
  let st := Omerw.scan_lines py_float ls in
  let stamps := omap line_timestamp ls in
  Omerw.first_time st = head stamps /\
  Omerw.last_time st = last stamps /\
  (forall t0 t1, head stamps = Some t0 -> last stamps = Some t1 ->
     t0 <> 0%Z -> t1 <> 0%Z ->
     ((Z.abs (t1 - t0) < 1000 * (2 ^ 1024 - 2 ^ 970))%Z ->
      Omerw.duration_of st = Return (float_of_int (t1 - t0) / 1000)%Q) /\
     ((1000 * (2 ^ 1024 - 2 ^ 970) <= Z.abs (t1 - t0))%Z ->
      Omerw.duration_of st = Raise OverflowError)) /\
  (head stamps = None \/ head stamps = Some 0%Z \/ last stamps = Some 0%Z ->
   Omerw.duration_of st = Return 1%Q).
Proof.
  cbn zeta. destruct (omerw_times_view py_float ls) as (Hf & Hl & _).
  cbn zeta in Hf, Hl.
  split; [exact Hf|]. split; [exact Hl|].
  unfold Omerw.duration_of. rewrite Hf, Hl. split.
  - intros t0 t1 -> -> H0 H1. cbn [Omerw.truthy_time].
    apply Z.eqb_neq in H0, H1. rewrite H0, H1. cbn [negb andb].
    rewrite int_true_div_eq by lia.
    change (2 ^ 1024 - 2 ^ 970)%Z with float_limit.
    rewrite (Z.mul_comm 1000 float_limit).
    split; intros H.
    + destruct (Z.leb_spec (float_limit * 1000) (Z.abs (t1 - t0))) as [H'|_];
        [lia | reflexivity].
    + destruct (Z.leb_spec (float_limit * 1000) (Z.abs (t1 - t0))) as [_|H'];
        [reflexivity | lia].
  - intros [H | [H | H]]; rewrite H.
    + reflexivity.
    + reflexivity.
    + destruct (head (omap line_timestamp ls)) as [t0|]; [|reflexivity].
      cbn [Omerw.truthy_time]. rewrite andb_false_r. reflexivity.
Qed.

End OmerwWindow.

(** X14 at a log of two seconds, at the same log starting at 00:00.000,
    and at a log whose last line is stamped with 320 nines for the
    minutes. *)
Lemma omerw_observation_window_witness :
  Omerw.duration_of
    (Omerw.scan_lines Omerw.float_of_plain ["00:01.000 boot"; "idle"; "00:03.000 done"])
  = Return (float_of_int (3000 - 1000) / 1000)%Q /\
  Omerw.duration_of
    (Omerw.scan_lines Omerw.float_of_plain ["00:00.000 boot"; "idle"; "00:03.000 done"])
  = Return 1%Q /\
  Omerw.duration_of
    (Omerw.scan_lines Omerw.float_of_plain ["00:01.000 boot"; long_stamp 320 "done"])
  = Raise OverflowError.
Proof.
  split; [|split].
  - apply (proj1 (proj2 (proj2 (omerw_observation_window Omerw.float_of_plain
             ["00:01.000 boot"; "idle"; "00:03.000 done"]))) 1000%Z 3000%Z);
      [vm_compute; reflexivity | vm_compute; reflexivity | discriminate | discriminate
      | vm_compute; reflexivity].
  - apply (proj2 (proj2 (proj2 (omerw_observation_window Omerw.float_of_plain
             ["00:00.000 boot"; "idle"; "00:03.000 done"])))).
    right. left. vm_compute. reflexivity.
  - apply (proj1 (proj2 (proj2 (omerw_observation_window Omerw.float_of_plain
             ["00:01.000 boot"; long_stamp 320 "done"]))) 1000%Z
             ((10 ^ 320 - 1) * 60000)%Z);
      [vm_compute; reflexivity | vm_compute; reflexivity | discriminate | discriminate
      | vm_compute; discriminate].
Defined.

Lemma findall_digits_are_digits (cur l : list ascii) :
  forallb is_digit cur = true ->
  Forall (fun r => forallb is_digit r = true) (Omerw.findall_digits cur l).
Proof.
  revert cur. induction l as [|a l IH]; intros cur Hcur; cbn [Omerw.findall_digits].
  - destruct cur; [constructor | constructor; [exact Hcur | constructor]].
  - destruct (is_digit a) eqn:Ha.
    + apply IH. rewrite forallb_app, Hcur. cbn. rewrite Ha. reflexivity.
    + destruct cur as [|c cur'].
      * apply IH. reflexivity.
      * constructor; [exact Hcur | apply IH; reflexivity].
Qed.

Lemma line_energy_nonneg (line : string) : (0 <= line_energy line)%Z.
Proof.
  unfold line_energy.
  destruct (re_search false Omerw.POWERTRACE_PATTERN (chars line)); [|lia].
  cbn zeta.
  pose proof (findall_digits_are_digits [] (chars line) eq_refl) as Hall.
  rewrite Forall_forall in Hall.
  destruct (Omerw.findall_digits [] (chars line) !! 4%nat) as [tx|] eqn:E4; [|lia].
  destruct (Omerw.findall_digits [] (chars line) !! 5%nat) as [listen|] eqn:E5; [|lia].
  apply list_elem_of_lookup_2 in E4, E5.
  pose proof (int_of_digits_nonneg _ (Hall _ E4)).
  pose proof (int_of_digits_nonneg _ (Hall _ E5)). lia.
Qed.

Lemma sum_int_map_nonneg {A} (f : A -> Z) (l : list A) :
  (forall x, 0 <= f x)%Z -> (0 <= sum_int (map f l))%Z.
Proof.
  intros H. apply sum_int_nonneg. apply Forall_forall.
  intros y Hy. apply list_elem_of_fmap in Hy. destruct Hy as (x & -> & _). apply H.
Qed.

Lemma omerw_pdr_nonneg (st : Omerw.state) (q : Q) :
  Omerw.pdr_of st = Return q -> (0 <= q)%Q.
Proof.
  unfold Omerw.pdr_of. destruct (0 <? Omerw.sent_packets st)%nat eqn:E.
  - apply Nat.ltb_lt in E. rewrite (div_by_count _ _ E). cbn.
    intros H. injection H as <-.
    assert (H0 : (0 <= float_of_nat (Omerw.received_packets st)
                       / float_of_nat (Omerw.sent_packets st))%Q).
    { apply Qle_shift_div_l; [apply float_of_nat_pos, E|].
      rewrite Qmult_0_l. apply float_of_nat_nonneg. }
    lra.
  - intros H. injection H as <-. apply Qle_refl.
Qed.

Lemma omerw_throughput_nonneg (st : Omerw.state) (d q : Q) :
  Omerw.throughput_of st d = Return q -> (0 <= q)%Q.
Proof.
  unfold Omerw.throughput_of. destruct (Qltb 0 d) eqn:E.
  - apply Qltb_lt in E. rewrite div_defined.
    + intros H. injection H as <-. apply Qle_shift_div_l; [exact E|].
      rewrite Qmult_0_l. apply float_of_nat_nonneg.
    + intros Z. rewrite Z in E. exact (Qlt_irrefl _ E).
  - intros H. injection H as <-. apply Qle_refl.
Qed.

(** X15: in every record that [parse_log] returns the PDR, the
    throughput and the energy consumption are non-negative; the energy
    consumption is the sum, over the powertrace lines (white space, P,
    white space) with at least six numbers, of the fifth and sixth
    number of the line.  A record is returned on every log whose numbers
    are within the range of the conversions. *)
Theorem omerw_metrics_nonnegative (py_float : list ascii -> option Q)
    (ls : list string) :
  (forall m, Omerw.parse_log py_float (Lines ls) = Return m ->
     (0 <= Omerw.PDR m)%Q /\ (0 <= Omerw.Throughput m)%Q /\
     Omerw.Energy_Consumption m = sum_int (map line_energy ls) /\
     (0 <= Omerw.Energy_Consumption m)%Z) /\
  (within_float_range ls = true ->
     exists m, Omerw.parse_log py_float (Lines ls) = Return m /\
       (0 <= Omerw.PDR m)%Q /\ (0 <= Omerw.Throughput m)%Q /\
       Omerw.Energy_Consumption m = sum_int (map line_energy ls) /\
       (0 <= Omerw.Energy_Consumption m)%Z).
Proof.
  assert (Hall : forall m, Omerw.parse_log py_float (Lines ls) = Return m ->
            (0 <= Omerw.PDR m)%Q /\ (0 <= Omerw.Throughput m)%Q /\
            Omerw.Energy_Consumption m = sum_int (map line_energy ls) /\
            (0 <= Omerw.Energy_Consumption m)%Z).
  { intros m Hm. apply omerw_parse_lines_inv, omerw_derive_inv in Hm.
    destruct Hm as (pdr & d & thr & Hp & _ & Ht & ->).
    cbn [Omerw.PDR Omerw.Throughput Omerw.Energy_Consumption].
    destruct (omerw_times_view py_float ls) as (_ & _ & He). cbn zeta in He.
    split; [apply round2_nonneg, (omerw_pdr_nonneg _ _ Hp)|].
    split; [apply round2_nonneg, (omerw_throughput_nonneg _ _ _ Ht)|].
    split; [exact He|]. rewrite He.
    apply sum_int_map_nonneg, line_energy_nonneg. }
  split; [exact Hall|]. intros Hr.
  destruct (omerw_parse_returns py_float ls Hr) as [m Hm].
  exists m. split; [exact Hm | exact (Hall m Hm)].
Qed.

(** X15 at a log with one powertrace line, whose fifth and sixth
    numbers, the digits of the timestamp included, are 91652 and 2. *)
Lemma omerw_metrics_nonnegative_witness :
  exists m,
    Omerw.parse_log Omerw.float_of_plain
      (Lines ["00:01.000 ID:1 broadcast message sent";
              "00:02.000 ID:2 91652 P 2.0 357 1771569 21646277 broadcast message received"])
    = Return m /\
    (0 <= Omerw.PDR m)%Q /\ (0 <= Omerw.Throughput m)%Q /\
    Omerw.Energy_Consumption m = (91652 + 2)%Z.
Proof.
  destruct (proj2 (omerw_metrics_nonnegative Omerw.float_of_plain
              ["00:01.000 ID:1 broadcast message sent";
               "00:02.000 ID:2 91652 P 2.0 357 1771569 21646277 broadcast message received"]))
    as (m & Hm & Hp & Ht & He & _).
  - vm_compute. reflexivity.
  - exists m. split; [exact Hm|]. split; [exact Hp|]. split; [exact Ht|].
    rewrite He. vm_compute. reflexivity.
Defined.

(** ** The timestamp at the start of a line (omerw.py) *)

Lemma head_app_some {A} (l k : list A) (x : A) :
  head l = Some x -> head (l ++ k) = Some x.
Proof. destruct l; [discriminate | trivial]. Qed.

Lemma star_head (p : ascii -> bool) (prev : option ascii) (b s : list ascii) :
  forallb p b = true -> stops p s = true ->
  head (star p prev (b ++ s)) = Some (Pos (prev_after prev b) s).
Proof.
  intros Hb Hs. revert prev Hb. induction b as [|a b IH]; intros prev Hb.
  - cbn [app]. destruct s as [|c s]; [reflexivity|].
    cbn in Hs. apply negb_true_iff in Hs. cbn [star]. rewrite Hs. reflexivity.
  - cbn [forallb] in Hb. apply andb_true_iff in Hb. destruct Hb as [Ha Hb].
    rewrite prev_after_cons. cbn [app star]. rewrite Ha.
    apply head_app_some, IH, Hb.
Qed.

Lemma plus_head (ic : bool) (p : ascii -> bool) (g : caps) (prev : option ascii)
    (b s : list ascii) :
  b <> [] -> forallb p b = true -> stops p s = true ->
  head (rmatch ic (Plus p) g (Pos prev (b ++ s))) = Some (g, Pos (prev_after prev b) s).
Proof.
  intros Hne Hb Hs. destruct b as [|a b]; [congruence|].
  cbn [forallb] in Hb. apply andb_true_iff in Hb. destruct Hb as [Ha Hb].
  unfold Plus. cbn [rmatch app]. unfold step1. cbn [rest]. rewrite Ha.
  cbn [flat_map fst snd rmatch before rest]. rewrite app_nil_r, prev_after_cons.
  pose proof (star_head p (Some a) b s Hb Hs) as H.
  destruct (star p (Some a) (b ++ s)) as [|z l]; [discriminate|].
  injection H as ->. reflexivity.
Qed.

Lemma seq_head (ic : bool) (r1 r2 : regex) (g g1 : caps) (x y : pos) (z : caps * pos) :
  head (rmatch ic r1 g x) = Some (g1, y) ->
  head (rmatch ic r2 g1 y) = Some z ->
  head (rmatch ic (Seq r1 r2) g x) = Some z.
Proof.
  intros H1 H2. cbn [rmatch].
  destruct (rmatch ic r1 g x) as [|[g0 y0] l]; [discriminate|].
  injection H1 as -> ->. cbn [flat_map fst snd]. apply head_app_some, H2.
Qed.

Lemma grp_head (ic : bool) (i : nat) (r : regex) (g g1 : caps) (x y : pos) :
  head (rmatch ic r g x) = Some (g1, y) ->
  head (rmatch ic (Grp i r) g x) = Some ((i, consumed x y) :: g1, y).
Proof.
  intros H. cbn [rmatch].
  destruct (rmatch ic r g x) as [|[g0 y0] l]; [discriminate|].
  injection H as -> ->. reflexivity.
Qed.

Lemma char_head (c : ascii) (g : caps) (prev : option ascii) (s : list ascii) :
  head (rmatch false (Lit (String c "")) g (Pos prev (c :: s)))
  = Some (g, Pos (Some c) s).
Proof.
  cbn [Lit rmatch]. unfold step1, same. cbn [rest]. rewrite Ascii.eqb_refl.
  reflexivity.
Qed.

Lemma digits_group_head (i : nat) (g : caps) (prev : option ascii) (b s : list ascii) :
  b <> [] -> forallb is_digit b = true -> stops is_digit s = true ->
  head (rmatch false (Grp i (Plus is_digit)) g (Pos prev (b ++ s)))
  = Some ((i, b) :: g, Pos (prev_after prev b) s).
Proof.
  intros Hne Hb Hs.
  rewrite (grp_head _ _ _ _ _ _ _ (plus_head false _ g prev b s Hne Hb Hs)).
  rewrite consumed_app. reflexivity.
Qed.

(** X16: a line that starts with digits, a colon, digits, a dot and
    digits has the timestamp [(minutes * 60 + seconds) * 1000 + millis],
    the three runs of digits read as integers (the digits after the dot
    are a count of milliseconds whatever their number: "1.5" is 1005);
    a line that does not start with a digit has no timestamp. *)
Theorem timestamp_of_line (mm ss ms tail : list ascii) :
  (mm <> [] -> ss <> [] -> ms <> [] ->
   forallb is_digit mm = true -> forallb is_digit ss = true ->
   forallb is_digit ms = true -> stops is_digit tail = true ->
   Omerw.timestamp_of (mm ++ ":"%char :: ss ++ "."%char :: ms ++ tail)
   = Some ((int_of_digits mm * 60 + int_of_digits ss) * 1000 + int_of_digits ms)%Z) /\
  (stops is_digit tail = true -> Omerw.timestamp_of tail = None).
Proof.
  split.
  - intros Nm Ns Nl Hm Hs Hl Ht.
    unfold Omerw.timestamp_of, re_match, Omerw.TIMESTAMP_PATTERN.
    erewrite seq_head; cycle 1.
    { apply (digits_group_head 1 [] None mm); [exact Nm | exact Hm | reflexivity]. }
    { eapply seq_head; [apply char_head|].
      eapply seq_head.
      { apply (digits_group_head 2 _ _ ss); [exact Ns | exact Hs | reflexivity]. }
      eapply seq_head; [apply char_head|].
      apply (digits_group_head 3 _ _ ms); [exact Nl | exact Hl | exact Ht]. }
    reflexivity.
  - intros Ht. unfold Omerw.timestamp_of, re_match, Omerw.TIMESTAMP_PATTERN, Plus.
    cbn [rmatch]. unfold step1. cbn [rest].
    destruct tail as [|c tail]; [reflexivity|].
    cbn in Ht. apply negb_true_iff in Ht. rewrite Ht. reflexivity.
Qed.

(** X16 at the line "01:02.5 ID:3 up": 1 min 2 s 5 ms. *)
Lemma timestamp_of_line_witness :
  Omerw.timestamp_of (chars "01:02.5 ID:3 up") = Some 62005%Z /\
  Omerw.timestamp_of (chars " 01:02.5") = None.
Proof.
  split.
  - apply (proj1 (timestamp_of_line (chars "01") (chars "02") (chars "5") (chars " ID:3 up")));
      first [discriminate | reflexivity].
  - apply (proj2 (timestamp_of_line [] [] [] (chars " 01:02.5"))). reflexivity.
Defined.

(** ** The script around the parsers (main.py) *)

Lemma is_prefix_refl (l : list ascii) : is_prefix l l = true.
Proof.
  induction l as [|a l IH]; [reflexivity|].
  cbn [is_prefix]. rewrite Ascii.eqb_refl. exact IH.
Qed.

(** X17: [pick] returns the name itself whenever an entry with exactly
    that name exists; whatever it returns is an entry of the directory
    that starts with the name; and it raises (FileNotFoundError) exactly
    when no entry starts with the name. *)
Theorem pick_finds_by_prefix (dir : Script.directory) (name : string) :
  (name ∈ dir -> Script.pick dir name = Return name) /\
  (forall p, Script.pick dir name = Return p ->
     p ∈ dir /\ is_prefix (chars name) (chars p) = true) /\
  (Script.pick dir name = Raise OSError <->
   forall entry, entry ∈ dir -> is_prefix (chars name) (chars entry) = false).
Proof.
  unfold Script.pick, Script.exists_in, Script.glob_star.
  split; [intros H; rewrite bool_decide_eq_true_2 by exact H; reflexivity|].
  destruct (bool_decide (name ∈ dir)) eqn:E.
  - apply bool_decide_eq_true in E. split.
    + intros p H. injection H as <-. split; [exact E | apply is_prefix_refl].
    + split; [discriminate|]. intros H. specialize (H name E).
      rewrite is_prefix_refl in H. discriminate.
  - clear E.
    destruct (List.filter _ dir) as [|m0 ms] eqn:F.
    + split; [discriminate|]. split; [|reflexivity].
      intros _ entry Hin. apply list_elem_of_In in Hin.
      destruct (is_prefix (chars name) (chars entry)) eqn:P; [|reflexivity].
      assert (Hf : In entry (List.filter
                     (fun e => is_prefix (chars name) (chars e)) dir)).
      { apply List.filter_In. auto. }
      rewrite F in Hf. destruct Hf.
    + assert (Hm : In m0 (List.filter
                     (fun e => is_prefix (chars name) (chars e)) dir)).
      { rewrite F. left. reflexivity. }
      apply List.filter_In in Hm. destruct Hm as [Hin Hp].
      split.
      * intros p H. injection H as <-. split; [apply list_elem_of_In, Hin | exact Hp].
      * split; [discriminate|]. intros H.
        rewrite (H m0 (proj2 (list_elem_of_In _ _) Hin)) in Hp. discriminate.
Qed.

(** X17 at a directory where only a longer name exists, and at one
    where nothing fits. *)
Lemma pick_finds_by_prefix_witness :
  Script.pick ["metrics.csv"; "pacapwithattack.pcap"; "pacapwithattack"] "pacapwithattack"
  = Return "pacapwithattack" /\
  Script.pick ["metrics.csv"; "withattackloglistener.txt"] "pacapwithattack"
  = Raise OSError.
Proof.
  split.
  - apply (proj1 (pick_finds_by_prefix _ _)).
    apply list_elem_of_In. right. right. left. reflexivity.
  - apply (proj2 (proj2 (pick_finds_by_prefix _ _))).
    intros entry Hin. apply list_elem_of_In in Hin.
    destruct Hin as [<- | [<- | []]]; reflexivity.
Defined.

Lemma pcap_parse_defined (c : Main.capture) :
  exists m, Main.parse_pcap_metrics c = Return m.
Proof.
  destruct c as [|ps|ps]; [eexists; reflexivity | eexists; reflexivity |].
  destruct (duration_of_defined (Main.scan_packets ps)) as [d Hd].
  rewrite parse_packets_eq, (pcap_derive_eq _ _ Hd). eexists; reflexivity.
Qed.

Lemma log_parse_defined (f : text_file) :
  exists m, Main.parse_log_metrics f = Return m.
Proof.
  destruct f as [|ls|ls lenient|ls];
    [eexists; reflexivity | eexists; reflexivity | rewrite parse_undecodable_eq |].
  all: rewrite parse_lines_eq, log_derive_eq; eexists; reflexivity.
Qed.

(** X18: the table that [main] builds holds, for each scenario and in
    the order of [metrics_order], the three capture metrics and the three
    log metrics as the parsers returned them: the dicts of the two
    parsers have no key in common, so [update] overwrites nothing, and no
    [get] falls back to its default 0.  The labels carry the unit in
    parentheses, except the last one, whose unit is empty. *)
Theorem main_table_rows (c1 c2 : Main.capture) (f1 f2 : text_file) :
  exists p1 l1 p2 l2,
    Main.parse_pcap_metrics c1 = Return p1 /\ Main.parse_log_metrics f1 = Return l1 /\
    Main.parse_pcap_metrics c2 = Return p2 /\ Main.parse_log_metrics f2 = Return l2 /\
    dom (Script.pcap_dict p1) ## dom (Script.log_dict l1) /\
    Script.main_table c1 f1 c2 f2 =
    Return (Script.Table
      ["PDR (%)"; "Average End-to-End Delay (ms)"; "Overhead Packets (count)";
       "Energy Consumption (units)"; "Throughput (pkts/sec)"; "Average ETX"]
      [Main.PDR p1; Main.Average_End_to_End_Delay p1; Main.Overhead_Packets l1;
       Main.Energy_Consumption l1; Main.Throughput p1; Main.Average_ETX l1]
      [Main.PDR p2; Main.Average_End_to_End_Delay p2; Main.Overhead_Packets l2;
       Main.Energy_Consumption l2; Main.Throughput p2; Main.Average_ETX l2]).
Proof.
  destruct (pcap_parse_defined c1) as [p1 Hp1].
  destruct (pcap_parse_defined c2) as [p2 Hp2].
  destruct (log_parse_defined f1) as [l1 Hl1].
  destruct (log_parse_defined f2) as [l2 Hl2].
  exists p1, l1, p2, l2.
  split; [exact Hp1|]. split; [exact Hl1|]. split; [exact Hp2|]. split; [exact Hl2|].
  split.
  - unfold Script.pcap_dict, Script.log_dict. rewrite !dom_insert_L, !dom_empty_L.
    apply (bool_decide_unpack _). vm_compute. reflexivity.
  - unfold Script.main_table, Script.scenario. rewrite Hp1, Hl1, Hp2, Hl2.
    clear. destruct p1, l1, p2, l2. vm_compute. reflexivity.
Qed.

(** ** More on the capture metrics *)

Lemma sends_sublist_timestamps (ps : list Main.packet) :
  omap send_time ps `sublist_of` omap Main.sniff_timestamp ps.
Proof.
  induction ps as [|pkt ps IH]; [constructor|].
  cbn [omap list_omap]. fold_omap.
  destruct (send_time pkt) as [t|] eqn:Es.
  - rewrite (send_is_timestamp _ _ Es). apply sublist_skip. exact IH.
  - destruct (Main.sniff_timestamp pkt); [apply sublist_cons|]; exact IH.
Qed.

Lemma sorted_sublist {A} (R : relation A) (l1 l2 : list A) :
  l1 `sublist_of` l2 -> StronglySorted R l2 -> StronglySorted R l1.
Proof.
  induction 1 as [|x l1 l2 Hsub IH|x l1 l2 Hsub IH]; intros Hs.
  - constructor.
  - apply StronglySorted_inv in Hs. destruct Hs as [Hs Hx].
    constructor; [apply IH, Hs|].
    rewrite Forall_forall in *. intros y Hy. apply Hx.
    eapply elem_of_sublist; eassumption.
  - apply StronglySorted_inv in Hs. destruct Hs as [Hs _]. apply IH, Hs.
Qed.

(** X19: when the timestamps of a capture are in order and it has at
    least one reply, the observation duration is the timestamp of the
    last counted packet minus that of the first counted packet. *)
Theorem duration_first_to_last (ps : list Main.packet) (t0 t1 : Q) :
  StronglySorted Qle (omap Main.sniff_timestamp ps) ->
  omap reply_time ps <> [] ->
  head (omap send_time ps) = Some t0 -> last (omap send_time ps) = Some t1 ->
  exists d, Main.duration_of (Main.scan_packets ps) = Return d /\ (d == t1 - t0)%Q.
Proof.
  intros Hs Hne Hh Hl.
  pose proof (sorted_sublist _ _ _ (sends_sublist_timestamps ps) Hs) as Hsend.
  pose proof (duration_of_spec (Main.scan_packets ps)) as Hd. cbn zeta in Hd.
  rewrite scan_packets_view in Hd. cbn [Main.recv_times Main.send_times] in Hd.
  rewrite <- scan_packets_view in Hd.
  assert (Hboth : truthy (omap reply_time ps) && truthy (omap send_time ps) = true).
  { destruct (omap reply_time ps); [congruence|].
    destruct (omap send_time ps); [discriminate | reflexivity]. }
  rewrite Hboth in Hd. destruct Hd as (hi & lo & _ & _ & Hd & Hhi & Hlo & Hall).
  exists (hi - lo)%Q. split; [exact Hd|].
  assert (Hin : forall x, In x (omap reply_time ps ++ omap send_time ps) ->
                          x ∈ omap send_time ps).
  { intros x Hx. apply in_app_or in Hx. destruct Hx as [Hx | Hx].
    - eapply elem_of_sublist; [apply list_elem_of_In, Hx | apply replies_sublist_sends].
    - apply list_elem_of_In, Hx. }
  rewrite Forall_forall in Hall.
  assert (Hfirst : forall x, x ∈ omap send_time ps -> (t0 <= x)%Q).
  { destruct (omap send_time ps) as [|s0 l]; [discriminate|].
    injection Hh as ->. apply StronglySorted_inv in Hsend. destruct Hsend as [_ Hf].
    rewrite Forall_forall in Hf. intros x Hx. apply elem_of_cons in Hx.
    destruct Hx as [-> | Hx]; [apply Qle_refl | apply Hf, Hx]. }
  assert (Hlast : forall x, x ∈ omap send_time ps -> (x <= t1)%Q).
  { apply last_Some in Hl. destruct Hl as [l' El]. rewrite El in *.
    intros x Hx. apply elem_of_app in Hx. destruct Hx as [Hx | Hx].
    - apply (StronglySorted_app_1_elem_of _ _ _ _ _ Hsend Hx).
      apply list_elem_of_singleton. reflexivity.
    - apply list_elem_of_singleton in Hx. subst x. apply Qle_refl. }
  assert (Ht0 : t0 ∈ omap send_time ps).
  { destruct (omap send_time ps); [discriminate|]. injection Hh as ->. left. }
  assert (Ht1 : t1 ∈ omap send_time ps) by (apply last_Some_elem_of, Hl).
  assert (Hll : forall x, x ∈ omap send_time ps -> (lo <= x /\ x <= hi)%Q).
  { intros x Hx. apply Hall. apply elem_of_app. right. exact Hx. }
  pose proof (Hfirst _ (Hin _ Hlo)). pose proof (Hlast _ (Hin _ Hhi)).
  destruct (Hll _ Ht0). destruct (Hll _ Ht1). lra.
Qed.

(** X19 at a capture of three counted packets between 1 s and 4.5 s. *)
Lemma duration_first_to_last_witness :
  exists d,
    Main.duration_of
      (Main.scan_packets [Main.Packet (Some 1%Q) true None;
                          Main.Packet (Some 2%Q) false None;
                          Main.Packet (Some 3%Q) false (Some (Main.TypeInt 129));
                          Main.Packet (Some (9 # 2)%Q) true None])
    = Return d /\ (d == (9 # 2) - 1)%Q.
Proof.
  apply duration_first_to_last.
  - cbn. repeat constructor; discriminate.
  - vm_compute. discriminate.
  - reflexivity.
  - reflexivity.
Defined.

(** X20: the PDR is 0 when no counted packet is a reply, and 100 when
    every counted packet is a reply and there is at least one. *)
Theorem pdr_extremes (ps : list Main.packet) :
  (omap reply_time ps = [] ->
   exists m, Main.parse_pcap_metrics (Main.Packets ps) = Return m /\
             (Main.PDR m == 0)%Q) /\
  (Forall (fun pkt => send_time pkt = reply_time pkt) ps ->
   omap send_time ps <> [] ->
   exists m, Main.parse_pcap_metrics (Main.Packets ps) = Return m /\
             (Main.PDR m == 100)%Q).
Proof.
  destruct (duration_of_defined (Main.scan_packets ps)) as [d Hd].
  rewrite parse_packets_eq, (pcap_derive_eq _ _ Hd).
  split.
  - intros Hr. eexists. split; [reflexivity|]. cbn [Main.PDR].
    rewrite scan_packets_view. cbn [Main.sent Main.received]. rewrite Hr.
    destruct (0 <? _)%nat; [|reflexivity].
    change (float_of_nat (length [])) with 0%Q. unfold Qdiv. rewrite !Qmult_0_l.
    reflexivity.
  - intros Hall Hne. eexists. split; [reflexivity|]. cbn [Main.PDR].
    assert (Heq : omap send_time ps = omap reply_time ps).
    { clear Hne Hd. induction Hall as [|pkt ps Hp _ IH]; [reflexivity|].
      cbn [omap list_omap]. fold_omap. rewrite Hp, IH. reflexivity. }
    rewrite scan_packets_view. cbn [Main.sent Main.received]. rewrite <- Heq.
    assert (Hlen : (0 < length (omap send_time ps))%nat).
    { destruct (omap send_time ps); [congruence | cbn; lia]. }
    rewrite (proj2 (Nat.ltb_lt _ _) Hlen).
    pose proof (float_of_nat_pos _ Hlen) as Hpos.
    field. intros Hz. rewrite Hz in Hpos. exact (Qlt_irrefl _ Hpos).
Qed.

(** X20 at a capture without replies and at a capture of replies only. *)
Lemma pdr_extremes_witness :
  (exists m,
     Main.parse_pcap_metrics
       (Main.Packets [Main.Packet (Some 1%Q) true None;
                      Main.Packet (Some 2%Q) true (Some (Main.TypeInt 128))])
     = Return m /\ (Main.PDR m == 0)%Q) /\
  (exists m,
     Main.parse_pcap_metrics
       (Main.Packets [Main.Packet (Some 1%Q) true (Some (Main.TypeInt 129));
                      Main.Packet None true None;
                      Main.Packet (Some 2%Q) false (Some (Main.TypeInt 2))])
     = Return m /\ (Main.PDR m == 100)%Q).
Proof.
  split.
  - apply (proj1 (pdr_extremes _)). reflexivity.
  - apply (proj2 (pdr_extremes _)); [repeat constructor | vm_compute; discriminate].
Defined.

(** ** A log without sends (omerw.py) *)

(** X21: on a log with no "broadcast message sent" line, [parse_log]
    records no delay sample however many receives there are: in every
    record it returns the PDR and the average delay are 0 and the
    overhead is minus the number of receive lines.  A record is returned
    on every such log whose numbers are within the range of the
    conversions. *)
Theorem omerw_without_sends (py_float : list ascii -> option Q) (ls : list string) :
  Forall (fun line => is_sent_line line = false) ls ->
  Omerw.delays (Omerw.scan_lines py_float ls) = [] /\
  (forall m, Omerw.parse_log py_float (Lines ls) = Return m ->
     (Omerw.PDR m == 0)%Q /\ (Omerw.Average_End_to_End_Delay m == 0)%Q /\
     Omerw.Overhead_Packets m
     = (- Z.of_nat (length (List.filter is_received_line ls)))%Z) /\
  (within_float_range ls = true ->
     exists m, Omerw.parse_log py_float (Lines ls) = Return m /\
       (Omerw.PDR m == 0)%Q /\ (Omerw.Average_End_to_End_Delay m == 0)%Q /\
       Omerw.Overhead_Packets m
       = (- Z.of_nat (length (List.filter is_received_line ls)))%Z).
Proof.
  intros Hall.
  assert (Hd : Omerw.delays (Omerw.scan_lines py_float ls) = []).
  { induction ls as [|line ls IH] using rev_ind; [reflexivity|].
    apply Forall_app in Hall. destruct Hall as [Hls Hline].
    apply Forall_inv in Hline. specialize (IH Hls).
    destruct (omerw_send_times_view py_float ls) as [_ Hv]. cbn zeta in Hv.
    rewrite scan_lines_snoc.
    destruct (omerw_on_line_fields py_float (Omerw.scan_lines py_float ls) line)
      as (_ & _ & _ & -> & _).
    assert (Hst : sent_timestamp line = None).
    { unfold sent_timestamp. unfold is_sent_line in Hline. rewrite Hline. reflexivity. }
    rewrite Hst, Hv, IH.
    rewrite (omap_all_none sent_timestamp ls).
    - cbn. destruct (Omerw.is_received (chars line)); [|reflexivity].
      destruct (Omerw.timestamp_of (chars line)); reflexivity.
    - eapply Forall_impl; [exact Hls|]. cbn. intros l0 H0.
      unfold sent_timestamp. unfold is_sent_line in H0. rewrite H0. reflexivity. }
  split; [exact Hd|].
  destruct (omerw_count_fields py_float ls) as (Hs & Hr & _ & _).
  assert (Hs0 : Omerw.sent_packets (Omerw.scan_lines py_float ls) = 0%nat).
  { rewrite Hs, filter_none; [reflexivity | exact Hall]. }
  assert (Hrec : forall m, Omerw.parse_log py_float (Lines ls) = Return m ->
            (Omerw.PDR m == 0)%Q /\ (Omerw.Average_End_to_End_Delay m == 0)%Q /\
            Omerw.Overhead_Packets m
            = (- Z.of_nat (length (List.filter is_received_line ls)))%Z).
  { intros m Hm. apply omerw_parse_lines_inv, omerw_derive_inv in Hm.
    destruct Hm as (pdr & d & thr & Hp & _ & _ & ->).
    cbn [Omerw.PDR Omerw.Average_End_to_End_Delay Omerw.Overhead_Packets].
    unfold Omerw.pdr_of in Hp. rewrite Hs0 in Hp. cbn in Hp. injection Hp as <-.
    rewrite Hd, Hs0, Hr. cbn [truthy].
    split; [reflexivity|]. split; [reflexivity|]. lia. }
  split; [exact Hrec|]. intros Hrange.
  destruct (omerw_parse_returns py_float ls Hrange) as [m Hm].
  exists m. split; [exact Hm | exact (Hrec m Hm)].
Qed.

(** X21 at a log with two receives and no send. *)
Lemma omerw_without_sends_witness :
  exists m,
    Omerw.parse_log Omerw.float_of_plain
      (Lines ["00:01.000 ID:2 broadcast message received";
              "00:02.000 ID:3 Broadcast message received from 1"]) = Return m /\
    (Omerw.PDR m == 0)%Q /\ (Omerw.Average_End_to_End_Delay m == 0)%Q /\
    Omerw.Overhead_Packets m = (-2)%Z.
Proof.
  destruct (omerw_without_sends Omerw.float_of_plain
              ["00:01.000 ID:2 broadcast message received";
               "00:02.000 ID:3 Broadcast message received from 1"])
    as (_ & _ & Hret).
  - repeat constructor.
  - destruct Hret as (m & Hm & Hp & Hd & Ho); [vm_compute; reflexivity|].
    exists m. split; [exact Hm|]. split; [exact Hp|]. split; [exact Hd|].
    rewrite Ho. vm_compute. reflexivity.
Defined.
